(** * whatsapp-cloud-api-types: the request/validation pipeline

    A shallow embedding of the typed client of the WhatsApp Cloud API:
    the shared transport primitive ([BaseService.request]), the services
    built on it, the services that call [fetch] themselves, and the
    webhook change schemas.

    JavaScript values are a small inductive type, zod schemas are a
    datatype with an interpreter ([parse]), and asynchronous code is a
    state-and-exception monad whose state is the log of [fetch] calls. *)

From Stdlib Require Import ZArith QArith Ascii String List Bool Lia.
From stdpp Require Import base gmap strings list pretty.

Set Warnings "-register-all".
Open Scope string_scope.

(** ** JavaScript values *)

(** The values that cross the library's boundary: what [response.json()]
    yields, what callers hand to a method, what a schema returns.
    A string stands for its sequence of code units, a number for the
    rational it denotes.  An object is its list of own properties in
    insertion order; property names are unique in every object the
    program builds, and a lookup takes the first entry. *)
Inductive Value : Type :=
| VUndefined
| VNull
| VBool (b : bool)
| VNumber (q : Q)
| VString (s : string)
| VArray (items : list Value)
| VObject (props : list (string * Value)).

Definition VInt (z : Z) : Value := VNumber (inject_Z z).

Definition is_empty (s : string) : bool :=
  match s with EmptyString => true | String _ _ => false end.

(** [ToBoolean]: the falsy values are undefined, null, false, 0 and the
    empty string. *)
Definition truthy (v : Value) : bool :=
  match v with
  | VUndefined | VNull => false
  | VBool b => b
  | VNumber q => negb (Qnum q =? 0)%Z
  | VString s => negb (is_empty s)
  | VArray _ | VObject _ => true
  end.

Definition is_undefined (v : Value) : bool :=
  match v with VUndefined => true | _ => false end.

Fixpoint lookup_prop (props : list (string * Value)) (k : string) : option Value :=
  match props with
  | [] => None
  | (k', v) :: rest => if String.eqb k' k then Some v else lookup_prop rest k
  end.

Definition has_prop (props : list (string * Value)) (k : string) : bool :=
  match lookup_prop props k with Some _ => true | None => false end.

(** [v.k] on a value that is neither null nor undefined, and [v?.k] on
    any value: a missing property reads as undefined.  The property names
    of the source ([error], [message], [data], [pin], ...) are never
    built-in properties of strings or arrays. *)
Definition prop (v : Value) (k : string) : Value :=
  match v with
  | VObject props => default VUndefined (lookup_prop props k)
  | _ => VUndefined
  end.

(** [a || b] *)
Definition js_or (a b : Value) : Value := if truthy a then a else b.

(** [obj[k] = v]: an existing property keeps its position. *)
Fixpoint set_prop (props : list (string * Value)) (k : string) (v : Value)
  : list (string * Value) :=
  match props with
  | [] => [(k, v)]
  | (k', v') :: rest =>
      if String.eqb k' k then (k', v) :: rest else (k', v') :: set_prop rest k v
  end.

(** [{...target, ...source}]: spreading undefined, null, a boolean, a number
    or the empty string adds nothing.  The source spreads objects and falsy
    values only, never an array or a non-empty string. *)
Definition spread (target : list (string * Value)) (source : Value)
  : list (string * Value) :=
  match source with
  | VObject props => fold_left (fun acc kv => set_prop acc (fst kv) (snd kv)) props target
  | _ => target
  end.

(** ** The host platform *)

(** What the program takes from the JavaScript runtime and from zod's
    string formats, and does not define itself. *)
Class Runtime : Type := {
  (** [JSON.stringify(v)], applied by the source to objects only *)
  JSON_stringify : Value -> string;
  (** [new URL(s)], then [url.searchParams.set(k, v)] for each pair of
      [params], then [url.toString()]; [None] when the constructor throws *)
  URL_href : string -> list (string * string) -> option string;
  (** [new URLSearchParams()] with each pair of the list appended, then
      [params.toString()] *)
  URLSearchParams_toString : list (string * string) -> string;
  (** zod's [.url()] format *)
  is_url : string -> bool;
  (** zod's [.email()] format *)
  is_email : string -> bool;
  (** [String(v)] for a number, an array or an object, as a template
      literal applies it *)
  String_of : Value -> string
}.

(** [`${v}`] *)
Definition template `{Runtime} (v : Value) : string :=
  match v with
  | VString s => s
  | VUndefined => "undefined"
  | VNull => "null"
  | VBool true => "true"
  | VBool false => "false"
  | _ => String_of v
  end.

(** ** zod schemas *)

Inductive StringCheck : Type :=
| Min (n : nat)
| Max (n : nat)
| Length (n : nat)
| Url
| Email.

Inductive NumberCheck : Type :=
| Int
| NumMin (q : Q)
| NumMax (q : Q).

(** The schema constructors the repository uses.  [ZArray] carries the
    optional [.max(n)] bound on the number of items. *)
Inductive Schema : Type :=
| ZString (checks : list StringCheck)
| ZNumber (checks : list NumberCheck)
| ZBoolean
| ZLiteral (lit : string)
| ZEnum (options : list string)
| ZArray (item : Schema) (max_items : option nat)
| ZObject (shape : list (string * Schema))
| ZOptional (inner : Schema)
| ZDefault (inner : Schema) (dflt : Value)
| ZUnion (alternatives : list Schema)
| ZAny.

Definition string_check `{Runtime} (s : string) (c : StringCheck) : bool :=
  match c with
  | Min n => (n <=? String.length s)%nat
  | Max n => (String.length s <=? n)%nat
  | Length n => (String.length s =? n)%nat
  | Url => is_url s
  | Email => is_email s
  end.

(** [Number.isInteger] on a finite number *)
Definition is_integer (q : Q) : bool := (Qden (Qred q) =? 1)%positive.

Definition number_check (q : Q) (c : NumberCheck) : bool :=
  match c with
  | Int => is_integer q
  | NumMin m => if Qlt_le_dec q m then false else true
  | NumMax m => if Qlt_le_dec m q then false else true
  end.

Definition mem_string (s : string) (l : list string) : bool :=
  existsb (String.eqb s) l.

(** The three traversals of [parse], over the items of an array, the
    keys of an object shape and the alternatives of a union. *)
Definition parse_items (p : Value -> option Value)
  : list Value -> option (list Value) :=
  fix each (l : list Value) : option (list Value) :=
    match l with
    | [] => Some []
    | x :: rest =>
        match p x, each rest with
        | Some x', Some rest' => Some (x' :: rest')
        | _, _ => None
        end
    end.

Definition parse_shape (p : Schema -> Value -> option Value)
    (props : list (string * Value))
  : list (string * Schema) -> option (list (string * Value)) :=
  fix fields (sh : list (string * Schema)) : option (list (string * Value)) :=
    match sh with
    | [] => Some []
    | (k, sk) :: rest =>
        match p sk (prop (VObject props) k), fields rest with
        | Some r, Some out =>
            if has_prop props k || negb (is_undefined r)
            then Some ((k, r) :: out) else Some out
        | _, _ => None
        end
    end.

Definition parse_first (p : Schema -> Value -> option Value) (v : Value)
  : list Schema -> option Value :=
  fix first (alts : list Schema) : option Value :=
    match alts with
    | [] => None
    | a :: rest =>
        match p a v with
        | Some out => Some out
        | None => first rest
        end
    end.

(** [schema.safeParse(v)]: [Some out] on success, [None] when zod reports
    issues (their text is not modelled).  An object schema strips the
    properties its shape does not name; a key of the shape is set in the
    output when the input has it or when its parsed value is defined. *)
Fixpoint parse `{Runtime} (s : Schema) (v : Value) {struct s} : option Value :=
  match s with
  | ZString checks =>
      match v with
      | VString str => if forallb (string_check str) checks then Some v else None
      | _ => None
      end
  | ZNumber checks =>
      match v with
      | VNumber q => if forallb (number_check q) checks then Some v else None
      | _ => None
      end
  | ZBoolean => match v with VBool _ => Some v | _ => None end
  | ZLiteral lit =>
      match v with
      | VString str => if String.eqb str lit then Some v else None
      | _ => None
      end
  | ZEnum options =>
      match v with
      | VString str => if mem_string str options then Some v else None
      | _ => None
      end
  | ZArray item max_items =>
      match v with
      | VArray items =>
          let fits :=
            match max_items with
            | Some n => (length items <=? n)%nat
            | None => true
            end in
          match parse_items (parse item) items with
          | Some out => if fits then Some (VArray out) else None
          | None => None
          end
      | _ => None
      end
  | ZObject shape =>
      match v with
      | VObject props => option_map VObject (parse_shape parse props shape)
      | _ => None
      end
  | ZOptional inner =>
      match v with
      | VUndefined => Some VUndefined
      | _ => parse inner v
      end
  | ZDefault inner dflt =>
      match v with
      | VUndefined => parse inner dflt
      | _ => parse inner v
      end
  | ZUnion alternatives => parse_first parse v alternatives
  | ZAny => Some v
  end.

(** ** HTTP and asynchronous code *)

Inductive Method : Type := GET | POST | DELETE | PUT | PATCH.

Inductive FormValue : Type :=
| FormText (s : string)
| FormBlob (content : list Byte.byte) (type filename : string).

(** [body?: string | FormData] *)
Inductive Body : Type :=
| BodyString (s : string)
| BodyFormData (entries : list (string * FormValue)).

(** [Partial<FetchOptions>].  An absent header map is the empty one: the
    source only ever spreads it. *)
Record FetchOptions : Type := {
  method : option Method;
  headers : gmap string string;
  body : option Body
}.

(** One call of [fetch(url, init)]. *)
Record Request : Type := {
  req_url : string;
  req_method : Method;
  req_headers : gmap string string;
  req_body : option Body
}.

(** A [Response] by what the source reads of it.  [json] is the result of
    [response.json()], [None] when the payload is not JSON. *)
Record Response : Type := {
  status : Z;
  statusText : string;
  json : option Value
}.

(** [response.ok] *)
Definition ok (r : Response) : bool := (200 <=? status r)%Z && (status r <=? 299)%Z.

(** [fetch] resolves with a response or rejects (connectivity). *)
Inductive FetchResult : Type :=
| Answered (r : Response)
| NetworkFailure.

Definition Network : Type := Request -> FetchResult.

(** What the code throws. *)
Inductive Exn : Type :=
| ZodError
| WhatsAppApiError (code message type subcode fbtraceId : Value)
| Error (message : string)
| TypeError
| SyntaxError.

(** An asynchronous computation: it reads the network, extends the log of
    the [fetch] calls made so far, and returns or throws. *)
Definition Async (A : Type) : Type :=
  Network -> list Request -> (Exn + A) * list Request.

Definition ret {A} (a : A) : Async A := fun _ log => (inr a, log).

Definition throw {A} (e : Exn) : Async A := fun _ log => (inl e, log).

Definition bind {A B} (m : Async A) (k : A -> Async B) : Async B :=
  fun net log =>
    match m net log with
    | (inr a, log') => k a net log'
    | (inl e, log') => (inl e, log')
    end.

(** [try { m } catch { h }] *)
Definition try_catch {A} (m : Async A) (h : Async A) : Async A :=
  fun net log =>
    match m net log with
    | (inr a, log') => (inr a, log')
    | (inl _, log') => h net log'
    end.

Notation "'let*' x ':=' m 'in' k" := (bind m (fun x => k))
  (at level 10, x name, m at level 100, k at level 200).

(** [await fetch(url, init)] *)
Definition fetch (r : Request) : Async Response :=
  fun net log =>
    match net r with
    | Answered resp => (inr resp, (log ++ [r])%list)
    | NetworkFailure => (inl TypeError, (log ++ [r])%list)
    end.

(** [await response.json()] *)
Definition response_json (r : Response) : Async Value :=
  match json r with
  | Some v => ret v
  | None => throw SyntaxError
  end.

(** [schema.parse(v)] *)
Definition zparse `{Runtime} (s : Schema) (v : Value) : Async Value :=
  match parse s v with
  | Some out => ret out
  | None => throw ZodError
  end.

(** [new URL(s)] with its search parameters, read back by [url.toString()] *)
Definition new_URL `{Runtime} (s : string) (params : list (string * string))
  : Async string :=
  match URL_href s params with
  | Some href => ret href
  | None => throw TypeError
  end.

(** Running an operation from an empty log. *)
Definition run {A} (m : Async A) (net : Network) : (Exn + A) * list Request :=
  m net [].

(** ** src/client/config.ts *)

Record WhatsAppConfig : Type := {
  accessToken : string;
  phoneNumberId : string;
  wabaId : option string;
  version : string;
  baseUrl : string
}.

Definition WhatsAppConfigSchema : Schema :=
  ZObject [
    ("accessToken", ZString [Min 1]);
    ("phoneNumberId", ZString [Min 1]);
    ("wabaId", ZOptional (ZString []));
    ("version", ZDefault (ZString []) (VString "v21.0"));
    ("baseUrl", ZDefault (ZString [Url]) (VString "https://graph.facebook.com"))
  ].

Definition opt_string (o : option string) : Value :=
  match o with Some s => VString s | None => VUndefined end.

Definition config_value (c : WhatsAppConfig) : Value :=
  VObject [
    ("accessToken", VString (accessToken c));
    ("phoneNumberId", VString (phoneNumberId c));
    ("wabaId", opt_string (wabaId c));
    ("version", VString (version c));
    ("baseUrl", VString (baseUrl c))
  ].

(** A configuration the schema accepts unchanged. *)
Definition valid_config `{Runtime} (c : WhatsAppConfig) : Prop :=
  parse WhatsAppConfigSchema (config_value c) = Some (config_value c).

Definition ApiErrorSchema : Schema :=
  ZObject [
    ("error", ZObject [
      ("message", ZString []);
      ("type", ZString []);
      ("code", ZNumber []);
      ("error_subcode", ZOptional (ZNumber []));
      ("fbtrace_id", ZString [])
    ])
  ].

Definition body_truthy (b : option Body) : bool :=
  match b with
  | None => false
  | Some (BodyString s) => negb (is_empty s)
  | Some (BodyFormData _) => true
  end.

Definition is_FormData (b : option Body) : bool :=
  match b with
  | Some (BodyFormData _) => true
  | _ => false
  end.

Module BaseService.

Definition buildUrl (config : WhatsAppConfig) (path : string) : string :=
  baseUrl config +:+ "/" +:+ version config +:+ "/" +:+ path.

(** [{ Authorization: ..., ...options.headers }]: the entries spread
    last win, so the union is biased to the caller's map. *)
Definition request_headers (config : WhatsAppConfig) (options : FetchOptions)
  : gmap string string :=
  let headers :=
    headers options ∪ {[ "Authorization" := "Bearer " +:+ accessToken config ]} in
  if body_truthy (body options) && negb (is_FormData (body options))
  then <[ "Content-Type" := "application/json" ]> headers
  else headers.

(** The call [fetch(url, { method: options.method || 'GET', headers,
    body: options.body })] of [request]. *)
Definition fetch_call (config : WhatsAppConfig) (path : string)
    (options : FetchOptions) : Request :=
  let url := buildUrl config path in
  let headers := request_headers config options in
  {| req_url := url;
     req_method := default GET (method options);
     req_headers := headers;
     req_body := body options |}.

Definition request `{Runtime} (config : WhatsAppConfig) (path : string)
    (options : FetchOptions) : Async Value :=
  let* response := fetch (fetch_call config path options) in
  let* data := response_json response in
  if negb (ok response) then
    match parse ApiErrorSchema data with
    | Some result =>
        let error := prop result "error" in
        throw (WhatsAppApiError (prop error "code") (prop error "message")
                 (prop error "type") (prop error "error_subcode")
                 (prop error "fbtrace_id"))
    | None =>
        throw (Error ("API request failed with status "
                      +:+ pretty (status response) +:+ ": "
                      +:+ JSON_stringify data))
    end
  else ret data.

End BaseService.

(** The options the services pass: a method and, for some, a JSON body. *)
Definition with_method (m : Method) : FetchOptions :=
  {| method := Some m; headers := ∅; body := None |}.

Definition with_json `{Runtime} (m : Method) (payload : Value) : FetchOptions :=
  {| method := Some m; headers := ∅;
     body := Some (BodyString (JSON_stringify payload)) |}.

(** ** JavaScript operators the services use *)

(** [a && b] *)
Definition js_and (a b : Value) : Value := if truthy a then b else a.

(** [v === 'lit'] *)
Definition strict_eq_string (v : Value) (lit : string) : bool :=
  match v with
  | VString s => String.eqb s lit
  | _ => false
  end.

(** [v.k] where [v] may be null: reading a property of null or undefined
    throws. *)
Definition member (v : Value) (k : string) : Async Value :=
  match v with
  | VUndefined | VNull => throw TypeError
  | _ => ret (prop v k)
  end.

(** [items.join(',')] on an array of strings *)
Definition join `{Runtime} (items : list Value) : string :=
  String.concat "," (map template items).

(** [this.config.wabaId] as a value *)
Definition wabaId_value (config : WhatsAppConfig) : Value :=
  opt_string (wabaId config).

(** ** src/client/services/two-step-verification.ts *)

Module TwoStepVerificationService.

Definition TwoStepVerificationPinSchema : Schema :=
  ZObject [("pin", ZString [Length 6])].

Definition TwoStepVerificationResponseSchema : Schema :=
  ZObject [("success", ZBoolean)].

Definition setPin `{Runtime} (config : WhatsAppConfig) (pin : string)
  : Async Value :=
  let* payload :=
    zparse TwoStepVerificationPinSchema (VObject [("pin", VString pin)]) in
  let* response :=
    BaseService.request config (phoneNumberId config) (with_json POST payload) in
  zparse TwoStepVerificationResponseSchema response.

Definition removePin `{Runtime} (config : WhatsAppConfig) : Async Value :=
  let payload := VObject [("pin", VString EmptyString)] in
  let* response :=
    BaseService.request config (phoneNumberId config) (with_json POST payload) in
  zparse TwoStepVerificationResponseSchema response.

End TwoStepVerificationService.

(** ** The business service (src/unnamed/part_000) *)

Module BusinessService.

Definition BusinessProfileSchema : Schema :=
  ZObject [
    ("about", ZOptional (ZString [Max 256]));
    ("address", ZOptional (ZString [Max 256]));
    ("description", ZOptional (ZString [Max 512]));
    ("email", ZOptional (ZString [Email]));
    ("messaging_product", ZLiteral "whatsapp");
    ("profile_picture_url", ZOptional (ZString [Url]));
    ("websites", ZOptional (ZArray (ZString [Url]) (Some 2%nat)));
    ("vertical", ZOptional (ZEnum [
      "AUTOMOTIVE"; "BEAUTY"; "APPAREL"; "EDU"; "ENTERTAIN"; "EVENT_PLAN";
      "FINANCE"; "GROCERY"; "GOVT"; "HOTEL"; "HEALTH"; "NONPROFIT";
      "PROF_SERVICES"; "RETAIL"; "TRAVEL"; "RESTAURANT"; "NOT_A_BIZ"
    ]))
  ].

Definition BusinessProfileResponseSchema : Schema :=
  ZObject [("data", ZArray BusinessProfileSchema None)].

Definition UpdateBusinessProfileResponseSchema : Schema :=
  ZObject [("success", ZBoolean)].

Definition CommerceSettingsSchema : Schema :=
  ZObject [
    ("is_catalog_visible", ZOptional ZBoolean);
    ("is_cart_enabled", ZOptional ZBoolean)
  ].

Definition CommerceSettingsResponseSchema : Schema :=
  ZObject [
    ("data", ZArray (ZObject [
      ("id", ZString []);
      ("is_catalog_visible", ZBoolean);
      ("is_cart_enabled", ZBoolean)
    ]) None)
  ].

Definition PhoneNumberInfoSchema : Schema :=
  ZObject [
    ("verified_name", ZString []);
    ("display_phone_number", ZString []);
    ("quality_rating", ZEnum ["GREEN"; "YELLOW"; "RED"; "UNKNOWN"]);
    ("id", ZString [])
  ].

(** [fields] is [None] for an omitted argument. *)
Definition getProfile `{Runtime} (config : WhatsAppConfig)
    (fields : option (list string)) : Async Value :=
  let joined :=
    match fields with
    | Some l => VString (String.concat "," l)
    | None => VUndefined
    end in
  let fieldsParam :=
    template (js_or joined (VString
      "about,address,description,email,profile_picture_url,websites,vertical")) in
  let* response :=
    BaseService.request config
      (phoneNumberId config +:+ "/whatsapp_business_profile?fields=" +:+ fieldsParam)
      (with_method GET) in
  zparse BusinessProfileResponseSchema response.

Definition updateProfile `{Runtime} (config : WhatsAppConfig) (profile : Value)
  : Async Value :=
  let payload :=
    VObject (spread [("messaging_product", VString "whatsapp")] profile) in
  let* response :=
    BaseService.request config
      (phoneNumberId config +:+ "/whatsapp_business_profile")
      (with_json POST payload) in
  zparse UpdateBusinessProfileResponseSchema response.

Definition getCommerceSettings `{Runtime} (config : WhatsAppConfig)
  : Async Value :=
  if negb (truthy (wabaId_value config)) then
    throw (Error "wabaId is required to get commerce settings")
  else
    let* response :=
      BaseService.request config
        (template (wabaId_value config)
         +:+ "/whatsapp_commerce_settings?fields=is_catalog_visible,is_cart_enabled")
        (with_method GET) in
    zparse CommerceSettingsResponseSchema response.

Definition updateCommerceSettings `{Runtime} (config : WhatsAppConfig)
    (settings : Value) : Async Value :=
  if negb (truthy (wabaId_value config)) then
    throw (Error "wabaId is required to update commerce settings")
  else
    let* response :=
      BaseService.request config
        (template (wabaId_value config) +:+ "/whatsapp_commerce_settings")
        (with_json POST settings) in
    zparse UpdateBusinessProfileResponseSchema response.

Definition getPhoneNumberInfo `{Runtime} (config : WhatsAppConfig)
  : Async Value :=
  let* response :=
    BaseService.request config
      (phoneNumberId config
       +:+ "?fields=verified_name,display_phone_number,quality_rating")
      (with_method GET) in
  zparse PhoneNumberInfoSchema response.

Definition registerPhoneNumber `{Runtime} (config : WhatsAppConfig)
    (pin : string) : Async Value :=
  let payload :=
    VObject [("messaging_product", VString "whatsapp"); ("pin", VString pin)] in
  BaseService.request config (phoneNumberId config +:+ "/register")
    (with_json POST payload).

Definition deregisterPhoneNumber `{Runtime} (config : WhatsAppConfig)
  : Async Value :=
  BaseService.request config (phoneNumberId config +:+ "/deregister")
    (with_method POST).

End BusinessService.

(** ** The QR codes service (src/unnamed/part_002) *)

Module QRCodesService.

Definition CreateQRCodeSchema : Schema :=
  ZObject [
    ("prefilled_message", ZOptional (ZString [Max 1000]));
    ("generate_qr_image", ZOptional (ZEnum ["PNG"; "SVG"]))
  ].

Definition QRCodeResponseSchema : Schema :=
  ZObject [
    ("code", ZString []);
    ("prefilled_message", ZOptional (ZString []));
    ("deep_link_url", ZString [Url]);
    ("qr_image_url", ZOptional (ZString [Url]))
  ].

Definition QRCodeListResponseSchema : Schema :=
  ZObject [
    ("data", ZArray (ZObject [
      ("code", ZString []);
      ("prefilled_message", ZOptional (ZString []));
      ("deep_link_url", ZString [Url])
    ]) None)
  ].

Definition UpdateQRCodeSchema : Schema :=
  ZObject [("prefilled_message", ZString [Max 1000])].

Definition QRCodeDeleteResponseSchema : Schema :=
  ZObject [("success", ZBoolean)].

Definition create `{Runtime} (config : WhatsAppConfig) (options : Value)
  : Async Value :=
  let* validatedOptions :=
    if truthy options then zparse CreateQRCodeSchema options
    else ret VUndefined in
  let* response :=
    BaseService.request config (phoneNumberId config +:+ "/message_qrdls")
      {| method := Some POST; headers := ∅;
         body := if truthy validatedOptions
                 then Some (BodyString (JSON_stringify validatedOptions))
                 else None |} in
  zparse QRCodeResponseSchema response.

Definition list_ `{Runtime} (config : WhatsAppConfig) : Async Value :=
  let* response :=
    BaseService.request config (phoneNumberId config +:+ "/message_qrdls")
      (with_method GET) in
  zparse QRCodeListResponseSchema response.

Definition get `{Runtime} (config : WhatsAppConfig) (qrCodeId : string)
  : Async Value :=
  let* response :=
    BaseService.request config
      (phoneNumberId config +:+ "/message_qrdls/" +:+ qrCodeId)
      (with_method GET) in
  zparse QRCodeResponseSchema response.

Definition update `{Runtime} (config : WhatsAppConfig) (qrCodeId : string)
    (updates : Value) : Async Value :=
  let* validatedUpdates := zparse UpdateQRCodeSchema updates in
  let* response :=
    BaseService.request config
      (phoneNumberId config +:+ "/message_qrdls/" +:+ qrCodeId)
      (with_json POST validatedUpdates) in
  ret response.

Definition delete `{Runtime} (config : WhatsAppConfig) (qrCodeId : string)
  : Async Value :=
  let* response :=
    BaseService.request config
      (phoneNumberId config +:+ "/message_qrdls/" +:+ qrCodeId)
      (with_method DELETE) in
  zparse QRCodeDeleteResponseSchema response.

(** [format] is [None] for an omitted argument, which defaults to PNG. *)
Definition getImage `{Runtime} (config : WhatsAppConfig) (qrCodeId : string)
    (format : option string) : Async Value :=
  let params :=
    URLSearchParams_toString [("generate_qr_image", default "PNG" format)] in
  let* response :=
    BaseService.request config
      (phoneNumberId config +:+ "/message_qrdls/" +:+ qrCodeId +:+ "?" +:+ params)
      (with_method GET) in
  zparse QRCodeResponseSchema response.

End QRCodesService.

(** ** The registration service (src/unnamed/part_003, first file) *)

Module RegistrationService.

Definition PhoneNumberRegistrationSchema : Schema :=
  ZObject [
    ("messaging_product", ZLiteral "whatsapp");
    ("pin", ZString [Length 6])
  ].

Definition PhoneNumberRegistrationResponseSchema : Schema :=
  ZObject [("success", ZBoolean)].

Definition PhoneNumberInfoSchema : Schema :=
  ZObject [
    ("id", ZString []);
    ("verified_name", ZString []);
    ("display_phone_number", ZString []);
    ("quality_rating", ZEnum ["GREEN"; "YELLOW"; "RED"; "UNKNOWN"]);
    ("platform_type", ZEnum ["CLOUD_API"; "NOT_APPLICABLE"]);
    ("throughput", ZObject [
      ("level", ZEnum ["STANDARD"; "HIGH"; "VERY_HIGH"; "UNLIMITED"])
    ]);
    ("webhook_configuration", ZOptional (ZObject [
      ("application", ZOptional (ZString []));
      ("whatsapp_business_account", ZOptional (ZString []))
    ]));
    ("last_onboarded_time", ZOptional (ZString []));
    ("code_verification_status",
      ZOptional (ZEnum ["VERIFIED"; "NOT_VERIFIED"; "EXPIRED"]));
    ("account_mode", ZOptional (ZEnum ["SANDBOX"; "LIVE"]));
    ("certificate", ZOptional (ZString []));
    ("name_status", ZOptional (ZEnum [
      "APPROVED"; "AVAILABLE_WITHOUT_REVIEW"; "DECLINED"; "PENDING_REVIEW"; "NONE"
    ]));
    ("new_name_status", ZOptional (ZEnum [
      "APPROVED"; "AVAILABLE_WITHOUT_REVIEW"; "DECLINED"; "PENDING_REVIEW"; "NONE"
    ]));
    ("status", ZOptional (ZEnum [
      "CONNECTED"; "DISCONNECTED"; "DELETED"; "MIGRATED"; "BANNED";
      "RESTRICTED"; "RATE_LIMITED"; "FLAGGED"; "PENDING"
    ]));
    ("is_official_business_account", ZOptional ZBoolean)
  ].

Definition PhoneNumberSettingsSchema : Schema :=
  ZObject [
    ("messaging_product", ZLiteral "whatsapp");
    ("pin", ZOptional (ZString [Length 6]))
  ].

Definition DeregisterPhoneNumberSchema : Schema :=
  ZObject [("success", ZBoolean)].

Definition RequestCodeSchema : Schema :=
  ZObject [
    ("code_method", ZEnum ["SMS"; "VOICE"]);
    ("language", ZDefault (ZOptional (ZString [])) (VString "en_US"))
  ].

Definition RequestCodeResponseSchema : Schema :=
  ZObject [("success", ZBoolean)].

Definition VerifyCodeSchema : Schema := ZObject [("code", ZString [])].

Definition VerifyCodeResponseSchema : Schema :=
  ZObject [("success", ZBoolean)].

Definition register `{Runtime} (config : WhatsAppConfig) (pin : string)
  : Async Value :=
  let* payload :=
    zparse PhoneNumberRegistrationSchema
      (VObject [("messaging_product", VString "whatsapp"); ("pin", VString pin)]) in
  let* response :=
    BaseService.request config (phoneNumberId config +:+ "/register")
      (with_json POST payload) in
  zparse PhoneNumberRegistrationResponseSchema response.

Definition deregister `{Runtime} (config : WhatsAppConfig) : Async Value :=
  let* response :=
    BaseService.request config (phoneNumberId config +:+ "/deregister")
      (with_method POST) in
  zparse DeregisterPhoneNumberSchema response.

Definition getInfo `{Runtime} (config : WhatsAppConfig)
    (fields : option (list string)) : Async Value :=
  let params :=
    match fields with
    | Some (f :: fs) => [("fields", String.concat "," (f :: fs))]
    | _ => [("fields",
             "id,verified_name,display_phone_number,quality_rating,platform_type,throughput,webhook_configuration,last_onboarded_time,code_verification_status,account_mode,certificate,name_status,new_name_status,status,is_official_business_account")]
    end in
  let* response :=
    BaseService.request config
      (phoneNumberId config +:+ "?" +:+ URLSearchParams_toString params)
      (with_method GET) in
  zparse PhoneNumberInfoSchema response.

(** [language] is [None] for an omitted argument, which defaults to
    en_US. *)
Definition requestCode `{Runtime} (config : WhatsAppConfig)
    (codeMethod : string) (language : option string) : Async Value :=
  let* payload :=
    zparse RequestCodeSchema
      (VObject [("code_method", VString codeMethod);
                ("language", VString (default "en_US" language))]) in
  let* response :=
    BaseService.request config (phoneNumberId config +:+ "/request_code")
      (with_json POST payload) in
  zparse RequestCodeResponseSchema response.

Definition verifyCode `{Runtime} (config : WhatsAppConfig) (code : string)
  : Async Value :=
  let* payload := zparse VerifyCodeSchema (VObject [("code", VString code)]) in
  let* response :=
    BaseService.request config (phoneNumberId config +:+ "/verify_code")
      (with_json POST payload) in
  zparse VerifyCodeResponseSchema response.

(** [settings.pin] throws on a null or undefined [settings] before
    anything is sent; the second read of the same property gives what the
    first gave. *)
Definition updateSettings `{Runtime} (config : WhatsAppConfig)
    (settings : Value) : Async Value :=
  let* pin := member settings "pin" in
  let payload :=
    VObject (spread [("messaging_product", VString "whatsapp")]
               (js_and pin (VObject [("pin", pin)]))) in
  let* response :=
    BaseService.request config (phoneNumberId config) (with_json POST payload) in
  ret response.

End RegistrationService.

(** ** The templates service (src/unnamed/part_003, second file) *)

Module TemplatesService.

Definition CreateTemplateSchema : Schema :=
  ZObject [
    ("name", ZString []);
    ("language", ZString []);
    ("category", ZEnum ["AUTHENTICATION"; "MARKETING"; "UTILITY"]);
    ("components", ZArray (ZObject [
      ("type", ZEnum ["HEADER"; "BODY"; "FOOTER"; "BUTTONS"; "CAROUSEL"]);
      ("format", ZOptional (ZEnum ["TEXT"; "IMAGE"; "VIDEO"; "DOCUMENT"; "LOCATION"]));
      ("text", ZOptional (ZString []));
      ("buttons", ZOptional (ZArray (ZObject [
        ("type", ZEnum ["PHONE_NUMBER"; "URL"; "QUICK_REPLY"; "COPY_CODE"]);
        ("text", ZString []);
        ("url", ZOptional (ZString []));
        ("phone_number", ZOptional (ZString []));
        ("example", ZOptional (ZArray (ZString []) None))
      ]) None));
      ("example", ZOptional (ZObject [
        ("header_text", ZOptional (ZArray (ZString []) None));
        ("header_handle", ZOptional (ZArray (ZString []) None));
        ("body_text", ZOptional (ZArray (ZArray (ZString []) None) None))
      ]));
      ("cards", ZOptional (ZArray (ZObject [
        ("components", ZArray ZAny None)
      ]) None))
    ]) None);
    ("allow_category_change", ZOptional ZBoolean)
  ].

Definition TemplateResponseSchema : Schema :=
  ZObject [
    ("id", ZString []);
    ("status", ZEnum ["PENDING"; "APPROVED"; "REJECTED"; "PAUSED"; "DISABLED"]);
    ("category", ZEnum ["AUTHENTICATION"; "MARKETING"; "UTILITY"]);
    ("name", ZOptional (ZString []));
    ("language", ZOptional (ZString []));
    ("rejected_reason", ZOptional (ZString []))
  ].

Definition TemplateListResponseSchema : Schema :=
  ZObject [
    ("data", ZArray (ZObject [
      ("id", ZString []);
      ("name", ZString []);
      ("status", ZEnum ["PENDING"; "APPROVED"; "REJECTED"; "PAUSED"; "DISABLED"]);
      ("category", ZEnum ["AUTHENTICATION"; "MARKETING"; "UTILITY"]);
      ("language", ZString []);
      ("components", ZOptional (ZArray ZAny None));
      ("rejected_reason", ZOptional (ZString []))
    ]) None);
    ("paging", ZOptional (ZObject [
      ("cursors", ZOptional (ZObject [
        ("before", ZOptional (ZString []));
        ("after", ZOptional (ZString []))
      ]));
      ("next", ZOptional (ZString []));
      ("previous", ZOptional (ZString []))
    ]))
  ].

Definition TemplateDeleteResponseSchema : Schema :=
  ZObject [("success", ZBoolean)].

(** The query parameters [limit] and [after] of [list] and
    [getByStatus], appended when truthy. *)
Definition paging_params `{Runtime} (options : Value) : list (string * string) :=
  ((if truthy (prop options "limit")
    then [("limit", template (prop options "limit"))] else [])
   ++ (if truthy (prop options "after")
       then [("after", template (prop options "after"))] else []))%list.

Definition create `{Runtime} (config : WhatsAppConfig) (template_ : Value)
  : Async Value :=
  let* validatedTemplate := zparse CreateTemplateSchema template_ in
  let* response :=
    BaseService.request config
      (template (wabaId_value config) +:+ "/message_templates")
      (with_json POST validatedTemplate) in
  zparse TemplateResponseSchema response.

Definition list_ `{Runtime} (config : WhatsAppConfig) (options : Value)
  : Async Value :=
  let queryString := URLSearchParams_toString (paging_params options) in
  let path :=
    template (wabaId_value config) +:+ "/message_templates"
    +:+ (if is_empty queryString then EmptyString else "?" +:+ queryString) in
  let* response := BaseService.request config path (with_method GET) in
  zparse TemplateListResponseSchema response.

Definition get `{Runtime} (config : WhatsAppConfig) (templateId : string)
  : Async Value :=
  let* response := BaseService.request config templateId (with_method GET) in
  zparse TemplateResponseSchema response.

Definition delete `{Runtime} (config : WhatsAppConfig) (name : string)
    (options : Value) : Async Value :=
  let params :=
    ([("name", name)]
     ++ (if truthy (prop options "hsm_id")
         then [("hsm_id", template (prop options "hsm_id"))] else []))%list in
  let* response :=
    BaseService.request config
      (template (wabaId_value config) +:+ "/message_templates?"
       +:+ URLSearchParams_toString params)
      (with_method DELETE) in
  zparse TemplateDeleteResponseSchema response.

Definition update `{Runtime} (config : WhatsAppConfig) (templateId : string)
    (updates : Value) : Async Value :=
  let* response :=
    BaseService.request config templateId (with_json POST updates) in
  zparse TemplateResponseSchema response.

Definition getByName `{Runtime} (config : WhatsAppConfig) (name : string)
  : Async Value :=
  let* response :=
    BaseService.request config
      (template (wabaId_value config) +:+ "/message_templates?"
       +:+ URLSearchParams_toString [("name", name)])
      (with_method GET) in
  zparse TemplateListResponseSchema response.

Definition getByStatus `{Runtime} (config : WhatsAppConfig) (status_ : string)
    (options : Value) : Async Value :=
  let params := ([("status", status_)] ++ paging_params options)%list in
  let* response :=
    BaseService.request config
      (template (wabaId_value config) +:+ "/message_templates?"
       +:+ URLSearchParams_toString params)
      (with_method GET) in
  zparse TemplateListResponseSchema response.

End TemplatesService.

(** ** Services that call [fetch] themselves *)

(** The failure branch the account-level services share:
    [const error = await response.json()] followed by
    [throw new Error(`<prefix>${error.error?.message || response.statusText}`)]. *)
Definition fail_with `{Runtime} {A} (prefix : string) (response : Response)
  : Async A :=
  let* error := response_json response in
  let* inner := member error "error" in
  throw (Error (prefix +:+ template (js_or (prop inner "message")
                                            (VString (statusText response))))).

(** [{ Authorization: `Bearer ${this.config.accessToken}` }] *)
Definition bearer (config : WhatsAppConfig) : gmap string string :=
  {[ "Authorization" := "Bearer " +:+ accessToken config ]}.

(** The search parameters [fields], [limit], [after], [before] set from
    validated list options, each when present. *)
Definition list_params `{Runtime} (validatedOptions : Value)
  : list (string * string) :=
  ((match prop validatedOptions "fields" with
    | VArray (f :: fs) => [("fields", join (f :: fs))]
    | _ => []
    end)
   ++ (if truthy (prop validatedOptions "limit")
       then [("limit", template (prop validatedOptions "limit"))] else [])
   ++ (if truthy (prop validatedOptions "after")
       then [("after", template (prop validatedOptions "after"))] else [])
   ++ (if truthy (prop validatedOptions "before")
       then [("before", template (prop validatedOptions "before"))] else []))%list.

(** [fields && fields.length > 0] on an optional array argument *)
Definition fields_param (fields : option (list string)) : list (string * string) :=
  match fields with
  | Some (f :: fs) => [("fields", String.concat "," (f :: fs))]
  | _ => []
  end.

(** ** src/client/services/waba.ts, first file *)

Module WABAService.

Definition WABASchema : Schema :=
  ZObject [
    ("id", ZString []);
    ("name", ZOptional (ZString []));
    ("timezone_id", ZOptional (ZString []));
    ("message_template_namespace", ZOptional (ZString []));
    ("account_review_status",
      ZOptional (ZEnum ["APPROVED"; "PENDING"; "REJECTED"]));
    ("business_verification_status",
      ZOptional (ZEnum ["VERIFIED"; "UNVERIFIED"; "PENDING"]));
    ("currency", ZOptional (ZString []));
    ("owner_business_info", ZOptional (ZObject [
      ("id", ZString []);
      ("name", ZOptional (ZString []));
      ("verification_status", ZOptional (ZString []))
    ]))
  ].

Definition WABAListResponseSchema : Schema :=
  ZObject [
    ("data", ZArray WABASchema None);
    ("paging", ZOptional (ZObject [
      ("cursors", ZOptional (ZObject [
        ("before", ZOptional (ZString []));
        ("after", ZOptional (ZString []))
      ]));
      ("next", ZOptional (ZString []));
      ("previous", ZOptional (ZString []))
    ]))
  ].

Definition WABAFieldsSchema : Schema :=
  ZEnum [
    "id"; "name"; "timezone_id"; "message_template_namespace";
    "account_review_status"; "business_verification_status"; "currency";
    "owner_business_info"
  ].

Definition ListWABAOptionsSchema : Schema :=
  ZOptional (ZObject [
    ("fields", ZOptional (ZArray WABAFieldsSchema None));
    ("limit", ZOptional (ZNumber [Int; NumMin (inject_Z 1); NumMax (inject_Z 100)]));
    ("after", ZOptional (ZString []));
    ("before", ZOptional (ZString []))
  ]).

(** The instance: [this.config] and [this.baseUrl]. *)
Record t : Type := {
  this_config : WhatsAppConfig;
  this_baseUrl : string
}.

Definition new (config : WhatsAppConfig) : t :=
  {| this_config := config;
     this_baseUrl := "https://graph.facebook.com/" +:+ version config |}.

Definition get `{Runtime} (self : t) (wabaId : string)
    (fields : option (list string)) : Async Value :=
  let* url := new_URL (this_baseUrl self +:+ "/" +:+ wabaId) (fields_param fields) in
  let* response :=
    fetch {| req_url := url; req_method := GET;
             req_headers := bearer (this_config self); req_body := None |} in
  if negb (ok response) then fail_with "Failed to get WABA: " response
  else
    let* data := response_json response in
    zparse WABASchema data.

Definition getOwned `{Runtime} (self : t) (options : Value) : Async Value :=
  let* validatedOptions := zparse ListWABAOptionsSchema options in
  let* url :=
    new_URL (this_baseUrl self +:+ "/me/businesses") (list_params validatedOptions) in
  let* response :=
    fetch {| req_url := url; req_method := GET;
             req_headers := bearer (this_config self); req_body := None |} in
  if negb (ok response) then fail_with "Failed to get owned WABAs: " response
  else
    let* data := response_json response in
    zparse WABAListResponseSchema data.

Definition getShared `{Runtime} (self : t) (userId : string) (options : Value)
  : Async Value :=
  let* validatedOptions := zparse ListWABAOptionsSchema options in
  let* url :=
    new_URL (this_baseUrl self +:+ "/" +:+ userId +:+ "/businesses")
      (list_params validatedOptions) in
  let* response :=
    fetch {| req_url := url; req_method := GET;
             req_headers := bearer (this_config self); req_body := None |} in
  if negb (ok response) then fail_with "Failed to get shared WABAs: " response
  else
    let* data := response_json response in
    zparse WABAListResponseSchema data.

(** [response.data[0]]; the schema makes [data] an array. *)
Definition getFirst `{Runtime} (self : t) : Async Value :=
  let* response := getOwned self (VObject [("limit", VInt 1)]) in
  match prop response "data" with
  | VArray (first :: _) => ret first
  | _ => ret VUndefined
  end.

Definition isVerified `{Runtime} (self : t) (wabaId : string) : Async bool :=
  let* waba := get self wabaId (Some ["business_verification_status"]) in
  ret (strict_eq_string (prop waba "business_verification_status") "VERIFIED").

Definition isApproved `{Runtime} (self : t) (wabaId : string) : Async bool :=
  let* waba := get self wabaId (Some ["account_review_status"]) in
  ret (strict_eq_string (prop waba "account_review_status") "APPROVED").

End WABAService.

(** ** The webhooks service (src/unnamed/part_001, first file) *)

Module WebhooksService.

Definition SubscriptionSchema : Schema := ZObject [("success", ZBoolean)].

Definition SubscriptionsListSchema : Schema :=
  ZObject [
    ("data", ZArray (ZObject [
      ("whatsapp_business_api_data", ZOptional (ZObject [("id", ZString [])]))
    ]) None)
  ].

Definition SubscribeOptionsSchema : Schema :=
  ZObject [
    ("override_callback_uri", ZOptional (ZString [Url]));
    ("verify_token", ZOptional (ZString []))
  ].

Definition WebhookFieldSchema : Schema :=
  ZEnum [
    "messages"; "message_template_status_update";
    "message_template_quality_update"; "phone_number_name_update";
    "phone_number_quality_update"; "account_alerts"; "account_update";
    "business_capability_update"; "message_echoes"; "security";
    "template_category_update"
  ].

Record t : Type := {
  this_config : WhatsAppConfig;
  this_baseUrl : string
}.

Definition new (config : WhatsAppConfig) : t :=
  {| this_config := config;
     this_baseUrl := "https://graph.facebook.com/" +:+ version config |}.

(** The two optional entries copied from the validated options into the
    request body, each when truthy. *)
Definition callback_entries (body : list (string * Value))
    (validatedOptions : Value) : list (string * Value) :=
  let body :=
    if truthy (prop validatedOptions "override_callback_uri")
    then set_prop body "override_callback_uri"
           (prop validatedOptions "override_callback_uri")
    else body in
  if truthy (prop validatedOptions "verify_token")
  then set_prop body "verify_token" (prop validatedOptions "verify_token")
  else body.

Definition json_headers (config : WhatsAppConfig) : gmap string string :=
  <[ "Content-Type" := "application/json" ]> (bearer config).

(** [options] is [VUndefined] for an omitted argument. *)
Definition subscribe `{Runtime} (self : t) (wabaId : string) (options : Value)
  : Async Value :=
  let* validatedOptions :=
    if truthy options then zparse SubscribeOptionsSchema options
    else ret VUndefined in
  let* url := new_URL (this_baseUrl self +:+ "/" +:+ wabaId +:+ "/subscribed_apps") [] in
  let body := callback_entries [] validatedOptions in
  let* response :=
    fetch {| req_url := url; req_method := POST;
             req_headers := json_headers (this_config self);
             req_body := if (0 <? length body)%nat
                         then Some (BodyString (JSON_stringify (VObject body)))
                         else None |} in
  if negb (ok response) then fail_with "Failed to subscribe to WABA: " response
  else
    let* data := response_json response in
    zparse SubscriptionSchema data.

Definition getSubscriptions `{Runtime} (self : t) (wabaId : string)
  : Async Value :=
  let* url := new_URL (this_baseUrl self +:+ "/" +:+ wabaId +:+ "/subscribed_apps") [] in
  let* response :=
    fetch {| req_url := url; req_method := GET;
             req_headers := bearer (this_config self); req_body := None |} in
  if negb (ok response) then fail_with "Failed to get subscriptions: " response
  else
    let* data := response_json response in
    zparse SubscriptionsListSchema data.

Definition unsubscribe `{Runtime} (self : t) (wabaId : string) : Async Value :=
  let* url := new_URL (this_baseUrl self +:+ "/" +:+ wabaId +:+ "/subscribed_apps") [] in
  let* response :=
    fetch {| req_url := url; req_method := DELETE;
             req_headers := bearer (this_config self); req_body := None |} in
  if negb (ok response) then fail_with "Failed to unsubscribe from WABA: " response
  else
    let* data := response_json response in
    zparse SubscriptionSchema data.

(** [verifyToken] is [None] for an omitted argument. *)
Definition updateCallbackUrl `{Runtime} (self : t) (wabaId callbackUrl : string)
    (verifyToken : option string) : Async Value :=
  subscribe self wabaId
    (VObject [("override_callback_uri", VString callbackUrl);
              ("verify_token", opt_string verifyToken)]).

(** [subscriptions.data.length > 0]; the schema makes [data] an array. *)
Definition isSubscribed `{Runtime} (self : t) (wabaId : string) : Async bool :=
  try_catch
    (let* subscriptions := getSubscriptions self wabaId in
     match prop subscriptions "data" with
     | VArray items => ret (0 <? length items)%nat
     | _ => throw TypeError
     end)
    (ret false).

Definition subscribeToFields `{Runtime} (self : t) (wabaId : string)
    (fields : list string) (options : Value) : Async Value :=
  let* validatedOptions :=
    if truthy options then zparse SubscribeOptionsSchema options
    else ret VUndefined in
  let* url := new_URL (this_baseUrl self +:+ "/" +:+ wabaId +:+ "/subscribed_apps") [] in
  if negb (forallb (fun field =>
                      bool_decide (is_Some (parse WebhookFieldSchema (VString field))))
             fields)
  then throw ZodError
  else
    let body :=
      callback_entries [("subscribed_fields", VArray (map VString fields))]
        validatedOptions in
    let* response :=
      fetch {| req_url := url; req_method := POST;
               req_headers := json_headers (this_config self);
               req_body := Some (BodyString (JSON_stringify (VObject body))) |} in
    if negb (ok response) then fail_with "Failed to subscribe to fields: " response
    else
      let* data := response_json response in
      zparse SubscriptionSchema data.

End WebhooksService.

(** ** src/webhooks/messages.ts *)

Module MessagesWebhook.

Definition ContactProfileSchema : Schema := ZObject [("name", ZString [])].

Definition ContactSchema : Schema :=
  ZObject [("profile", ContactProfileSchema); ("wa_id", ZString [])].

Definition MetadataSchema : Schema :=
  ZObject [("display_phone_number", ZString []); ("phone_number_id", ZString [])].

Definition TextMessageSchema : Schema := ZObject [("body", ZString [])].

Definition MediaObjectSchema : Schema :=
  ZObject [
    ("id", ZString []);
    ("mime_type", ZOptional (ZString []));
    ("sha256", ZOptional (ZString []));
    ("caption", ZOptional (ZString []));
    ("filename", ZOptional (ZString []));
    ("voice", ZOptional ZBoolean);
    ("url", ZOptional (ZString []));
    ("animated", ZOptional ZBoolean)
  ].

Definition ReactionSchema : Schema :=
  ZObject [("message_id", ZString []); ("emoji", ZString [])].

Definition LocationSchema : Schema :=
  ZObject [
    ("latitude", ZUnion [ZString []; ZNumber []]);
    ("longitude", ZUnion [ZString []; ZNumber []]);
    ("name", ZOptional (ZString []));
    ("address", ZOptional (ZString []));
    ("url", ZOptional (ZString []))
  ].

Definition ContextSchema : Schema :=
  ZObject [
    ("forwarded", ZOptional ZBoolean);
    ("frequently_forwarded", ZOptional ZBoolean);
    ("from", ZOptional (ZString []));
    ("id", ZOptional (ZString []));
    ("referred_product", ZOptional (ZObject [
      ("catalog_id", ZString []);
      ("product_retailer_id", ZString [])
    ]))
  ].

Definition ButtonReplySchema : Schema :=
  ZObject [("id", ZString []); ("title", ZString [])].

Definition ListReplySchema : Schema :=
  ZObject [
    ("id", ZString []);
    ("title", ZString []);
    ("description", ZOptional (ZString []))
  ].

Definition InteractiveSchema : Schema :=
  ZObject [
    ("type", ZEnum ["button_reply"; "list_reply"]);
    ("button_reply", ZOptional ButtonReplySchema);
    ("list_reply", ZOptional ListReplySchema)
  ].

Definition ErrorObjectSchema : Schema :=
  ZObject [
    ("code", ZNumber [Int]);
    ("title", ZOptional (ZString []));
    ("message", ZOptional (ZString []));
    ("error_data", ZOptional (ZObject [("details", ZString [])]));
    ("href", ZOptional (ZString []))
  ].

Definition ContactNameSchema : Schema :=
  ZObject [
    ("formatted_name", ZString []);
    ("first_name", ZOptional (ZString []));
    ("last_name", ZOptional (ZString []));
    ("middle_name", ZOptional (ZString []));
    ("suffix", ZOptional (ZString []));
    ("prefix", ZOptional (ZString []))
  ].

Definition ContactPhoneSchema : Schema :=
  ZObject [
    ("phone", ZOptional (ZString []));
    ("type", ZOptional (ZString []));
    ("wa_id", ZOptional (ZString []))
  ].

Definition ContactOrgSchema : Schema :=
  ZObject [
    ("company", ZOptional (ZString []));
    ("department", ZOptional (ZString []));
    ("title", ZOptional (ZString []))
  ].

Definition ContactAddressSchema : Schema :=
  ZObject [
    ("street", ZOptional (ZString []));
    ("city", ZOptional (ZString []));
    ("state", ZOptional (ZString []));
    ("zip", ZOptional (ZString []));
    ("country", ZOptional (ZString []));
    ("country_code", ZOptional (ZString []));
    ("type", ZOptional (ZString []))
  ].

Definition ContactEmailSchema : Schema :=
  ZObject [("email", ZOptional (ZString [])); ("type", ZOptional (ZString []))].

Definition ContactUrlSchema : Schema :=
  ZObject [("url", ZOptional (ZString [])); ("type", ZOptional (ZString []))].

Definition ContactItemSchema : Schema :=
  ZObject [
    ("name", ContactNameSchema);
    ("org", ZOptional ContactOrgSchema);
    ("phones", ZOptional (ZArray ContactPhoneSchema None));
    ("emails", ZOptional (ZArray ContactEmailSchema None));
    ("urls", ZOptional (ZArray ContactUrlSchema None));
    ("addresses", ZOptional (ZArray ContactAddressSchema None));
    ("birthday", ZOptional (ZString []))
  ].

Definition ProductItemSchema : Schema :=
  ZObject [
    ("product_retailer_id", ZString []);
    ("quantity", ZUnion [ZString []; ZNumber []]);
    ("item_price", ZUnion [ZString []; ZNumber []]);
    ("currency", ZString [])
  ].

Definition OrderSchema : Schema :=
  ZObject [
    ("catalog_id", ZString []);
    ("product_items", ZArray ProductItemSchema None);
    ("text", ZOptional (ZString []))
  ].

Definition SystemMessageSchema : Schema :=
  ZObject [
    ("body", ZOptional (ZString []));
    ("type", ZOptional (ZString []));
    ("wa_id", ZOptional (ZString []));
    ("customer", ZOptional (ZString []));
    ("identity", ZOptional (ZString []));
    ("user", ZOptional (ZString []));
    ("new_wa_id", ZOptional (ZString []))
  ].

Definition ReferralSchema : Schema :=
  ZObject [
    ("source_url", ZOptional (ZString []));
    ("source_id", ZOptional (ZString []));
    ("source_type", ZOptional (ZString []));
    ("headline", ZOptional (ZString []));
    ("body", ZOptional (ZString []));
    ("media_type", ZOptional (ZString []));
    ("image_url", ZOptional (ZString []));
    ("video_url", ZOptional (ZString []));
    ("thumbnail_url", ZOptional (ZString []));
    ("ctwa_clid", ZOptional (ZString []));
    ("welcome_message", ZOptional (ZObject [("text", ZString [])]))
  ].

Definition MessageSchema : Schema :=
  ZObject [
    ("from", ZString []);
    ("id", ZString []);
    ("timestamp", ZString []);
    ("type", ZString []);
    ("group_id", ZOptional (ZString []));
    ("context", ZOptional ContextSchema);
    ("referral", ZOptional ReferralSchema);
    ("text", ZOptional TextMessageSchema);
    ("image", ZOptional MediaObjectSchema);
    ("video", ZOptional MediaObjectSchema);
    ("audio", ZOptional MediaObjectSchema);
    ("document", ZOptional MediaObjectSchema);
    ("sticker", ZOptional MediaObjectSchema);
    ("location", ZOptional LocationSchema);
    ("contacts", ZOptional (ZArray ContactItemSchema None));
    ("interactive", ZOptional InteractiveSchema);
    ("button", ZOptional (ZObject [
      ("text", ZString []);
      ("payload", ZOptional (ZString []))
    ]));
    ("reaction", ZOptional ReactionSchema);
    ("order", ZOptional OrderSchema);
    ("system", ZOptional SystemMessageSchema);
    ("errors", ZOptional (ZArray ErrorObjectSchema None))
  ].

Definition ConversationSchema : Schema :=
  ZObject [
    ("id", ZString []);
    ("origin", ZOptional (ZObject [("type", ZString [])]));
    ("expiration_timestamp", ZOptional (ZString []))
  ].

Definition PricingSchema : Schema :=
  ZObject [
    ("pricing_model", ZString []);
    ("billable", ZBoolean);
    ("category", ZString [])
  ].

Definition StatusSchema : Schema :=
  ZObject [
    ("id", ZString []);
    ("recipient_id", ZString []);
    ("status", ZEnum ["read"; "delivered"; "sent"; "failed"; "deleted"]);
    ("timestamp", ZString []);
    ("conversation", ZOptional ConversationSchema);
    ("pricing", ZOptional PricingSchema);
    ("errors", ZOptional (ZArray ErrorObjectSchema None))
  ].

Definition MessagesValueSchema : Schema :=
  ZObject [
    ("messaging_product", ZLiteral "whatsapp");
    ("metadata", MetadataSchema);
    ("contacts", ZOptional (ZArray ContactSchema None));
    ("messages", ZOptional (ZArray MessageSchema None));
    ("statuses", ZOptional (ZArray StatusSchema None));
    ("errors", ZOptional (ZArray ErrorObjectSchema None))
  ].

Definition MessagesChangeSchema : Schema :=
  ZObject [("value", MessagesValueSchema); ("field", ZLiteral "messages")].

Definition MessagesEntrySchema : Schema :=
  ZObject [("id", ZString []); ("changes", ZArray MessagesChangeSchema None)].

Definition MessagesWebhookSchema : Schema :=
  ZObject [
    ("object", ZLiteral "whatsapp_business_account");
    ("entry", ZArray MessagesEntrySchema None)
  ].

End MessagesWebhook.

(** ** src/webhooks/templates/template-components-update.ts *)

Module TemplateComponentsUpdate.

Definition TemplateButtonTypeSchema : Schema :=
  ZEnum [
    "CATALOG"; "COPY_CODE"; "EXTENSION"; "FLOW"; "MPM"; "ORDER_DETAILS";
    "OTP"; "PHONE_NUMBER"; "POSTBACK"; "REMINDER"; "SEND_LOCATION"; "SPM";
    "QUICK_REPLY"; "URL"; "VOICE_CALL"
  ].

Definition TemplateButtonSchema : Schema :=
  ZObject [
    ("message_template_button_type", TemplateButtonTypeSchema);
    ("message_template_button_text", ZString []);
    ("message_template_button_url", ZOptional (ZString []));
    ("message_template_button_phone_number", ZOptional (ZString []))
  ].

Definition TemplateComponentsUpdateValueSchema : Schema :=
  ZObject [
    ("message_template_id", ZNumber [Int]);
    ("message_template_name", ZString []);
    ("message_template_language", ZString []);
    ("message_template_element", ZString []);
    ("message_template_title", ZOptional (ZString []));
    ("message_template_footer", ZOptional (ZString []));
    ("message_template_buttons", ZOptional (ZArray TemplateButtonSchema None))
  ].

Definition TemplateComponentsUpdateChangeSchema : Schema :=
  ZObject [
    ("value", TemplateComponentsUpdateValueSchema);
    ("field", ZLiteral "message_template_components_update")
  ].

Definition TemplateComponentsUpdateEntrySchema : Schema :=
  ZObject [
    ("id", ZString []);
    ("time", ZNumber [Int]);
    ("changes", ZArray TemplateComponentsUpdateChangeSchema None)
  ].

Definition MessageTemplateComponentsUpdateWebhookSchema : Schema :=
  ZObject [
    ("object", ZLiteral "whatsapp_business_account");
    ("entry", ZArray TemplateComponentsUpdateEntrySchema None)
  ].

End TemplateComponentsUpdate.

(** ** The template quality update webhook (src/unnamed/part_004) *)

Module TemplateQualityUpdate.

Definition TemplateQualityScoreSchema : Schema :=
  ZEnum ["GREEN"; "RED"; "YELLOW"; "UNKNOWN"].

Definition TemplateQualityUpdateValueSchema : Schema :=
  ZObject [
    ("previous_quality_score", TemplateQualityScoreSchema);
    ("new_quality_score", TemplateQualityScoreSchema);
    ("message_template_id", ZNumber [Int]);
    ("message_template_name", ZString []);
    ("message_template_language", ZString [])
  ].

Definition TemplateQualityUpdateChangeSchema : Schema :=
  ZObject [
    ("value", TemplateQualityUpdateValueSchema);
    ("field", ZLiteral "message_template_status_update")
  ].

Definition TemplateQualityUpdateEntrySchema : Schema :=
  ZObject [
    ("id", ZString []);
    ("time", ZNumber [Int]);
    ("changes", ZArray TemplateQualityUpdateChangeSchema None)
  ].

Definition MessageTemplateQualityUpdateWebhookSchema : Schema :=
  ZObject [
    ("object", ZLiteral "whatsapp_business_account");
    ("entry", ZArray TemplateQualityUpdateEntrySchema None)
  ].

End TemplateQualityUpdate.

(** ** src/client/services/waba.ts, second file: the phone numbers service *)

Module PhoneNumbersService.

Definition PhoneNumberSchema : Schema :=
  ZObject [
    ("id", ZString []);
    ("display_phone_number", ZString []);
    ("verified_name", ZString []);
    ("quality_rating", ZOptional (ZEnum ["GREEN"; "YELLOW"; "RED"; "UNKNOWN"]));
    ("code_verification_status", ZOptional (ZEnum ["VERIFIED"; "NOT_VERIFIED"]));
    ("platform_type", ZOptional (ZEnum ["CLOUD_API"; "NOT_APPLICABLE"]));
    ("throughput", ZOptional (ZObject [
      ("level", ZOptional (ZEnum ["STANDARD"; "HIGH"]))
    ]));
    ("webhook_configuration", ZOptional (ZObject [
      ("application", ZOptional (ZString []));
      ("whitelisted_domains", ZOptional (ZArray (ZString []) None))
    ]));
    ("last_onboarded_time", ZOptional (ZString []));
    ("account_mode", ZOptional (ZEnum ["SANDBOX"; "LIVE"]));
    ("certificate", ZOptional (ZString []));
    ("name_status", ZOptional (ZEnum [
      "APPROVED"; "AVAILABLE_WITHOUT_REVIEW"; "DECLINED"; "EXPIRED";
      "PENDING_REVIEW"; "NONE"
    ]));
    ("new_name_status", ZOptional (ZEnum [
      "APPROVED"; "AVAILABLE_WITHOUT_REVIEW"; "DECLINED"; "EXPIRED";
      "PENDING_REVIEW"; "NONE"
    ]));
    ("decision", ZOptional (ZString []));
    ("requested_verified_name", ZOptional (ZString []));
    ("rejection_reason", ZOptional (ZString []))
  ].

Definition PhoneNumberListResponseSchema : Schema :=
  ZObject [
    ("data", ZArray PhoneNumberSchema None);
    ("paging", ZOptional (ZObject [
      ("cursors", ZOptional (ZObject [
        ("before", ZOptional (ZString []));
        ("after", ZOptional (ZString []))
      ]));
      ("next", ZOptional (ZString []));
      ("previous", ZOptional (ZString []))
    ]))
  ].

Definition DisplayNameStatusSchema : Schema :=
  ZObject [
    ("name_status", ZEnum [
      "APPROVED"; "AVAILABLE_WITHOUT_REVIEW"; "DECLINED"; "EXPIRED";
      "PENDING_REVIEW"; "NONE"
    ]);
    ("new_name_status", ZOptional (ZEnum [
      "APPROVED"; "AVAILABLE_WITHOUT_REVIEW"; "DECLINED"; "EXPIRED";
      "PENDING_REVIEW"; "NONE"
    ]));
    ("decision", ZOptional (ZString []));
    ("requested_verified_name", ZOptional (ZString []));
    ("rejection_reason", ZOptional (ZString []))
  ].

Definition PhoneNumberFieldsSchema : Schema :=
  ZEnum [
    "id"; "display_phone_number"; "verified_name"; "quality_rating";
    "code_verification_status"; "platform_type"; "throughput";
    "webhook_configuration"; "last_onboarded_time"; "account_mode";
    "certificate"; "name_status"; "new_name_status"; "decision";
    "requested_verified_name"; "rejection_reason"
  ].

Definition ListPhoneNumbersOptionsSchema : Schema :=
  ZOptional (ZObject [
    ("fields", ZOptional (ZArray PhoneNumberFieldsSchema None));
    ("limit", ZOptional (ZNumber [Int; NumMin (inject_Z 1); NumMax (inject_Z 100)]));
    ("after", ZOptional (ZString []));
    ("before", ZOptional (ZString []));
    ("filtering", ZOptional (ZArray (ZObject [
      ("field", ZString []);
      ("operator", ZEnum ["EQUAL"; "NOT_EQUAL"; "IN"; "NOT_IN"]);
      ("value", ZUnion [ZString []; ZArray (ZString []) None])
    ]) None))
  ]).

Record t : Type := {
  this_config : WhatsAppConfig;
  this_baseUrl : string
}.

Definition new (config : WhatsAppConfig) : t :=
  {| this_config := config;
     this_baseUrl := "https://graph.facebook.com/" +:+ version config |}.

Definition list_ `{Runtime} (self : t) (wabaId : string) (options : Value)
  : Async Value :=
  let* validatedOptions := zparse ListPhoneNumbersOptionsSchema options in
  let filtering :=
    match prop validatedOptions "filtering" with
    | VArray (f :: fs) => [("filtering", JSON_stringify (VArray (f :: fs)))]
    | _ => []
    end in
  let* url :=
    new_URL (this_baseUrl self +:+ "/" +:+ wabaId +:+ "/phone_numbers")
      (list_params validatedOptions ++ filtering)%list in
  let* response :=
    fetch {| req_url := url; req_method := GET;
             req_headers := bearer (this_config self); req_body := None |} in
  if negb (ok response) then fail_with "Failed to list phone numbers: " response
  else
    let* data := response_json response in
    zparse PhoneNumberListResponseSchema data.

Definition get `{Runtime} (self : t) (phoneNumberId_ : string)
    (fields : option (list string)) : Async Value :=
  let* url :=
    new_URL (this_baseUrl self +:+ "/" +:+ phoneNumberId_) (fields_param fields) in
  let* response :=
    fetch {| req_url := url; req_method := GET;
             req_headers := bearer (this_config self); req_body := None |} in
  if negb (ok response) then fail_with "Failed to get phone number: " response
  else
    let* data := response_json response in
    zparse PhoneNumberSchema data.

Definition getDisplayNameStatus `{Runtime} (self : t) (phoneNumberId_ : string)
  : Async Value :=
  let* url :=
    new_URL (this_baseUrl self +:+ "/" +:+ phoneNumberId_
             +:+ "/whatsapp_business_display_name") [] in
  let* response :=
    fetch {| req_url := url; req_method := GET;
             req_headers := bearer (this_config self); req_body := None |} in
  if negb (ok response)
  then fail_with "Failed to get display name status: " response
  else
    let* data := response_json response in
    zparse DisplayNameStatusSchema data.

Definition isVerified `{Runtime} (self : t) (phoneNumberId_ : string)
  : Async bool :=
  let* phoneNumber := get self phoneNumberId_ (Some ["code_verification_status"]) in
  ret (strict_eq_string (prop phoneNumber "code_verification_status") "VERIFIED").

Definition getQualityRating `{Runtime} (self : t) (phoneNumberId_ : string)
  : Async Value :=
  let* phoneNumber := get self phoneNumberId_ (Some ["quality_rating"]) in
  ret (prop phoneNumber "quality_rating").

Definition isDisplayNameApproved `{Runtime} (self : t) (phoneNumberId_ : string)
  : Async bool :=
  let* status_ := getDisplayNameStatus self phoneNumberId_ in
  ret (strict_eq_string (prop status_ "name_status") "APPROVED").

Definition getThroughputLevel `{Runtime} (self : t) (phoneNumberId_ : string)
  : Async Value :=
  let* phoneNumber := get self phoneNumberId_ (Some ["throughput"]) in
  ret (prop (prop phoneNumber "throughput") "level").

End PhoneNumbersService.

(** ** The public operations *)

(** Every public method of the services above, with its arguments.  The
    client builds all services from one configuration. *)
Inductive Operation : Type :=
| TwoStep_setPin (pin : string)
| TwoStep_removePin
| Business_getProfile (fields : option (list string))
| Business_updateProfile (profile : Value)
| Business_getCommerceSettings
| Business_updateCommerceSettings (settings : Value)
| Business_getPhoneNumberInfo
| Business_registerPhoneNumber (pin : string)
| Business_deregisterPhoneNumber
| QRCodes_create (options : Value)
| QRCodes_list
| QRCodes_get (qrCodeId : string)
| QRCodes_update (qrCodeId : string) (updates : Value)
| QRCodes_delete (qrCodeId : string)
| QRCodes_getImage (qrCodeId : string) (format : option string)
| Registration_register (pin : string)
| Registration_deregister
| Registration_getInfo (fields : option (list string))
| Registration_requestCode (codeMethod : string) (language : option string)
| Registration_verifyCode (code : string)
| Registration_updateSettings (settings : Value)
| Templates_create (template_ : Value)
| Templates_list (options : Value)
| Templates_get (templateId : string)
| Templates_delete (name : string) (options : Value)
| Templates_update (templateId : string) (updates : Value)
| Templates_getByName (name : string)
| Templates_getByStatus (status_ : string) (options : Value)
| WABA_get (wabaId_ : string) (fields : option (list string))
| WABA_getOwned (options : Value)
| WABA_getShared (userId : string) (options : Value)
| WABA_getFirst
| WABA_isVerified (wabaId_ : string)
| WABA_isApproved (wabaId_ : string)
| Webhooks_subscribe (wabaId_ : string) (options : Value)
| Webhooks_getSubscriptions (wabaId_ : string)
| Webhooks_unsubscribe (wabaId_ : string)
| Webhooks_updateCallbackUrl (wabaId_ callbackUrl : string) (verifyToken : option string)
| Webhooks_isSubscribed (wabaId_ : string)
| Webhooks_subscribeToFields (wabaId_ : string) (fields : list string) (options : Value)
| PhoneNumbers_list (wabaId_ : string) (options : Value)
| PhoneNumbers_get (phoneNumberId_ : string) (fields : option (list string))
| PhoneNumbers_getDisplayNameStatus (phoneNumberId_ : string)
| PhoneNumbers_isVerified (phoneNumberId_ : string)
| PhoneNumbers_getQualityRating (phoneNumberId_ : string)
| PhoneNumbers_isDisplayNameApproved (phoneNumberId_ : string)
| PhoneNumbers_getThroughputLevel (phoneNumberId_ : string).

Definition boolean (m : Async bool) : Async Value :=
  let* b := m in ret (VBool b).

Definition perform `{Runtime} (config : WhatsAppConfig) (op : Operation)
  : Async Value :=
  match op with
  | TwoStep_setPin pin => TwoStepVerificationService.setPin config pin
  | TwoStep_removePin => TwoStepVerificationService.removePin config
  | Business_getProfile fields => BusinessService.getProfile config fields
  | Business_updateProfile profile => BusinessService.updateProfile config profile
  | Business_getCommerceSettings => BusinessService.getCommerceSettings config
  | Business_updateCommerceSettings settings =>
      BusinessService.updateCommerceSettings config settings
  | Business_getPhoneNumberInfo => BusinessService.getPhoneNumberInfo config
  | Business_registerPhoneNumber pin => BusinessService.registerPhoneNumber config pin
  | Business_deregisterPhoneNumber => BusinessService.deregisterPhoneNumber config
  | QRCodes_create options => QRCodesService.create config options
  | QRCodes_list => QRCodesService.list_ config
  | QRCodes_get qrCodeId => QRCodesService.get config qrCodeId
  | QRCodes_update qrCodeId updates => QRCodesService.update config qrCodeId updates
  | QRCodes_delete qrCodeId => QRCodesService.delete config qrCodeId
  | QRCodes_getImage qrCodeId format => QRCodesService.getImage config qrCodeId format
  | Registration_register pin => RegistrationService.register config pin
  | Registration_deregister => RegistrationService.deregister config
  | Registration_getInfo fields => RegistrationService.getInfo config fields
  | Registration_requestCode codeMethod language =>
      RegistrationService.requestCode config codeMethod language
  | Registration_verifyCode code => RegistrationService.verifyCode config code
  | Registration_updateSettings settings =>
      RegistrationService.updateSettings config settings
  | Templates_create template_ => TemplatesService.create config template_
  | Templates_list options => TemplatesService.list_ config options
  | Templates_get templateId => TemplatesService.get config templateId
  | Templates_delete name options => TemplatesService.delete config name options
  | Templates_update templateId updates =>
      TemplatesService.update config templateId updates
  | Templates_getByName name => TemplatesService.getByName config name
  | Templates_getByStatus status_ options =>
      TemplatesService.getByStatus config status_ options
  | WABA_get wabaId_ fields => WABAService.get (WABAService.new config) wabaId_ fields
  | WABA_getOwned options => WABAService.getOwned (WABAService.new config) options
  | WABA_getShared userId options =>
      WABAService.getShared (WABAService.new config) userId options
  | WABA_getFirst => WABAService.getFirst (WABAService.new config)
  | WABA_isVerified wabaId_ =>
      boolean (WABAService.isVerified (WABAService.new config) wabaId_)
  | WABA_isApproved wabaId_ =>
      boolean (WABAService.isApproved (WABAService.new config) wabaId_)
  | Webhooks_subscribe wabaId_ options =>
      WebhooksService.subscribe (WebhooksService.new config) wabaId_ options
  | Webhooks_getSubscriptions wabaId_ =>
      WebhooksService.getSubscriptions (WebhooksService.new config) wabaId_
  | Webhooks_unsubscribe wabaId_ =>
      WebhooksService.unsubscribe (WebhooksService.new config) wabaId_
  | Webhooks_updateCallbackUrl wabaId_ callbackUrl verifyToken =>
      WebhooksService.updateCallbackUrl (WebhooksService.new config) wabaId_
        callbackUrl verifyToken
  | Webhooks_isSubscribed wabaId_ =>
      boolean (WebhooksService.isSubscribed (WebhooksService.new config) wabaId_)
  | Webhooks_subscribeToFields wabaId_ fields options =>
      WebhooksService.subscribeToFields (WebhooksService.new config) wabaId_
        fields options
  | PhoneNumbers_list wabaId_ options =>
      PhoneNumbersService.list_ (PhoneNumbersService.new config) wabaId_ options
  | PhoneNumbers_get phoneNumberId_ fields =>
      PhoneNumbersService.get (PhoneNumbersService.new config) phoneNumberId_ fields
  | PhoneNumbers_getDisplayNameStatus phoneNumberId_ =>
      PhoneNumbersService.getDisplayNameStatus (PhoneNumbersService.new config)
        phoneNumberId_
  | PhoneNumbers_isVerified phoneNumberId_ =>
      boolean (PhoneNumbersService.isVerified (PhoneNumbersService.new config)
                 phoneNumberId_)
  | PhoneNumbers_getQualityRating phoneNumberId_ =>
      PhoneNumbersService.getQualityRating (PhoneNumbersService.new config)
        phoneNumberId_
  | PhoneNumbers_isDisplayNameApproved phoneNumberId_ =>
      boolean (PhoneNumbersService.isDisplayNameApproved
                 (PhoneNumbersService.new config) phoneNumberId_)
  | PhoneNumbers_getThroughputLevel phoneNumberId_ =>
      PhoneNumbersService.getThroughputLevel (PhoneNumbersService.new config)
        phoneNumberId_
  end.

(** The request schema with which an operation parses its caller-supplied
    input before it builds the request, and that input. *)
Definition validated_input (op : Operation) : option (Schema * Value) :=
  match op with
  | TwoStep_setPin pin =>
      Some (TwoStepVerificationService.TwoStepVerificationPinSchema,
            VObject [("pin", VString pin)])
  | QRCodes_create options =>
      if truthy options then Some (QRCodesService.CreateQRCodeSchema, options)
      else None
  | QRCodes_update _ updates => Some (QRCodesService.UpdateQRCodeSchema, updates)
  | Registration_register pin =>
      Some (RegistrationService.PhoneNumberRegistrationSchema,
            VObject [("messaging_product", VString "whatsapp"); ("pin", VString pin)])
  | Registration_requestCode codeMethod language =>
      Some (RegistrationService.RequestCodeSchema,
            VObject [("code_method", VString codeMethod);
                     ("language", VString (default "en_US" language))])
  | Registration_verifyCode code =>
      Some (RegistrationService.VerifyCodeSchema, VObject [("code", VString code)])
  | Templates_create template_ =>
      Some (TemplatesService.CreateTemplateSchema, template_)
  | WABA_getOwned options | WABA_getShared _ options =>
      Some (WABAService.ListWABAOptionsSchema, options)
  | PhoneNumbers_list _ options =>
      Some (PhoneNumbersService.ListPhoneNumbersOptionsSchema, options)
  | Webhooks_subscribe _ options | Webhooks_subscribeToFields _ _ options =>
      if truthy options then Some (WebhooksService.SubscribeOptionsSchema, options)
      else None
  | Webhooks_updateCallbackUrl _ callbackUrl verifyToken =>
      Some (WebhooksService.SubscribeOptionsSchema,
            VObject [("override_callback_uri", VString callbackUrl);
                     ("verify_token", opt_string verifyToken)])
  | _ => None
  end.

(** ** A sample platform and sample data *)

(** A platform for running the examples: it prints every value as the
    same token, takes every string for a URL and an address, and does not
    rewrite the URLs it is given. *)
Definition sample_runtime : Runtime := {|
  JSON_stringify := fun _ => "<json>";
  URL_href := fun s params =>
    match params with
    | [] => Some s
    | _ => Some (s +:+ "?<query>")
    end;
  URLSearchParams_toString := fun _ => "<query>";
  is_url := fun _ => true;
  is_email := fun _ => true;
  String_of := fun _ => "<value>"
|}.

Definition sample_config : WhatsAppConfig := {|
  accessToken := "token";
  phoneNumberId := "1234567890";
  wabaId := None;
  version := "v21.0";
  baseUrl := "https://graph.facebook.com"
|}.

(** A network that answers every call with the same response. *)
Definition always (r : Response) : Network := fun _ => Answered r.

(** A network that is down. *)
Definition unreachable : Network := fun _ => NetworkFailure.

(** ** Data for the examples, and what the statements need *)

(** The schema an object shape gives to a key. *)
Fixpoint shape_lookup (shape : list (string * Schema)) (k : string)
  : option Schema :=
  match shape with
  | [] => None
  | (k', s) :: rest => if String.eqb k' k then Some s else shape_lookup rest k
  end.

(** The schemas that hand their input back unchanged when they accept it. *)
Fixpoint leaf (s : Schema) : bool :=
  match s with
  | ZString _ | ZNumber _ | ZBoolean | ZLiteral _ | ZEnum _ | ZAny => true
  | ZOptional inner => leaf inner
  | _ => false
  end.

(** A configuration that points the client at another origin. *)
Definition proxied_config : WhatsAppConfig := {|
  accessToken := "token";
  phoneNumberId := "1234567890";
  wabaId := None;
  version := "v21.0";
  baseUrl := "https://example.com"
|}.

(** The same configuration with another base origin. *)
Definition set_baseUrl (config : WhatsAppConfig) (origin : string) : WhatsAppConfig :=
  {| accessToken := accessToken config;
     phoneNumberId := phoneNumberId config;
     wabaId := wabaId config;
     version := version config;
     baseUrl := origin |}.

(** The error payload of the specification's example, and the 400
    response that carries it. *)
Definition invalid_parameter : Value :=
  VObject [("error", VObject [
    ("message", VString "Invalid parameter");
    ("type", VString "OAuthException");
    ("code", VInt 100);
    ("fbtrace_id", VString "abc123")
  ])].

Definition bad_request : Response :=
  {| status := 400; statusText := "Bad Request"; json := Some invalid_parameter |}.

(** A gateway error page: status 502, payload not JSON. *)
Definition bad_gateway : Response :=
  {| status := 502; statusText := "Bad Gateway"; json := None |}.

(** Options whose header map names its own credential. *)
Definition own_credentials : FetchOptions :=
  {| method := Some GET;
     headers := {[ "Authorization" := "Basic dXNlcjpwYXNz" ]};
     body := None |}.

(** A text of [n] characters. *)
Fixpoint filler (n : nat) : string :=
  match n with
  | O => EmptyString
  | S m => String "a"%char (filler m)
  end.

(** A profile whose [about] text has 257 characters. *)
Definition long_about : Value := VObject [("about", VString (filler 257))].

(** The answer of a successful update. *)
Definition success_response : Response :=
  {| status := 200; statusText := "OK";
     json := Some (VObject [("success", VBool true)]) |}.

(** The response schema with which an operation parses the payload it
    returns.  The operations without one return the payload as received
    ([registerPhoneNumber], [deregisterPhoneNumber], [QRCodes.update],
    [updateSettings]) or a value computed from another operation's
    result. *)
Definition response_schema (op : Operation) : option Schema :=
  match op with
  | TwoStep_setPin _ | TwoStep_removePin =>
      Some TwoStepVerificationService.TwoStepVerificationResponseSchema
  | Business_getProfile _ => Some BusinessService.BusinessProfileResponseSchema
  | Business_updateProfile _ | Business_updateCommerceSettings _ =>
      Some BusinessService.UpdateBusinessProfileResponseSchema
  | Business_getCommerceSettings =>
      Some BusinessService.CommerceSettingsResponseSchema
  | Business_getPhoneNumberInfo => Some BusinessService.PhoneNumberInfoSchema
  | QRCodes_create _ | QRCodes_get _ | QRCodes_getImage _ _ =>
      Some QRCodesService.QRCodeResponseSchema
  | QRCodes_list => Some QRCodesService.QRCodeListResponseSchema
  | QRCodes_delete _ => Some QRCodesService.QRCodeDeleteResponseSchema
  | Registration_register _ =>
      Some RegistrationService.PhoneNumberRegistrationResponseSchema
  | Registration_deregister => Some RegistrationService.DeregisterPhoneNumberSchema
  | Registration_getInfo _ => Some RegistrationService.PhoneNumberInfoSchema
  | Registration_requestCode _ _ => Some RegistrationService.RequestCodeResponseSchema
  | Registration_verifyCode _ => Some RegistrationService.VerifyCodeResponseSchema
  | Templates_create _ | Templates_get _ | Templates_update _ _ =>
      Some TemplatesService.TemplateResponseSchema
  | Templates_list _ | Templates_getByName _ | Templates_getByStatus _ _ =>
      Some TemplatesService.TemplateListResponseSchema
  | Templates_delete _ _ => Some TemplatesService.TemplateDeleteResponseSchema
  | WABA_get _ _ => Some WABAService.WABASchema
  | WABA_getOwned _ | WABA_getShared _ _ => Some WABAService.WABAListResponseSchema
  | Webhooks_subscribe _ _ | Webhooks_unsubscribe _
  | Webhooks_updateCallbackUrl _ _ _ | Webhooks_subscribeToFields _ _ _ =>
      Some WebhooksService.SubscriptionSchema
  | Webhooks_getSubscriptions _ => Some WebhooksService.SubscriptionsListSchema
  | PhoneNumbers_list _ _ => Some PhoneNumbersService.PhoneNumberListResponseSchema
  | PhoneNumbers_get _ _ => Some PhoneNumbersService.PhoneNumberSchema
  | PhoneNumbers_getDisplayNameStatus _ =>
      Some PhoneNumbersService.DisplayNameStatusSchema
  | _ => None
  end.

(** A success status with a payload that has no [success] flag. *)
Definition unexpected_payload : Value := VObject [("unexpected", VBool true)].

Definition unexpected_response : Response :=
  {| status := 200; statusText := "OK"; json := Some unexpected_payload |}.

(** A template that the creation schema accepts. *)
Definition welcome_template : Value :=
  VObject [
    ("name", VString "welcome_message");
    ("language", VString "en_US");
    ("category", VString "UTILITY");
    ("components", VArray [
      VObject [("type", VString "BODY"); ("text", VString "Hello")]
    ])
  ].

(** A webhook change object, and a well-formed quality update value. *)
Definition change (field : string) (value : Value) : Value :=
  VObject [("value", value); ("field", VString field)].

Definition quality_value : Value :=
  VObject [
    ("previous_quality_score", VString "GREEN");
    ("new_quality_score", VString "YELLOW");
    ("message_template_id", VInt 806312974732579);
    ("message_template_name", VString "welcome_template");
    ("message_template_language", VString "en-US")
  ].

(** The options object as the specification writes it: the callback URL
    and, when one is given, the verify token. *)
Definition callback_options (callbackUrl : string) (verifyToken : option string)
  : Value :=
  VObject (("override_callback_uri", VString callbackUrl)
           :: match verifyToken with
              | Some token => [("verify_token", VString token)]
              | None => []
              end).

(** [subscribe(wabaId, {override_callback_uri, verify_token})], as the
    specification words the alias. *)
Definition updateCallbackUrl_spec `{Runtime} (self : WebhooksService.t)
    (wabaId_ callbackUrl : string) (verifyToken : option string) : Async Value :=
  WebhooksService.subscribe self wabaId_ (callback_options callbackUrl verifyToken).

(** ** The media service (src/unnamed/part_001, second file) *)

(** The bytes the network serves for a call, and the content type it
    declares for them: what [response.arrayBuffer()] and
    [response.blob()] read. *)
Class Wire : Type := {
  served : Request -> list Byte.byte;
  served_type : Request -> string
}.

(** [s || fallback] on an optional string argument *)
Definition string_or (s : option string) (fallback : string) : string :=
  match s with
  | Some (String c rest) => String c rest
  | _ => fallback
  end.

(** The [type] of [new Blob(parts, { type })]: the given type in ASCII
    lower case, or the empty string when the given type has a character
    outside U+0020..U+007E. *)
Definition printable (c : ascii) : bool :=
  (32 <=? nat_of_ascii c)%nat && (nat_of_ascii c <=? 126)%nat.

Definition lower_case (c : ascii) : ascii :=
  if (65 <=? nat_of_ascii c)%nat && (nat_of_ascii c <=? 90)%nat
  then ascii_of_nat (nat_of_ascii c + 32)
  else c.

Definition Blob_type (type : string) : string :=
  if forallb printable (list_ascii_of_string type)
  then string_of_list_ascii (map lower_case (list_ascii_of_string type))
  else EmptyString.

Module MediaService.

Definition MediaUploadResponseSchema : Schema := ZObject [("id", ZString [])].

Definition MediaUrlResponseSchema : Schema :=
  ZObject [
    ("messaging_product", ZLiteral "whatsapp");
    ("url", ZString [Url]);
    ("mime_type", ZString []);
    ("sha256", ZString []);
    ("file_size", ZNumber []);
    ("id", ZString [])
  ].

Definition MediaDeleteResponseSchema : Schema := ZObject [("success", ZBoolean)].

(** [File | Blob | Buffer]: a named file, a blob that is not a file, a
    Node buffer. *)
Inductive FileSource : Type :=
| AFile (content : list Byte.byte) (type name : string)
| ABlob (content : list Byte.byte) (type : string)
| ABuffer (content : list Byte.byte).

(** The entry appended under [file]; a buffer becomes a blob whose type
    the [Blob] constructor makes of the given MIME type. *)
Definition file_entry (file : FileSource) (type : string) (filename : option string)
  : string * FormValue :=
  match file with
  | AFile content file_type name =>
      ("file", FormBlob content file_type (string_or filename name))
  | ABlob content blob_type =>
      ("file", FormBlob content blob_type (string_or filename "file"))
  | ABuffer content =>
      ("file", FormBlob content (Blob_type type) (string_or filename "file"))
  end.

Definition upload `{Runtime} (config : WhatsAppConfig) (file : FileSource)
    (type : string) (filename : option string) : Async Value :=
  let formData :=
    [("messaging_product", FormText "whatsapp"); ("type", FormText type);
     file_entry file type filename] in
  let* response :=
    BaseService.request config (phoneNumberId config +:+ "/media")
      {| method := Some POST; headers := ∅; body := Some (BodyFormData formData) |} in
  zparse MediaUploadResponseSchema response.

Definition getUrl `{Runtime} (config : WhatsAppConfig) (mediaId : string)
  : Async Value :=
  let* response := BaseService.request config mediaId (with_method GET) in
  zparse MediaUrlResponseSchema response.

(** The call [fetch(url, { headers: { Authorization } })] of [download]. *)
Definition download_call (config : WhatsAppConfig) (url : string) : Request :=
  {| req_url := url; req_method := GET;
     req_headers := bearer config; req_body := None |}.

Definition download `{Wire} (config : WhatsAppConfig) (url : string)
  : Async (list Byte.byte) :=
  let* response := fetch (download_call config url) in
  if negb (ok response) then
    throw (Error ("Failed to download media: " +:+ statusText response))
  else ret (served (download_call config url)).

(** [{ ...urlResponse, content }] as the pair of the metadata and the
    content. *)
Definition get `{Runtime} `{Wire} (config : WhatsAppConfig) (mediaId : string)
  : Async (Value * list Byte.byte) :=
  let* urlResponse := getUrl config mediaId in
  let* content := download config (template (prop urlResponse "url")) in
  ret (urlResponse, content).

Definition delete `{Runtime} (config : WhatsAppConfig) (mediaId : string)
  : Async Value :=
  let* response := BaseService.request config mediaId (with_method DELETE) in
  zparse MediaDeleteResponseSchema response.

(** The call [fetch(url)] of [uploadFromUrl]. *)
Definition source_call (url : string) : Request :=
  {| req_url := url; req_method := GET; req_headers := ∅; req_body := None |}.

Definition uploadFromUrl `{Runtime} `{Wire} (config : WhatsAppConfig)
    (url type : string) (filename : option string) : Async Value :=
  let* response := fetch (source_call url) in
  if negb (ok response) then
    throw (Error ("Failed to fetch media from URL: " +:+ statusText response))
  else
    let blob := ABlob (served (source_call url)) (served_type (source_call url)) in
    upload config blob type filename.

End MediaService.

(** ** The subscription schemas (src/unnamed/part_005) *)

Module Subscriptions.

Definition WhatsAppBusinessAPIDataSchema : Schema :=
  ZObject [("id", ZString []); ("link", ZString []); ("name", ZString [])].

Definition SubscribedAppSchema : Schema :=
  ZObject [("whatsapp_business_api_data", WhatsAppBusinessAPIDataSchema)].

Definition SubscribedAppWithOverrideSchema : Schema :=
  ZObject [
    ("whatsapp_business_api_data", WhatsAppBusinessAPIDataSchema);
    ("override_callback_uri", ZString [])
  ].

Definition SubscribeToWABAResponseSchema : Schema := ZObject [("success", ZBoolean)].

Definition GetSubscriptionsResponseSchema : Schema :=
  ZObject [("data", ZArray SubscribedAppSchema None)].

Definition UnsubscribeFromWABAResponseSchema : Schema :=
  ZObject [("success", ZBoolean)].

Definition OverrideCallbackURLRequestSchema : Schema :=
  ZObject [
    ("override_callback_uri", ZString [Url]);
    ("verify_token", ZString [])
  ].

Definition OverrideCallbackURLResponseSchema : Schema :=
  ZObject [("data", ZArray SubscribedAppWithOverrideSchema None)].

End Subscriptions.

(** The smallest configuration object: the two required fields. *)
Definition minimal_config : Value :=
  VObject [("accessToken", VString "token"); ("phoneNumberId", VString "1234567890")].

(** The operations of the services that call [fetch] themselves. *)
Definition account_level (op : Operation) : bool :=
  match op with
  | WABA_get _ _ | WABA_getOwned _ | WABA_getShared _ _ | WABA_getFirst
  | WABA_isVerified _ | WABA_isApproved _
  | Webhooks_subscribe _ _ | Webhooks_getSubscriptions _ | Webhooks_unsubscribe _
  | Webhooks_updateCallbackUrl _ _ _ | Webhooks_isSubscribed _
  | Webhooks_subscribeToFields _ _ _
  | PhoneNumbers_list _ _ | PhoneNumbers_get _ _
  | PhoneNumbers_getDisplayNameStatus _ | PhoneNumbers_isVerified _
  | PhoneNumbers_getQualityRating _ | PhoneNumbers_isDisplayNameApproved _
  | PhoneNumbers_getThroughputLevel _ => true
  | _ => false
  end.

(** The operations whose call is made with the method GET. *)
Definition reads (op : Operation) : bool :=
  match op with
  | Business_getProfile _ | Business_getCommerceSettings
  | Business_getPhoneNumberInfo
  | QRCodes_list | QRCodes_get _ | QRCodes_getImage _ _
  | Registration_getInfo _
  | Templates_list _ | Templates_get _ | Templates_getByName _
  | Templates_getByStatus _ _
  | WABA_get _ _ | WABA_getOwned _ | WABA_getShared _ _ | WABA_getFirst
  | WABA_isVerified _ | WABA_isApproved _
  | Webhooks_getSubscriptions _ | Webhooks_isSubscribed _
  | PhoneNumbers_list _ _ | PhoneNumbers_get _ _
  | PhoneNumbers_getDisplayNameStatus _ | PhoneNumbers_isVerified _
  | PhoneNumbers_getQualityRating _ | PhoneNumbers_isDisplayNameApproved _
  | PhoneNumbers_getThroughputLevel _ => true
  | _ => false
  end.

(** The bytes of a file source. *)
Definition content_of (file : MediaService.FileSource) : list Byte.byte :=
  match file with
  | MediaService.AFile content _ _ => content
  | MediaService.ABlob content _ => content
  | MediaService.ABuffer content => content
  end.

(** A wire that serves the same three bytes for every call. *)
Definition sample_wire : Wire := {|
  served := fun _ => [Byte.x89; Byte.x50; Byte.x4e];
  served_type := fun _ => "image/png"
|}.

(** The metadata of a stored image. *)
Definition media_metadata : Value :=
  VObject [
    ("messaging_product", VString "whatsapp");
    ("url", VString "https://lookaside.fbsbx.com/whatsapp_business/attachments/?mid=1");
    ("mime_type", VString "image/png");
    ("sha256", VString "c0ffee");
    ("file_size", VInt 3);
    ("id", VString "1")
  ].

(** A webhook notification of the account whose every change, in every
    entry, carries [lit] in its [field]. *)
Definition changes_tagged (lit : string) (v : Value) : Prop :=
  prop v "object" = VString "whatsapp_business_account" /\
  exists entries,
    prop v "entry" = VArray entries /\
    List.Forall
      (fun entry =>
         exists changes,
           prop entry "changes" = VArray changes /\
           List.Forall (fun change => prop change "field" = VString lit) changes)
      entries.

(** A notification whose one entry reports no change. *)
Definition quiet_notification : Value :=
  VObject [
    ("object", VString "whatsapp_business_account");
    ("entry", VArray [
      VObject [("id", VString "102290129340398"); ("time", VInt 1739321024);
               ("changes", VArray [])]
    ])
  ].

(** A subscription list whose one entry names no application. *)
Definition anonymous_subscription : Value := VObject [("data", VArray [VObject []])].

(** The call [subscribe] makes for the sample account when no callback is
    overridden: it has no body. *)
Definition bare_subscription_call : Request :=
  {| req_url := "https://graph.facebook.com/v21.0/102290129340398/subscribed_apps";
     req_method := POST;
     req_headers := WebhooksService.json_headers sample_config;
     req_body := None |}.

(** The call [subscribeToFields] makes for the sample account and the one
    field messages. *)
Definition messages_subscription_call : Request :=
  {| req_url := "https://graph.facebook.com/v21.0/102290129340398/subscribed_apps";
     req_method := POST;
     req_headers := WebhooksService.json_headers sample_config;
     req_body :=
       Some (BodyString
               (@JSON_stringify sample_runtime
                  (VObject [("subscribed_fields", VArray [VString "messages"])]))) |}.

(** Every value the schema [s] accepts, the schema [s'] accepts. *)
Definition refines `{Runtime} (s s' : Schema) : Prop :=
  forall v, is_Some (parse s v) -> is_Some (parse s' v).

(** Options for a QR code with a key the schema does not know. *)
Definition tagged_qr_options : Value :=
  VObject [("prefilled_message", VString "Hello"); ("campaign", VString "spring")].

(** The schema with which an operation that computes its result from
    another operation's result has the payload of that lookup parsed:
    [getFirst] by [getOwned], the status checks and the two readers of a
    phone number by [get] or [getDisplayNameStatus], [isSubscribed] by
    [getSubscriptions]. *)
Definition lookup_schema (op : Operation) : option Schema :=
  match op with
  | WABA_getFirst => Some WABAService.WABAListResponseSchema
  | WABA_isVerified _ | WABA_isApproved _ => Some WABAService.WABASchema
  | Webhooks_isSubscribed _ => Some WebhooksService.SubscriptionsListSchema
  | PhoneNumbers_isVerified _ | PhoneNumbers_getQualityRating _
  | PhoneNumbers_getThroughputLevel _ =>
      Some PhoneNumbersService.PhoneNumberSchema
  | PhoneNumbers_isDisplayNameApproved _ =>
      Some PhoneNumbersService.DisplayNameStatusSchema
  | _ => None
  end.

(** The checks other than the parse of [validated_input] that an
    operation makes before it calls: the account identifier of the
    commerce settings, the read of [settings.pin], the fields of
    [subscribeToFields]. *)
Definition local_checks `{Runtime} (config : WhatsAppConfig) (op : Operation)
  : bool :=
  match op with
  | Business_getCommerceSettings | Business_updateCommerceSettings _ =>
      truthy (wabaId_value config)
  | Registration_updateSettings settings =>
      match settings with
      | VUndefined | VNull => false
      | _ => true
      end
  | Webhooks_subscribeToFields _ fields _ =>
      forallb (fun field =>
                 bool_decide (is_Some (parse WebhooksService.WebhookFieldSchema
                                         (VString field))))
        fields
  | _ => true
  end.

(** A platform as [sample_runtime], except that it prints an object as
    its keys with their string values. *)
Definition show_entry (entry : string * Value) : string :=
  fst entry +:+ "="
  +:+ match snd entry with
      | VString s => s
      | _ => "<value>"
      end.

Definition printing_runtime : Runtime := {|
  JSON_stringify := fun v =>
    match v with
    | VObject props => String.concat "&" (map show_entry props)
    | _ => "<value>"
    end;
  URL_href := fun s params =>
    match params with
    | [] => Some s
    | _ => Some (s +:+ "?<query>")
    end;
  URLSearchParams_toString := fun _ => "<query>";
  is_url := fun _ => true;
  is_email := fun _ => true;
  String_of := fun _ => "<value>"
|}.

(** * Properties of the transport primitive *)

Arguments parse : simpl never.

Section Transport.
Context `{Runtime}.

Lemma bind_ret_l {A B} (a : A) (k : A -> Async B) net log :
  bind (ret a) k net log = k a net log.
Proof. reflexivity. Qed.

Lemma bind_throw_l {A B} (e : Exn) (k : A -> Async B) net log :
  bind (throw e) k net log = (inl e, log).
Proof. reflexivity. Qed.

Lemma bind_inl {A B} (m : Async A) (k : A -> Async B) net log e log' :
  m net log = (inl e, log') -> bind m k net log = (inl e, log').
Proof. intros Hm. unfold bind. now rewrite Hm. Qed.

Lemma bind_inr {A B} (m : Async A) (k : A -> Async B) net log a log' :
  m net log = (inr a, log') -> bind m k net log = k a net log'.
Proof. intros Hm. unfold bind. now rewrite Hm. Qed.

(** A failed schema check throws and leaves the log alone. *)
Lemma zparse_reject (s : Schema) (v : Value) net log :
  parse s v = None -> zparse s v net log = (inl ZodError, log).
Proof. intros Hp. unfold zparse. now rewrite Hp. Qed.

Lemma zparse_accept (s : Schema) (v out : Value) net log :
  parse s v = Some out -> zparse s v net log = (inr out, log).
Proof. intros Hp. unfold zparse. now rewrite Hp. Qed.

(** What [request] does, by the answer of the network: it logs exactly
    one call, and returns the payload of a successful JSON response. *)
Lemma request_run config path options net log :
  BaseService.request config path options net log =
  (match net (BaseService.fetch_call config path options) with
   | NetworkFailure => inl TypeError
   | Answered response =>
       match json response with
       | None => inl SyntaxError
       | Some data =>
           if ok response then inr data
           else
             match parse ApiErrorSchema data with
             | Some result =>
                 let error := prop result "error" in
                 inl (WhatsAppApiError (prop error "code") (prop error "message")
                        (prop error "type") (prop error "error_subcode")
                        (prop error "fbtrace_id"))
             | None =>
                 inl (Error ("API request failed with status "
                             +:+ pretty (status response) +:+ ": "
                             +:+ JSON_stringify data))
             end
       end
   end, (log ++ [BaseService.fetch_call config path options])%list).
Proof.
  unfold BaseService.request, bind, fetch, response_json.
  destruct (net _) as [response|]; [|reflexivity].
  destruct (json response) as [data|]; cbn; [|reflexivity].
  destruct (ok response); cbn; [reflexivity|].
  destruct (parse ApiErrorSchema data); reflexivity.
Qed.

Lemma request_log config path options net log :
  snd (BaseService.request config path options net log) =
  (log ++ [BaseService.fetch_call config path options])%list.
Proof. now rewrite request_run. Qed.

(** A value comes back only from a call the network answered with a
    success status and a JSON payload, which is that value. *)
Lemma request_inr config path options net log v log' :
  BaseService.request config path options net log = (inr v, log') ->
  exists response,
    net (BaseService.fetch_call config path options) = Answered response /\
    ok response = true /\ json response = Some v /\
    log' = (log ++ [BaseService.fetch_call config path options])%list.
Proof.
  rewrite request_run. intros Hr.
  destruct (net _) as [response|]; [|discriminate].
  exists response.
  destruct (json response) as [data|]; [|discriminate].
  destruct (ok response); [|destruct (parse ApiErrorSchema data); discriminate].
  injection Hr as -> <-. auto.
Qed.

(** The URL of the call is the base origin, the version and the path,
    joined by single slashes. *)
Lemma request_url config path options :
  req_url (BaseService.fetch_call config path options) =
  baseUrl config +:+ "/" +:+ version config +:+ "/" +:+ path.
Proof. reflexivity. Qed.

End Transport.

(** * Properties of the schema interpreter *)

Section Schemas.
Context `{Runtime}.

Lemma parse_ZObject shape v :
  parse (ZObject shape) v =
  match v with
  | VObject props => option_map VObject (parse_shape parse props shape)
  | _ => None
  end.
Proof. reflexivity. Qed.

Lemma parse_ZLiteral lit v :
  parse (ZLiteral lit) v =
  match v with
  | VString str => if String.eqb str lit then Some v else None
  | _ => None
  end.
Proof. reflexivity. Qed.

Lemma parse_ZString checks v :
  parse (ZString checks) v =
  match v with
  | VString str => if forallb (string_check str) checks then Some v else None
  | _ => None
  end.
Proof. reflexivity. Qed.

Lemma parse_ZOptional inner v :
  parse (ZOptional inner) v =
  match v with
  | VUndefined => Some VUndefined
  | _ => parse inner v
  end.
Proof. reflexivity. Qed.

Lemma parse_leaf s : leaf s = true -> forall v r, parse s v = Some r -> r = v.
Proof.
  induction s; try discriminate; intros Hleaf v r Hp.
  - rewrite parse_ZString in Hp.
    destruct v; try discriminate. destruct (forallb _ _); congruence.
  - change (parse (ZNumber checks) v) with
      (match v with
       | VNumber q => if forallb (number_check q) checks then Some v else None
       | _ => None
       end) in Hp.
    destruct v; try discriminate. destruct (forallb _ _); congruence.
  - change (parse ZBoolean v) with
      (match v with VBool _ => Some v | _ => None end) in Hp.
    destruct v; congruence.
  - rewrite parse_ZLiteral in Hp.
    destruct v; try discriminate. destruct (String.eqb _ _); congruence.
  - change (parse (ZEnum options) v) with
      (match v with
       | VString str => if mem_string str options then Some v else None
       | _ => None
       end) in Hp.
    destruct v; try discriminate. destruct (mem_string _ _); congruence.
  - rewrite parse_ZOptional in Hp. cbn in Hleaf.
    destruct v; try (now apply IHs); congruence.
  - change (parse ZAny v) with (Some v) in Hp. congruence.
Qed.

(** The keys an object schema sets are keys of its shape. *)
Lemma parse_shape_keys p props shape : forall out k r,
  parse_shape p props shape = Some out ->
  lookup_prop out k = Some r ->
  In k (map fst shape).
Proof.
  induction shape as [|[k' sk] rest IH]; intros out k r Hp Hl.
  - cbn in Hp. injection Hp as <-. discriminate.
  - cbn [parse_shape] in Hp.
    destruct (p sk _) as [r'|]; [|discriminate].
    destruct (parse_shape p props rest) as [out'|] eqn:Hrest; [|discriminate].
    destruct (has_prop props k' || negb (is_undefined r')).
    + injection Hp as <-. cbn in Hl.
      destruct (String.eqb k' k) eqn:Hk.
      * apply String.eqb_eq in Hk. now left.
      * right. eapply IH; eauto.
    + injection Hp as <-. right. eapply IH; eauto.
Qed.

(** Reading a key of the shape from the output of an object schema gives
    what the key's schema made of the input's property. *)
Lemma parse_shape_lookup p props shape :
  List.NoDup (map fst shape) ->
  forall out k s,
    parse_shape p props shape = Some out ->
    shape_lookup shape k = Some s ->
    exists r, p s (prop (VObject props) k) = Some r /\ prop (VObject out) k = r.
Proof.
  induction shape as [|[k' sk] rest IH]; intros Hnd out k s Hp Hs.
  - discriminate.
  - cbn in Hnd. apply NoDup_cons_iff in Hnd as [Hnotin Hnd].
    cbn [parse_shape] in Hp. cbn [shape_lookup] in Hs.
    destruct (p sk (prop (VObject props) k')) as [r'|] eqn:Hr'; [|discriminate].
    destruct (parse_shape p props rest) as [out'|] eqn:Hrest; [|discriminate].
    destruct (String.eqb k' k) eqn:Hk.
    + apply String.eqb_eq in Hk. subst k'. injection Hs as <-.
      exists r'. split; [exact Hr'|].
      destruct (has_prop props k || negb (is_undefined r')) eqn:Hset.
      * injection Hp as <-. cbn. now rewrite String.eqb_refl.
      * injection Hp as <-. unfold prop.
        destruct (lookup_prop out' k) as [r|] eqn:Hl.
        -- exfalso. apply Hnotin. eapply parse_shape_keys; eauto.
        -- apply orb_false_iff in Hset as [_ Hu].
           destruct r'; cbn in Hu; try discriminate. reflexivity.
    + destruct (IH Hnd out' k s eq_refl Hs) as (r & Hr & Hout).
      exists r. split; [exact Hr|].
      destruct (has_prop props k' || negb (is_undefined r')).
      * injection Hp as <-. cbn. rewrite Hk. exact Hout.
      * injection Hp as <-. exact Hout.
Qed.

(** Every key of the shape must parse for the object to parse. *)
Lemma parse_object_key shape v out k s :
  List.NoDup (map fst shape) ->
  parse (ZObject shape) v = Some out ->
  shape_lookup shape k = Some s ->
  exists r, parse s (prop v k) = Some r /\ prop out k = r.
Proof.
  intros Hnd Hp Hs. rewrite parse_ZObject in Hp.
  destruct v as [| | | | | |props]; try discriminate.
  destruct (parse_shape parse props shape) as [o|] eqn:Hsh; [|discriminate].
  injection Hp as <-. eapply parse_shape_lookup; eauto.
Qed.

(** A literal accepts its own string and nothing else. *)
Lemma parse_literal_inv lit v r :
  parse (ZLiteral lit) v = Some r -> v = VString lit.
Proof.
  rewrite parse_ZLiteral. destruct v; try discriminate.
  destruct (String.eqb s lit) eqn:He; [|discriminate].
  apply String.eqb_eq in He. now subst.
Qed.

End Schemas.

(** * Stepping through asynchronous code *)

(** Unfold the monad and reduce the matches it exposes. *)
Ltac async :=
  unfold run, boolean, fail_with, try_catch, bind, ret, throw, fetch,
    response_json, zparse, new_URL, member;
  cbv beta iota zeta; cbn [negb fst snd].

(** Case analysis on whatever the computation inspects next. *)
Ltac async_cases :=
  repeat (async;
          match goal with
          | |- context [match URL_href ?s ?p with _ => _ end] =>
              destruct (URL_href s p) eqn:?
          | |- context [match ?n ?r with _ => _ end] =>
              match type of n with Network => destruct (n r) eqn:? end
          | |- context [match json ?r with _ => _ end] => destruct (json r) eqn:?
          | |- context [ok ?r] => destruct (ok r) eqn:?
          | |- context [match parse ?s ?v with _ => _ end] =>
              destruct (parse s v) eqn:?
          | |- context [match ?x with _ => _ end] => is_var x; destruct x
          end);
  async.

(** * URL resolution *)

(** Every operation built on [request] calls the configured origin: the
    one call it logs has the URL baseUrl/version/path. *)
Lemma request_calls_configured_origin `{Runtime} config path options net log :
  map req_url (snd (BaseService.request config path options net log)) =
  (map req_url log ++ [baseUrl config +:+ "/" +:+ version config +:+ "/" +:+ path])%list.
Proof. rewrite request_log, map_app. reflexivity. Qed.

(** The account-level services never read the configured origin. *)
Lemma waba_get_baseUrl_irrelevant `{Runtime} config origin wabaId_ fields :
  WABAService.get (WABAService.new (set_baseUrl config origin)) wabaId_ fields =
  WABAService.get (WABAService.new config) wabaId_ fields.
Proof. reflexivity. Qed.

(** The three account-level services are constructed alike. *)
Lemma account_services_origin config :
  WABAService.this_baseUrl (WABAService.new config)
  = "https://graph.facebook.com/" +:+ version config /\
  WebhooksService.this_baseUrl (WebhooksService.new config)
  = "https://graph.facebook.com/" +:+ version config /\
  PhoneNumbersService.this_baseUrl (PhoneNumbersService.new config)
  = "https://graph.facebook.com/" +:+ version config.
Proof. repeat split. Qed.

(** The configurations the schema accepts: a non-empty credential, a
    non-empty phone number identifier, and a base origin in URL format. *)
Lemma valid_config_iff `{Runtime} config :
  valid_config config <->
  accessToken config <> EmptyString /\
  phoneNumberId config <> EmptyString /\
  is_url (baseUrl config) = true.
Proof.
  unfold valid_config.
  destruct config as [token phone waba ver origin]; cbn [accessToken phoneNumberId baseUrl].
  split.
  - intros Hp. cbv -[is_url] in Hp.
    destruct token; [destruct waba; discriminate|].
    destruct phone; [destruct waba; discriminate|].
    destruct (is_url origin); [|destruct waba; discriminate].
    repeat split; discriminate.
  - intros (Htoken & Hphone & Hurl).
    destruct token; [congruence|]. destruct phone; [congruence|].
    cbv -[is_url]. rewrite Hurl. now destruct waba.
Qed.

(** C1, at a configuration whose base origin is not the default one (a
    valid configuration wherever that origin counts as a URL):
    [buildUrl] resolves a path against the configured origin, while
    [WABAService.get] hands the URL constructor an address under
    graph.facebook.com and calls that. *)
Theorem waba_get_ignores_configured_origin : forall (R : Runtime) (net : Network),
  (valid_config proxied_config <-> is_url "https://example.com" = true) /\
  BaseService.buildUrl proxied_config "123" = "https://example.com/v21.0/123" /\
  snd (run (WABAService.get (WABAService.new proxied_config) "123" None) net) =
    match URL_href "https://graph.facebook.com/v21.0/123" [] with
    | Some href =>
        [ {| req_url := href; req_method := GET;
             req_headers := bearer proxied_config; req_body := None |} ]
    | None => []
    end.
Proof.
  intros R net.
  split; [rewrite valid_config_iff; cbn; intuition discriminate|].
  split; [reflexivity|].
  unfold run, WABAService.get. cbn [WABAService.this_baseUrl WABAService.new
    WABAService.this_config version proxied_config fields_param String.append].
  async.
  destruct (URL_href _ _) as [href|]; [|reflexivity].
  async_cases; reflexivity.
Qed.

(** * Error classification *)

Ltac nodup_keys :=
  cbn; repeat (apply List.NoDup_cons; [cbn; intuition discriminate|]);
  apply List.NoDup_nil.

(** The envelope schema hands the five fields of [error] over as they
    stand in the payload. *)
Lemma ApiErrorSchema_fields `{Runtime} data result k s :
  parse ApiErrorSchema data = Some result ->
  shape_lookup
    [("message", ZString []); ("type", ZString []); ("code", ZNumber []);
     ("error_subcode", ZOptional (ZNumber [])); ("fbtrace_id", ZString [])] k
    = Some s ->
  leaf s = true ->
  prop (prop result "error") k = prop (prop data "error") k.
Proof.
  intros Hp Hk Hleaf. unfold ApiErrorSchema in Hp.
  match type of Hp with
  | parse (ZObject ?sh) _ = _ =>
      destruct (parse_object_key sh data result "error" _ ltac:(nodup_keys) Hp eq_refl)
        as (inner & Hinner & ->)
  end.
  match type of Hinner with
  | parse (ZObject ?sh) _ = _ =>
      destruct (parse_object_key sh _ inner k s ltac:(nodup_keys) Hinner Hk)
        as (r & Hr & ->)
  end.
  now apply parse_leaf in Hr.
Qed.

(** C2 as stated fails: a response outside the success range whose
    payload is not JSON raises neither an API error nor the generic
    failure with status and body; the failure of [response.json()]
    escapes. *)
Lemma request_non_json_failure_counterexample :
  ~ (forall (R : Runtime) config path options net response,
       net (BaseService.fetch_call config path options) = Answered response ->
       ok response = false ->
       exists e,
         fst (run (BaseService.request config path options) net) = inl e /\
         ((exists code message type subcode fbtraceId,
             e = WhatsAppApiError code message type subcode fbtraceId) \/
          (exists message, e = Error message))).
Proof.
  intros Hclaim.
  destruct (Hclaim sample_runtime sample_config "1234567890/messages"
              (with_method POST) (always bad_gateway) bad_gateway
              eq_refl eq_refl) as (e & He & Hkind).
  vm_compute in He. injection He as <-.
  destruct Hkind as [(c & m & t & s & f & Habs) | (m & Habs)]; discriminate.
Qed.

(** C2, amended: when the response is outside the success range and its
    payload is JSON, [request] raises the typed API error with the code,
    message, type, subcode and trace id of the payload's [error] object if
    the payload matches the envelope, and otherwise the generic failure
    whose message carries the status and the serialized payload.  One call
    has been made. *)
Theorem request_failure_classification `{Runtime} config path options net log
    response data :
  net (BaseService.fetch_call config path options) = Answered response ->
  ok response = false ->
  json response = Some data ->
  BaseService.request config path options net log =
  (inl (match parse ApiErrorSchema data with
        | Some _ =>
            WhatsAppApiError
              (prop (prop data "error") "code")
              (prop (prop data "error") "message")
              (prop (prop data "error") "type")
              (prop (prop data "error") "error_subcode")
              (prop (prop data "error") "fbtrace_id")
        | None =>
            Error ("API request failed with status "
                   +:+ pretty (status response) +:+ ": " +:+ JSON_stringify data)
        end),
   (log ++ [BaseService.fetch_call config path options])%list).
Proof.
  intros Hnet Hok Hjson.
  rewrite request_run, Hnet, Hjson, Hok.
  destruct (parse ApiErrorSchema data) as [result|] eqn:Hp; [|reflexivity].
  cbv zeta.
  rewrite (ApiErrorSchema_fields data result "code" _ Hp eq_refl eq_refl),
    (ApiErrorSchema_fields data result "message" _ Hp eq_refl eq_refl),
    (ApiErrorSchema_fields data result "type" _ Hp eq_refl eq_refl),
    (ApiErrorSchema_fields data result "error_subcode" _ Hp eq_refl eq_refl),
    (ApiErrorSchema_fields data result "fbtrace_id" _ Hp eq_refl eq_refl).
  reflexivity.
Qed.

(** The 400 response of the specification raises the API error with code
    100, type OAuthException and trace id abc123. *)
Lemma request_failure_classification_witness :
  always bad_request
    (BaseService.fetch_call sample_config "1234567890/messages" (with_method POST))
    = Answered bad_request /\
  ok bad_request = false /\
  json bad_request = Some invalid_parameter /\
  @BaseService.request sample_runtime sample_config "1234567890/messages"
    (with_method POST) (always bad_request) [] =
  (inl (WhatsAppApiError (VInt 100) (VString "Invalid parameter")
          (VString "OAuthException") VUndefined (VString "abc123")),
   [BaseService.fetch_call sample_config "1234567890/messages" (with_method POST)]).
Proof.
  split; [reflexivity|]. split; [reflexivity|]. split; [reflexivity|].
  exact (@request_failure_classification sample_runtime sample_config
           "1234567890/messages" (with_method POST) (always bad_request) []
           bad_request invalid_parameter eq_refl eq_refl eq_refl).
Defined.

(** * Header policy *)

(** C5 as stated fails: caller-supplied headers are spread after the
    bearer header, so a caller-supplied Authorization entry replaces it. *)
Lemma request_authorization_counterexample :
  ~ (forall (R : Runtime) config path options net call,
       In call (snd (run (BaseService.request config path options) net)) ->
       req_headers call !! "Authorization"
       = Some ("Bearer " +:+ accessToken config)).
Proof.
  intros Hclaim.
  specialize (Hclaim sample_runtime sample_config "1234567890" own_credentials
                unreachable
                (BaseService.fetch_call sample_config "1234567890" own_credentials)).
  unfold run in Hclaim. rewrite request_log in Hclaim.
  specialize (Hclaim (or_introl eq_refl)).
  vm_compute in Hclaim. discriminate.
Qed.

(** C5, amended: [request] makes one call.  Its header map always has an
    Authorization entry: the caller's when the caller supplies one, the
    bearer credential otherwise.  Content-Type is application/json when
    the body is a non-empty string; otherwise (no body, an empty string, a
    multipart form) it is whatever the caller supplied.  Every other
    caller-supplied header is sent unchanged, and nothing else is added. *)
Theorem request_header_policy `{Runtime} config path options net log :
  exists call,
    snd (BaseService.request config path options net log) = (log ++ [call])%list /\
    req_headers call !! "Authorization"
    = Some (default ("Bearer " +:+ accessToken config)
              (headers options !! "Authorization")) /\
    req_headers call !! "Content-Type"
    = match body options with
      | Some (BodyString (String _ _)) => Some "application/json"
      | _ => headers options !! "Content-Type"
      end /\
    forall name,
      name <> "Authorization" -> name <> "Content-Type" ->
      req_headers call !! name = headers options !! name.
Proof.
  exists (BaseService.fetch_call config path options).
  split; [apply request_log|].
  unfold BaseService.fetch_call, BaseService.request_headers. cbn [req_headers].
  assert (Hauth : (headers options ∪ {[ "Authorization" := "Bearer " +:+ accessToken config ]})
                    !! "Authorization"
                  = Some (default ("Bearer " +:+ accessToken config)
                            (headers options !! "Authorization"))).
  { rewrite lookup_union, lookup_singleton_eq.
    destruct (headers options !! "Authorization"); reflexivity. }
  assert (Hother : forall name, name <> "Authorization" ->
            (headers options ∪ {[ "Authorization" := "Bearer " +:+ accessToken config ]})
              !! name = headers options !! name).
  { intros name Hne. rewrite lookup_union, lookup_singleton_ne by congruence.
    destruct (headers options !! name); reflexivity. }
  destruct (body options) as [[[|c s]|entries]|]; cbn [body_truthy is_FormData is_empty negb andb].
  - repeat split; [exact Hauth | apply Hother; discriminate | intros; now apply Hother].
  - repeat split.
    + rewrite lookup_insert_ne by discriminate. exact Hauth.
    + apply lookup_insert_eq.
    + intros name Ha Hc. rewrite lookup_insert_ne by congruence. now apply Hother.
  - repeat split; [exact Hauth | apply Hother; discriminate | intros; now apply Hother].
  - repeat split; [exact Hauth | apply Hother; discriminate | intros; now apply Hother].
Qed.

(** * Two-step verification *)

(** C7: a PIN whose length is not 6 makes [setPin] raise the validation
    failure with the log of calls unchanged: no HTTP call is made. *)
Theorem setPin_rejects_wrong_length `{Runtime} config pin net log :
  String.length pin <> 6%nat ->
  TwoStepVerificationService.setPin config pin net log = (inl ZodError, log).
Proof.
  intros Hlen. unfold TwoStepVerificationService.setPin.
  apply bind_inl, zparse_reject.
  apply Nat.eqb_neq in Hlen.
  cbv -[String.length Nat.eqb]. now rewrite Hlen.
Qed.

(** A 7-character PIN, against a network that would answer. *)
Lemma setPin_rejects_wrong_length_witness :
  String.length "1234567" <> 6%nat /\
  run (@TwoStepVerificationService.setPin sample_runtime sample_config "1234567")
    (always bad_request)
  = (inl ZodError, []).
Proof.
  assert (Hlen : String.length "1234567" <> 6%nat) by (cbn; lia).
  split; [exact Hlen|].
  exact (@setPin_rejects_wrong_length sample_runtime sample_config "1234567"
           (always bad_request) [] Hlen).
Defined.

(** * Validation of outbound payloads *)

(** C3 as stated fails.  [updateProfile] serializes and sends a profile
    that the business profile schema rejects, and [removePin] sends the
    fixed payload with the empty PIN, which the PIN schema rejects; each
    makes its HTTP call. *)
Lemma outbound_validation_counterexample :
  ~ (forall (R : Runtime) config profile net,
       parse BusinessService.BusinessProfileSchema
         (VObject (spread [("messaging_product", VString "whatsapp")] profile))
       = None ->
       snd (run (BusinessService.updateProfile config profile) net) = [])
  /\
  ~ (forall (R : Runtime) config net,
       parse TwoStepVerificationService.TwoStepVerificationPinSchema
         (VObject [("pin", VString EmptyString)])
       = None ->
       snd (run (TwoStepVerificationService.removePin config) net) = []).
Proof.
  split; intros Hclaim.
  - specialize (Hclaim sample_runtime sample_config long_about
                  (always success_response) eq_refl).
    unfold run, BusinessService.updateProfile, bind in Hclaim.
    rewrite request_run in Hclaim. discriminate.
  - specialize (Hclaim sample_runtime sample_config (always success_response)
                  eq_refl).
    unfold run, TwoStepVerificationService.removePin, bind in Hclaim.
    rewrite request_run in Hclaim. discriminate.
Qed.

Ltac reject_input Hp :=
  cbn [perform];
  unfold TwoStepVerificationService.setPin, QRCodesService.create,
    QRCodesService.update, RegistrationService.register,
    RegistrationService.requestCode, RegistrationService.verifyCode,
    TemplatesService.create, WABAService.getOwned, WABAService.getShared,
    PhoneNumbersService.list_, WebhooksService.updateCallbackUrl,
    WebhooksService.subscribe, WebhooksService.subscribeToFields;
  cbn [truthy];
  repeat match goal with Ht : truthy _ = true |- _ => rewrite Ht end;
  apply bind_inl; apply zparse_reject; exact Hp.

(** C3, amended: an operation that parses its caller-supplied input with
    a request schema raises the validation failure when the schema rejects
    the input, and the log of calls is unchanged: nothing was sent.
    [removePin] takes no input and sends its fixed payload unvalidated. *)
Theorem validated_input_rejected_before_network `{Runtime} config op schema input
    net log :
  validated_input op = Some (schema, input) ->
  parse schema input = None ->
  perform config op net log = (inl ZodError, log) /\
  snd (perform config TwoStep_removePin net log) =
    (log ++ [BaseService.fetch_call config (phoneNumberId config)
               (with_json POST (VObject [("pin", VString EmptyString)]))])%list.
Proof.
  intros Hin Hp. split.
  - destruct op; cbn [validated_input] in Hin; try discriminate;
      try (destruct (truthy options) eqn:Ht; [|discriminate]);
      injection Hin as <- <-; reject_input Hp.
  - cbn [perform]. unfold TwoStepVerificationService.removePin, bind.
    rewrite request_run. async_cases; reflexivity.
Qed.

Lemma validated_input_rejected_before_network_witness :
  validated_input (TwoStep_setPin "1234567")
  = Some (TwoStepVerificationService.TwoStepVerificationPinSchema,
          VObject [("pin", VString "1234567")]) /\
  @parse sample_runtime TwoStepVerificationService.TwoStepVerificationPinSchema
    (VObject [("pin", VString "1234567")]) = None /\
  @perform sample_runtime sample_config (TwoStep_setPin "1234567")
    (always success_response) [] = (inl ZodError, []).
Proof.
  split; [reflexivity|]. split; [reflexivity|].
  exact (proj1 (@validated_input_rejected_before_network sample_runtime
                  sample_config (TwoStep_setPin "1234567") _ _
                  (always success_response) [] eq_refl eq_refl)).
Defined.

(** * Validation of responses, and failures that propagate *)

Create HintDb services.

#[local] Hint Unfold
  TwoStepVerificationService.setPin TwoStepVerificationService.removePin
  BusinessService.getProfile BusinessService.updateProfile
  BusinessService.getCommerceSettings BusinessService.updateCommerceSettings
  BusinessService.getPhoneNumberInfo BusinessService.registerPhoneNumber
  BusinessService.deregisterPhoneNumber
  QRCodesService.create QRCodesService.list_ QRCodesService.get
  QRCodesService.update QRCodesService.delete QRCodesService.getImage
  RegistrationService.register RegistrationService.deregister
  RegistrationService.getInfo RegistrationService.requestCode
  RegistrationService.verifyCode RegistrationService.updateSettings
  TemplatesService.create TemplatesService.list_ TemplatesService.get
  TemplatesService.delete TemplatesService.update TemplatesService.getByName
  TemplatesService.getByStatus
  WABAService.get WABAService.getOwned WABAService.getShared
  WABAService.getFirst WABAService.isVerified WABAService.isApproved
  WebhooksService.subscribe WebhooksService.getSubscriptions
  WebhooksService.unsubscribe WebhooksService.updateCallbackUrl
  WebhooksService.isSubscribed WebhooksService.subscribeToFields
  PhoneNumbersService.list_ PhoneNumbersService.get
  PhoneNumbersService.getDisplayNameStatus PhoneNumbersService.isVerified
  PhoneNumbersService.getQualityRating PhoneNumbersService.isDisplayNameApproved
  PhoneNumbersService.getThroughputLevel
  : services.

(** Case analysis through a whole operation, [request] included. *)
Ltac operation_cases :=
  autounfold with services;
  repeat (async; rewrite ?request_run;
          match goal with
          | |- context [match URL_href ?s ?p with _ => _ end] =>
              destruct (URL_href s p) eqn:?
          | |- context [match ?n ?r with _ => _ end] =>
              match type of n with Network => destruct (n r) eqn:? end
          | |- context [match json ?r with _ => _ end] => destruct (json r) eqn:?
          | |- context [ok ?r] => destruct (ok r) eqn:?
          | |- context [match parse ?s ?v with _ => _ end] =>
              destruct (parse s v) eqn:?
          | |- context [match ?x with _ => _ end] => is_var x; destruct x
          | |- context [match ?x with _ => _ end] =>
              lazymatch x with
              | context [match _ with _ => _ end] => fail
              | _ => destruct x eqn:?
              end
          end);
  async.

(** Except for [isSubscribed], an operation returns a value only after
    exactly one call that the network answered with a success status and
    a JSON payload; and when the operation has a response schema, the
    value is what that schema made of the payload. *)
Lemma perform_returns_after_success `{Runtime} config op net log v log' :
  (forall wabaId_, op <> Webhooks_isSubscribed wabaId_) ->
  perform config op net log = (inr v, log') ->
  exists call response data,
    log' = (log ++ [call])%list /\
    net call = Answered response /\
    ok response = true /\
    json response = Some data /\
    forall schema, response_schema op = Some schema -> parse schema data = Some v.
Proof.
  intros Hop.
  destruct op; try (exfalso; eapply Hop; reflexivity);
    cbn [perform response_schema];
    operation_cases; intros Hr; try discriminate;
    injection Hr as <- <-;
    do 3 eexists; (split; [reflexivity|]);
    (split; [eassumption|]); (split; [eassumption|]); (split; [eassumption|]);
    intros schema Hs; try discriminate; injection Hs as <-; assumption.
Qed.

(** C4, at the failing input: the network answers 200 with a payload that
    does not have the shape [{ success: boolean }] both methods declare as
    their result.  [QRCodesService.update] and
    [RegistrationService.updateSettings] return that payload to the
    caller; [QRCodesService.delete], on the same answer, raises the
    validation failure. *)
Theorem unvalidated_response_is_returned : forall (R : Runtime),
  parse (ZObject [("success", ZBoolean)]) unexpected_payload = None /\
  fst (run (QRCodesService.update sample_config "4O4YGZEG3RIVE1"
              (VObject [("prefilled_message", VString "Hello")]))
         (always unexpected_response))
  = inr unexpected_payload /\
  fst (run (RegistrationService.updateSettings sample_config
              (VObject [("pin", VString "654321")]))
         (always unexpected_response))
  = inr unexpected_payload /\
  fst (run (QRCodesService.delete sample_config "4O4YGZEG3RIVE1")
         (always unexpected_response))
  = inl ZodError.
Proof.
  intros R. split; [reflexivity|].
  split; [|split].
  - unfold run, QRCodesService.update, bind.
    rewrite (zparse_accept _ _ (VObject [("prefilled_message", VString "Hello")]))
      by reflexivity.
    now rewrite request_run.
  - unfold run, RegistrationService.updateSettings, member, bind, ret.
    cbv beta iota. now rewrite request_run.
  - unfold run, QRCodesService.delete, bind.
    now rewrite request_run.
Qed.

(** * The account identifier *)

(** The commerce settings operations check the identifier first: without
    one they throw before any call. *)
Lemma commerce_settings_require_wabaId `{Runtime} config settings net log :
  truthy (wabaId_value config) = false ->
  BusinessService.getCommerceSettings config net log
  = (inl (Error "wabaId is required to get commerce settings"), log) /\
  BusinessService.updateCommerceSettings config settings net log
  = (inl (Error "wabaId is required to update commerce settings"), log).
Proof.
  intros Hid.
  unfold BusinessService.getCommerceSettings, BusinessService.updateCommerceSettings.
  now rewrite Hid.
Qed.

(** [TemplatesService.create] has no such check: whatever the
    configuration, a template the schema accepts is sent, to a path that
    starts with the identifier as a template literal prints it. *)
Lemma templates_create_sends `{Runtime} config template_ validated net log :
  parse TemplatesService.CreateTemplateSchema template_ = Some validated ->
  snd (TemplatesService.create config template_ net log)
  = (log ++ [BaseService.fetch_call config
               (template (wabaId_value config) +:+ "/message_templates")
               (with_json POST validated)])%list.
Proof.
  intros Hp. unfold TemplatesService.create, bind.
  rewrite (zparse_accept _ _ _ _ _ Hp), request_run.
  async_cases; reflexivity.
Qed.

(** C6, at the failing input: the configuration has no account
    identifier, and [TemplatesService.create] still makes its call, to the
    path undefined/message_templates. *)
Theorem templates_create_without_wabaId : forall (R : Runtime) (net : Network),
  wabaId sample_config = None /\
  map req_url (snd (run (TemplatesService.create sample_config welcome_template) net))
  = ["https://graph.facebook.com/v21.0/undefined/message_templates"].
Proof.
  intros R net. split; [reflexivity|].
  unfold run.
  rewrite (templates_create_sends sample_config welcome_template welcome_template)
    by reflexivity.
  reflexivity.
Qed.

(** * Webhook change discriminators *)

(** A change object that a change schema accepts carries the schema's
    literal in [field]. *)
Lemma change_schema_field `{Runtime} value_schema lit v out :
  parse (ZObject [("value", value_schema); ("field", ZLiteral lit)]) v = Some out ->
  prop v "field" = VString lit.
Proof.
  intros Hp.
  destruct (parse_object_key [("value", value_schema); ("field", ZLiteral lit)]
              v out "field" (ZLiteral lit) ltac:(nodup_keys) Hp eq_refl)
    as (r & Hr & _).
  now apply parse_literal_inv in Hr.
Qed.

Lemma messages_change_field `{Runtime} v out :
  parse MessagesWebhook.MessagesChangeSchema v = Some out ->
  prop v "field" = VString "messages".
Proof. apply change_schema_field. Qed.

Lemma components_update_change_field `{Runtime} v out :
  parse TemplateComponentsUpdate.TemplateComponentsUpdateChangeSchema v = Some out ->
  prop v "field" = VString "message_template_components_update".
Proof. apply change_schema_field. Qed.

(** The quality update schema accepts only the discriminator of the
    status update. *)
Lemma quality_update_change_field `{Runtime} v out :
  parse TemplateQualityUpdate.TemplateQualityUpdateChangeSchema v = Some out ->
  prop v "field" = VString "message_template_status_update".
Proof. apply change_schema_field. Qed.

(** C8, at the failing input: a change with the discriminator
    message_template_quality_update and a well-formed quality value is
    rejected by the quality update schema, which accepts the same value
    under the discriminator message_template_status_update. *)
Theorem quality_update_schema_discriminator : forall (R : Runtime),
  parse TemplateQualityUpdate.TemplateQualityUpdateValueSchema quality_value
  = Some quality_value /\
  parse TemplateQualityUpdate.TemplateQualityUpdateChangeSchema
    (change "message_template_quality_update" quality_value)
  = None /\
  parse TemplateQualityUpdate.TemplateQualityUpdateChangeSchema
    (change "message_template_status_update" quality_value)
  = Some (change "message_template_status_update" quality_value).
Proof.
  intros R. split; [reflexivity|]. split.
  - destruct (parse _ _) as [out|] eqn:Hp; [|reflexivity].
    apply quality_update_change_field in Hp. discriminate.
  - reflexivity.
Qed.

(** * Boolean status checks *)

(** C9 as stated fails: with the network down, the lookup behind
    [isVerified] and [isApproved] throws, and so do they; neither answers
    false. *)
Lemma status_checks_counterexample :
  ~ (forall (R : Runtime) config wabaId_ net e log',
       WABAService.get (WABAService.new config) wabaId_
         (Some ["business_verification_status"]) net [] = (inl e, log') ->
       fst (run (WABAService.isVerified (WABAService.new config) wabaId_) net)
       = inr false)
  /\
  ~ (forall (R : Runtime) config wabaId_ net e log',
       WABAService.get (WABAService.new config) wabaId_
         (Some ["account_review_status"]) net [] = (inl e, log') ->
       fst (run (WABAService.isApproved (WABAService.new config) wabaId_) net)
       = inr false).
Proof.
  split; intros Hclaim.
  - specialize (Hclaim sample_runtime sample_config "102290129340398" unreachable
                  TypeError _ eq_refl).
    vm_compute in Hclaim. discriminate.
  - specialize (Hclaim sample_runtime sample_config "102290129340398" unreachable
                  TypeError _ eq_refl).
    vm_compute in Hclaim. discriminate.
Qed.

(** [isSubscribed] returns a boolean whatever happens, and false whenever
    its lookup throws. *)
Lemma isSubscribed_total `{Runtime} self wabaId_ net log :
  exists b log',
    WebhooksService.isSubscribed self wabaId_ net log = (inr b, log') /\
    forall e l,
      WebhooksService.getSubscriptions self wabaId_ net log = (inl e, l) ->
      b = false.
Proof.
  unfold WebhooksService.isSubscribed, try_catch, bind.
  destruct (WebhooksService.getSubscriptions self wabaId_ net log)
    as [[e|subscriptions] l].
  - exists false, l. split; [reflexivity|]. reflexivity.
  - destruct (prop subscriptions "data");
      try (exists false, l; split; [reflexivity|]; intros; discriminate).
    exists (0 <? length items)%nat, l. split; [reflexivity|]. intros; discriminate.
Qed.

Lemma request_then_parse_log `{Runtime} config path options s net log :
  snd ((let* response := BaseService.request config path options in
        zparse s response) net log)
  = (log ++ [BaseService.fetch_call config path options])%list.
Proof.
  unfold bind. rewrite request_run.
  destruct (net _) as [response|]; [|reflexivity].
  destruct (json response); [|reflexivity].
  destruct (ok response); [|now destruct (parse ApiErrorSchema _)].
  unfold zparse. now destruct (parse s _).
Qed.

(** Except for [isSubscribed], an operation returns a value only when
    nothing it awaited or checked failed: its local checks passed, the
    schema accepted its input, its one call was answered with a success
    status and a JSON payload, and the schema of the operation, or of the
    lookup it computes its result from, accepted that payload.  The
    operations that parse with neither return the payload itself. *)
Lemma perform_returns_only_on_success `{Runtime} config op net log v log' :
  (forall wabaId_, op <> Webhooks_isSubscribed wabaId_) ->
  perform config op net log = (inr v, log') ->
  local_checks config op = true /\
  (forall schema input,
     validated_input op = Some (schema, input) -> is_Some (parse schema input)) /\
  exists call response data,
    log' = (log ++ [call])%list /\
    net call = Answered response /\
    ok response = true /\
    json response = Some data /\
    (forall schema, response_schema op = Some schema -> parse schema data = Some v) /\
    (forall schema, lookup_schema op = Some schema -> is_Some (parse schema data)) /\
    (response_schema op = None -> lookup_schema op = None -> v = data).
Proof.
  intros Hop.
  destruct op; try (exfalso; eapply Hop; reflexivity);
    cbn [perform response_schema lookup_schema validated_input local_checks];
    operation_cases; intros Hr; try discriminate;
    injection Hr as <- <-;
    (split; [first [reflexivity | apply negb_false_iff; assumption]|]);
    (split; [intros schema input Hin; try discriminate;
             injection Hin as <- <-; eexists; eassumption|]);
    do 3 eexists; (split; [reflexivity|]);
    (split; [eassumption|]); (split; [eassumption|]); (split; [eassumption|]);
    (split; [intros schema Hs; try discriminate; injection Hs as <-; assumption|]);
    (split; [intros schema Hs; try discriminate; injection Hs as <-;
             eexists; eassumption|]);
    intros Hnone Hnone'; try discriminate; reflexivity.
Qed.

(** An operation that hands the payload of [request] to a schema returns
    only what the schema made of a payload that came with a success
    status. *)
Lemma request_then_parse_returns `{Runtime} config path options s net log v log' :
  (let* response := BaseService.request config path options in
   zparse s response) net log = (inr v, log') ->
  exists response data,
    log' = (log ++ [BaseService.fetch_call config path options])%list /\
    net (BaseService.fetch_call config path options) = Answered response /\
    ok response = true /\
    json response = Some data /\
    parse s data = Some v.
Proof.
  unfold bind. intros Hrun.
  destruct (BaseService.request config path options net log) as [[e|data] l] eqn:Hr;
    [discriminate|].
  apply request_inr in Hr as (response & Hnet & Hok & Hjson & ->).
  unfold zparse in Hrun. destruct (parse s data) as [out|] eqn:Hp; [|discriminate].
  injection Hrun as <- <-. eauto 10.
Qed.

(** The other status checks pass on what their lookup throws. *)
Lemma lookups_propagate {A B} (lookup : Async A) (k : A -> Async B) net log e log' :
  lookup net log = (inl e, log') ->
  (let* found := lookup in k found) net log = (inl e, log').
Proof. intros Hl. now apply bind_inl. Qed.

(** C9, amended: [isSubscribed] never throws and answers false whenever
    its lookup fails, for whatever reason.  The other boolean checks
    ([isVerified], [isApproved], [isDisplayNameApproved]) raise the failure
    of their lookup unchanged, and so do the other operations that compute
    their result from a lookup ([getFirst], [getQualityRating],
    [getThroughputLevel], and [get] of the media service).
    [isSubscribed] is the only operation that swallows a failure.  Any
    other operation of the catalogue returns a value only when its local
    checks passed, the schema accepted its input, its one call was
    answered with a success status and a JSON payload, and the schema it
    parses with, directly or in its lookup, accepted the payload; without
    a schema it returns the payload.  A media operation returns a value
    only when each of its calls was answered with a success status and,
    where it parses, a JSON payload the schema accepted. *)
Theorem only_isSubscribed_swallows_failures `{Runtime} `{Wire} config net log :
  (forall wabaId_,
     exists b log',
       WebhooksService.isSubscribed (WebhooksService.new config) wabaId_ net log
       = (inr b, log') /\
       forall e l,
         WebhooksService.getSubscriptions (WebhooksService.new config) wabaId_ net log
         = (inl e, l) ->
         b = false) /\
  (forall wabaId_ e log',
     WABAService.get (WABAService.new config) wabaId_
       (Some ["business_verification_status"]) net log = (inl e, log') ->
     WABAService.isVerified (WABAService.new config) wabaId_ net log = (inl e, log')) /\
  (forall wabaId_ e log',
     WABAService.get (WABAService.new config) wabaId_
       (Some ["account_review_status"]) net log = (inl e, log') ->
     WABAService.isApproved (WABAService.new config) wabaId_ net log = (inl e, log')) /\
  (forall phoneNumberId_ e log',
     PhoneNumbersService.get (PhoneNumbersService.new config) phoneNumberId_
       (Some ["code_verification_status"]) net log = (inl e, log') ->
     PhoneNumbersService.isVerified (PhoneNumbersService.new config) phoneNumberId_
       net log = (inl e, log')) /\
  (forall phoneNumberId_ e log',
     PhoneNumbersService.getDisplayNameStatus (PhoneNumbersService.new config)
       phoneNumberId_ net log = (inl e, log') ->
     PhoneNumbersService.isDisplayNameApproved (PhoneNumbersService.new config)
       phoneNumberId_ net log = (inl e, log')) /\
  (forall e log',
     WABAService.getOwned (WABAService.new config) (VObject [("limit", VInt 1)])
       net log = (inl e, log') ->
     WABAService.getFirst (WABAService.new config) net log = (inl e, log')) /\
  (forall phoneNumberId_ e log',
     PhoneNumbersService.get (PhoneNumbersService.new config) phoneNumberId_
       (Some ["quality_rating"]) net log = (inl e, log') ->
     PhoneNumbersService.getQualityRating (PhoneNumbersService.new config)
       phoneNumberId_ net log = (inl e, log')) /\
  (forall phoneNumberId_ e log',
     PhoneNumbersService.get (PhoneNumbersService.new config) phoneNumberId_
       (Some ["throughput"]) net log = (inl e, log') ->
     PhoneNumbersService.getThroughputLevel (PhoneNumbersService.new config)
       phoneNumberId_ net log = (inl e, log')) /\
  (forall mediaId e log',
     MediaService.getUrl config mediaId net log = (inl e, log') ->
     MediaService.get config mediaId net log = (inl e, log')) /\
  (forall op v log',
     (forall wabaId_, op <> Webhooks_isSubscribed wabaId_) ->
     perform config op net log = (inr v, log') ->
     local_checks config op = true /\
     (forall schema input,
        validated_input op = Some (schema, input) -> is_Some (parse schema input)) /\
     exists call response data,
       log' = (log ++ [call])%list /\
       net call = Answered response /\
       ok response = true /\
       json response = Some data /\
       (forall schema, response_schema op = Some schema -> parse schema data = Some v) /\
       (forall schema, lookup_schema op = Some schema -> is_Some (parse schema data)) /\
       (response_schema op = None -> lookup_schema op = None -> v = data)) /\
  (forall file type filename v log',
     MediaService.upload config file type filename net log = (inr v, log') ->
     exists call response data,
       log' = (log ++ [call])%list /\
       net call = Answered response /\
       ok response = true /\
       json response = Some data /\
       parse MediaService.MediaUploadResponseSchema data = Some v) /\
  (forall mediaId v log',
     MediaService.getUrl config mediaId net log = (inr v, log') ->
     exists call response data,
       log' = (log ++ [call])%list /\
       net call = Answered response /\
       ok response = true /\
       json response = Some data /\
       parse MediaService.MediaUrlResponseSchema data = Some v) /\
  (forall mediaId v log',
     MediaService.delete config mediaId net log = (inr v, log') ->
     exists call response data,
       log' = (log ++ [call])%list /\
       net call = Answered response /\
       ok response = true /\
       json response = Some data /\
       parse MediaService.MediaDeleteResponseSchema data = Some v) /\
  (forall url content log',
     MediaService.download config url net log = (inr content, log') ->
     exists response,
       log' = (log ++ [MediaService.download_call config url])%list /\
       net (MediaService.download_call config url) = Answered response /\
       ok response = true) /\
  (forall mediaId metadata content log',
     MediaService.get config mediaId net log = (inr (metadata, content), log') ->
     exists log1,
       MediaService.getUrl config mediaId net log = (inr metadata, log1) /\
       MediaService.download config (template (prop metadata "url")) net log1
       = (inr content, log')) /\
  (forall url type filename v log',
     MediaService.uploadFromUrl config url type filename net log = (inr v, log') ->
     exists response,
       net (MediaService.source_call url) = Answered response /\
       ok response = true /\
       MediaService.upload config
         (MediaService.ABlob (served (MediaService.source_call url))
            (served_type (MediaService.source_call url)))
         type filename net (log ++ [MediaService.source_call url])%list
       = (inr v, log')).
Proof.
  repeat apply conj.
  - intros wabaId_. apply isSubscribed_total.
  - intros wabaId_ e log' Hget. unfold WABAService.isVerified.
    now apply lookups_propagate.
  - intros wabaId_ e log' Hget. unfold WABAService.isApproved.
    now apply lookups_propagate.
  - intros phoneNumberId_ e log' Hget. unfold PhoneNumbersService.isVerified.
    now apply lookups_propagate.
  - intros phoneNumberId_ e log' Hget.
    unfold PhoneNumbersService.isDisplayNameApproved.
    now apply lookups_propagate.
  - intros e log' Hget. unfold WABAService.getFirst.
    now apply lookups_propagate.
  - intros phoneNumberId_ e log' Hget. unfold PhoneNumbersService.getQualityRating.
    now apply lookups_propagate.
  - intros phoneNumberId_ e log' Hget. unfold PhoneNumbersService.getThroughputLevel.
    now apply lookups_propagate.
  - intros mediaId e log' Hget. unfold MediaService.get.
    now apply lookups_propagate.
  - intros op v log' Hop Hrun.
    exact (perform_returns_only_on_success config op net log v log' Hop Hrun).
  - intros file type filename v log' Hrun. unfold MediaService.upload in Hrun.
    cbv zeta in Hrun.
    apply request_then_parse_returns in Hrun as (response & data & -> & Hrest).
    eauto 10.
  - intros mediaId v log' Hrun. unfold MediaService.getUrl in Hrun.
    apply request_then_parse_returns in Hrun as (response & data & -> & Hrest).
    eauto 10.
  - intros mediaId v log' Hrun. unfold MediaService.delete in Hrun.
    apply request_then_parse_returns in Hrun as (response & data & -> & Hrest).
    eauto 10.
  - intros url content log'. unfold MediaService.download, bind, fetch.
    destruct (net (MediaService.download_call config url)) as [response|] eqn:Hnet;
      [|discriminate].
    destruct (ok response) eqn:Hok; cbn [negb]; [|discriminate].
    intros [= <- <-]. eauto.
  - intros mediaId metadata content log'. unfold MediaService.get, bind.
    destruct (MediaService.getUrl config mediaId net log) as [[e|found] log1];
      [discriminate|].
    destruct (MediaService.download config (template (prop found "url")) net log1)
      as [[e|bytes] log2] eqn:Hdownload; [discriminate|].
    unfold ret. intros [= <- <- <-]. eauto.
  - intros url type filename v log'. unfold MediaService.uploadFromUrl, bind, fetch.
    destruct (net (MediaService.source_call url)) as [response|] eqn:Hnet;
      [|discriminate].
    destruct (ok response) eqn:Hok; cbn [negb]; [|discriminate].
    intros Hupload. eauto.
Qed.

(** * The callback URL alias *)

(** The subscribe options schema on the two shapes of the options
    object, with the token left undefined and with the token left out. *)
Lemma SubscribeOptions_without_token `{Runtime} callbackUrl :
  parse WebhooksService.SubscribeOptionsSchema
    (VObject [("override_callback_uri", VString callbackUrl);
              ("verify_token", VUndefined)])
  = (if is_url callbackUrl
     then Some (VObject [("override_callback_uri", VString callbackUrl);
                         ("verify_token", VUndefined)])
     else None) /\
  parse WebhooksService.SubscribeOptionsSchema
    (VObject [("override_callback_uri", VString callbackUrl)])
  = (if is_url callbackUrl
     then Some (VObject [("override_callback_uri", VString callbackUrl)])
     else None).
Proof.
  split; cbv -[is_url]; destruct (is_url callbackUrl); reflexivity.
Qed.

(** C10: [updateCallbackUrl] is [subscribe] on the options object made of
    the callback URL and the optional verify token, whether an absent token
    is written as an undefined property or left out: for every network and
    log, the same calls are made and the same value is returned or the
    same failure raised. *)
Theorem updateCallbackUrl_is_subscribe `{Runtime} self wabaId_ callbackUrl
    verifyToken net log :
  WebhooksService.updateCallbackUrl self wabaId_ callbackUrl verifyToken net log
  = WebhooksService.subscribe self wabaId_
      (VObject [("override_callback_uri", VString callbackUrl);
                ("verify_token", opt_string verifyToken)]) net log /\
  WebhooksService.updateCallbackUrl self wabaId_ callbackUrl verifyToken net log
  = updateCallbackUrl_spec self wabaId_ callbackUrl verifyToken net log.
Proof.
  split; [reflexivity|].
  destruct verifyToken as [token|]; [reflexivity|].
  unfold updateCallbackUrl_spec, WebhooksService.updateCallbackUrl,
    WebhooksService.subscribe, callback_options, opt_string.
  cbn [truthy]. unfold bind at 1 3. unfold zparse.
  destruct (SubscribeOptions_without_token callbackUrl) as [-> ->].
  destruct (is_url callbackUrl); reflexivity.
Qed.

(** * Further properties: configuration and transport *)

Section MoreSchemas.
Context `{Runtime}.

Lemma parse_ZArray item max_items v :
  parse (ZArray item max_items) v =
  match v with
  | VArray items =>
      match parse_items (parse item) items with
      | Some out =>
          if match max_items with
             | Some n => (length items <=? n)%nat
             | None => true
             end
          then Some (VArray out) else None
      | None => None
      end
  | _ => None
  end.
Proof. reflexivity. Qed.

Lemma parse_ZNumber checks v :
  parse (ZNumber checks) v =
  match v with
  | VNumber q => if forallb (number_check q) checks then Some v else None
  | _ => None
  end.
Proof. reflexivity. Qed.

(** An array schema keeps the number of items, and every item passes the
    item schema. *)
Lemma parse_items_length p : forall l out,
  parse_items p l = Some out -> length out = length l.
Proof.
  induction l as [|x l IH]; intros out Hp; cbn in Hp.
  - now injection Hp as <-.
  - destruct (p x); [|discriminate].
    destruct (parse_items p l) as [out'|]; [|discriminate].
    injection Hp as <-. cbn. f_equal. now apply IH.
Qed.

Lemma parse_items_all p : forall l out,
  parse_items p l = Some out -> List.Forall (fun x => is_Some (p x)) l.
Proof.
  induction l as [|x l IH]; intros out Hp; cbn in Hp; constructor.
  - destruct (p x); [eauto|discriminate].
  - destruct (p x); [|discriminate].
    destruct (parse_items p l) as [out'|]; [|discriminate]. eapply IH; eauto.
Qed.

Lemma parse_items_some p : forall l,
  List.Forall (fun x => is_Some (p x)) l -> is_Some (parse_items p l).
Proof.
  induction 1 as [|x l [y Hy] _ [out Hout]]; cbn; [eauto|].
  rewrite Hy, Hout. eauto.
Qed.

Lemma parse_array_inv item v out :
  parse (ZArray item None) v = Some out ->
  exists items parsed,
    v = VArray items /\ out = VArray parsed /\
    parse_items (parse item) items = Some parsed.
Proof.
  rewrite parse_ZArray. destruct v; try discriminate.
  destruct (parse_items _ _) as [parsed|] eqn:Hp; [|discriminate].
  intros [= <-]. eauto.
Qed.

(** An object schema accepts exactly the objects each of whose shape keys
    parses. *)
Lemma parse_shape_some p props shape :
  is_Some (parse_shape p props shape) <->
  List.Forall (fun ks => is_Some (p (snd ks) (prop (VObject props) (fst ks)))) shape.
Proof.
  induction shape as [|[k s] rest IH]; cbn [parse_shape].
  - split; [constructor|eauto].
  - split.
    + intros [out Hout].
      destruct (p s _) as [r|] eqn:Hr; [|discriminate].
      destruct (parse_shape p props rest) as [out'|]; [|discriminate].
      constructor; [cbn [fst snd]; rewrite Hr; eauto|]. apply IH. eauto.
    + intros Hall. apply List.Forall_cons_iff in Hall as [[r Hr] Hrest].
      cbn [fst snd] in Hr. rewrite Hr. apply IH in Hrest as [out' ->].
      destruct (has_prop props k || negb (is_undefined r)); eauto.
Qed.

Lemma parse_object_some shape v :
  is_Some (parse (ZObject shape) v) <->
  exists props,
    v = VObject props /\
    List.Forall (fun ks => is_Some (parse (snd ks) (prop v (fst ks)))) shape.
Proof.
  rewrite parse_ZObject. split.
  - intros [out Hout]. destruct v; try discriminate.
    exists props. split; [reflexivity|]. apply parse_shape_some.
    destruct (parse_shape parse props shape); [eauto|discriminate].
  - intros (props & -> & Hall). apply parse_shape_some in Hall as [out ->].
    cbn. eauto.
Qed.

Lemma parse_string_inv checks v r :
  parse (ZString checks) v = Some r ->
  exists str, v = VString str /\ forallb (string_check str) checks = true.
Proof.
  rewrite parse_ZString. destruct v; try discriminate.
  destruct (forallb _ _) eqn:Hc; [|discriminate]. eauto.
Qed.

End MoreSchemas.

Lemma nonempty_length (s : string) : (1 <=? String.length s)%nat = true <-> s <> EmptyString.
Proof.
  destruct s; cbn; split; try congruence; try discriminate; reflexivity.
Qed.

(** X1: a configuration object that the configuration schema accepts
    has a non-empty string as access token and as phone number id. *)
Theorem config_schema_requires_credentials `{Runtime} v out :
  parse WhatsAppConfigSchema v = Some out ->
  (exists token, prop v "accessToken" = VString token /\ token <> EmptyString) /\
  (exists id, prop v "phoneNumberId" = VString id /\ id <> EmptyString).
Proof.
  intros Hp. unfold WhatsAppConfigSchema in Hp.
  match type of Hp with
  | parse (ZObject ?sh) _ = _ =>
      destruct (parse_object_key sh v out "accessToken" _ ltac:(nodup_keys) Hp eq_refl)
        as (r1 & Hr1 & _);
      destruct (parse_object_key sh v out "phoneNumberId" _ ltac:(nodup_keys) Hp eq_refl)
        as (r2 & Hr2 & _)
  end.
  apply parse_string_inv in Hr1 as (token & Ht & Hc1).
  apply parse_string_inv in Hr2 as (id & Hi & Hc2).
  cbn in Hc1, Hc2. rewrite andb_true_r in Hc1, Hc2.
  split; [exists token|exists id]; split; try assumption; now apply nonempty_length.
Qed.

Lemma config_schema_requires_credentials_witness :
  @parse sample_runtime WhatsAppConfigSchema minimal_config
  = Some (VObject [("accessToken", VString "token");
                   ("phoneNumberId", VString "1234567890");
                   ("version", VString "v21.0");
                   ("baseUrl", VString "https://graph.facebook.com")]) /\
  (exists token,
     prop minimal_config "accessToken" = VString token /\ token <> EmptyString).
Proof.
  split; [reflexivity|].
  exact (proj1 (@config_schema_requires_credentials sample_runtime minimal_config
                  (VObject [("accessToken", VString "token");
                            ("phoneNumberId", VString "1234567890");
                            ("version", VString "v21.0");
                            ("baseUrl", VString "https://graph.facebook.com")])
                  eq_refl)).
Defined.

(** X2: in an accepted configuration the API version and the base origin
    are the caller's when given and the defaults v21.0 and
    https://graph.facebook.com when omitted; the credential and the phone
    number id are kept as given. *)
Theorem config_schema_defaults `{Runtime} v out :
  parse WhatsAppConfigSchema v = Some out ->
  prop out "version"
  = match prop v "version" with
    | VUndefined => VString "v21.0"
    | given => given
    end /\
  prop out "baseUrl"
  = match prop v "baseUrl" with
    | VUndefined => VString "https://graph.facebook.com"
    | given => given
    end /\
  prop out "accessToken" = prop v "accessToken" /\
  prop out "phoneNumberId" = prop v "phoneNumberId".
Proof.
  intros Hp. unfold WhatsAppConfigSchema in Hp.
  match type of Hp with
  | parse (ZObject ?sh) _ = _ =>
      destruct (parse_object_key sh v out "version" _ ltac:(nodup_keys) Hp eq_refl)
        as (r1 & Hr1 & ->);
      destruct (parse_object_key sh v out "baseUrl" _ ltac:(nodup_keys) Hp eq_refl)
        as (r2 & Hr2 & ->);
      destruct (parse_object_key sh v out "accessToken" _ ltac:(nodup_keys) Hp eq_refl)
        as (r3 & Hr3 & ->);
      destruct (parse_object_key sh v out "phoneNumberId" _ ltac:(nodup_keys) Hp eq_refl)
        as (r4 & Hr4 & ->)
  end.
  apply parse_leaf in Hr3; [|reflexivity]. apply parse_leaf in Hr4; [|reflexivity].
  repeat split; try assumption.
  - change (parse (ZDefault (ZString []) (VString "v21.0")) (prop v "version"))
      with (match prop v "version" with
            | VUndefined => parse (ZString []) (VString "v21.0")
            | _ => parse (ZString []) (prop v "version")
            end) in Hr1.
    destruct (prop v "version").
    all: apply parse_leaf in Hr1; [assumption|reflexivity].
  - change (parse (ZDefault (ZString [Url]) (VString "https://graph.facebook.com"))
              (prop v "baseUrl"))
      with (match prop v "baseUrl" with
            | VUndefined => parse (ZString [Url]) (VString "https://graph.facebook.com")
            | _ => parse (ZString [Url]) (prop v "baseUrl")
            end) in Hr2.
    destruct (prop v "baseUrl").
    all: apply parse_leaf in Hr2; [assumption|reflexivity].
Qed.

Lemma config_schema_defaults_witness :
  @parse sample_runtime WhatsAppConfigSchema minimal_config
  = Some (VObject [("accessToken", VString "token");
                   ("phoneNumberId", VString "1234567890");
                   ("version", VString "v21.0");
                   ("baseUrl", VString "https://graph.facebook.com")]) /\
  prop (VObject [("accessToken", VString "token");
                 ("phoneNumberId", VString "1234567890");
                 ("version", VString "v21.0");
                 ("baseUrl", VString "https://graph.facebook.com")]) "version"
  = VString "v21.0".
Proof.
  split; [reflexivity|].
  exact (proj1 (@config_schema_defaults sample_runtime minimal_config
                  (VObject [("accessToken", VString "token");
                            ("phoneNumberId", VString "1234567890");
                            ("version", VString "v21.0");
                            ("baseUrl", VString "https://graph.facebook.com")])
                  eq_refl)).
Defined.

(** X3: [request] makes exactly one call whatever happens, and it returns
    a value exactly when the network answered that call with a success
    status and a JSON payload; the value is that payload, unchanged. *)
Theorem request_returns_iff `{Runtime} config path options net log v log' :
  (exists outcome,
     BaseService.request config path options net log
     = (outcome, (log ++ [BaseService.fetch_call config path options])%list)) /\
  (BaseService.request config path options net log = (inr v, log') <->
   (exists response,
      net (BaseService.fetch_call config path options) = Answered response /\
      ok response = true /\ json response = Some v) /\
   log' = (log ++ [BaseService.fetch_call config path options])%list).
Proof.
  rewrite request_run. split; [eauto|]. split.
  - intros Hr. destruct (net _) as [response|]; [|discriminate].
    destruct (json response) as [data|] eqn:Hjson; [|discriminate].
    destruct (ok response) eqn:Hok;
      [|destruct (parse ApiErrorSchema data); discriminate].
    injection Hr as -> <-. split; [exists response; auto|reflexivity].
  - intros [(response & -> & Hok & Hjson) ->]. now rewrite Hjson, Hok.
Qed.

(** * Further properties: all operations *)

Lemma log_not_extended {A} (log : list A) (x : A) : log <> (log ++ [x])%list.
Proof.
  intros Heq. apply (f_equal (@length A)) in Heq.
  rewrite length_app in Heq. cbn in Heq. lia.
Qed.

Lemma log_extended_inj {A} (log : list A) (x y : A) :
  (log ++ [x])%list = (log ++ [y])%list -> x = y.
Proof. intros Heq. apply app_inv_head in Heq. congruence. Qed.

(** X4: no operation retries or fans out: each makes no call at all or
    exactly one, and never touches the calls logged before it. *)
Theorem operations_make_at_most_one_call `{Runtime} config op net log :
  snd (perform config op net log) = log \/
  exists call, snd (perform config op net log) = (log ++ [call])%list.
Proof.
  destruct op; cbn [perform]; operation_cases;
    solve [left; reflexivity | right; eexists; reflexivity].
Qed.

(** X5: the services that call [fetch] themselves never raise the typed
    API error, whatever the network answers. *)
Theorem account_level_never_raises_api_error `{Runtime} config op net log
    code message type subcode fbtraceId :
  account_level op = true ->
  fst (perform config op net log)
  <> inl (WhatsAppApiError code message type subcode fbtraceId).
Proof.
  intros Hop.
  destruct op; try discriminate Hop; cbn [perform]; operation_cases; discriminate.
Qed.

(** The envelope of the specification's example, sent in answer to an
    account lookup, surfaces as a plain error with the envelope's
    message. *)
Lemma account_level_never_raises_api_error_witness :
  account_level (WABA_get "102290129340398" None) = true /\
  fst (@perform sample_runtime sample_config (WABA_get "102290129340398" None)
         (always bad_request) [])
  = inl (Error "Failed to get WABA: Invalid parameter") /\
  fst (@perform sample_runtime sample_config (WABA_get "102290129340398" None)
         (always bad_request) [])
  <> inl (WhatsAppApiError (VInt 100) (VString "Invalid parameter")
            (VString "OAuthException") VUndefined (VString "abc123")).
Proof.
  split; [reflexivity|]. split; [reflexivity|].
  exact (@account_level_never_raises_api_error sample_runtime sample_config
           (WABA_get "102290129340398" None) (always bad_request) []
           _ _ _ _ _ eq_refl).
Defined.



(** X7: a read operation makes its call with the method GET, without a
    body, and with the bearer credential as its only header. *)
Theorem reads_send_bare_get `{Runtime} config op net log call :
  reads op = true ->
  snd (perform config op net log) = (log ++ [call])%list ->
  req_method call = GET /\
  req_body call = None /\
  req_headers call = bearer config.
Proof.
  intros Hop.
  destruct op; try discriminate Hop; cbn [perform]; operation_cases;
    intros Hlog;
    try (exfalso; exact (log_not_extended _ _ Hlog));
    apply log_extended_inj in Hlog; subst call;
    repeat split;
    unfold BaseService.fetch_call, BaseService.request_headers, with_method, bearer;
    cbn [req_headers headers body body_truthy is_FormData andb];
    apply (left_id_L ∅ (∪)).
Qed.

Lemma reads_send_bare_get_witness :
  reads QRCodes_list = true /\
  snd (@perform sample_runtime sample_config QRCodes_list unreachable [])
  = ([] ++ [BaseService.fetch_call sample_config "1234567890/message_qrdls"
              (with_method GET)])%list /\
  req_headers (BaseService.fetch_call sample_config "1234567890/message_qrdls"
                 (with_method GET))
  = bearer sample_config.
Proof.
  split; [reflexivity|]. split; [reflexivity|].
  exact (proj2 (proj2 (@reads_send_bare_get sample_runtime sample_config QRCodes_list
                         unreachable [] _ eq_refl eq_refl))).
Defined.

(** * Further properties: media *)

(** The [Blob] constructor lower-cases a printable type and drops any
    other. *)
Lemma Blob_type_examples :
  Blob_type "Image/PNG" = "image/png" /\
  Blob_type (String (ascii_of_nat 9) "image/png") = EmptyString.
Proof. split; reflexivity. Qed.

(** X8: [upload] makes one POST to the media edge of the phone number.
    Its body is a form of exactly three fields in the order
    messaging_product, type, file.  The type field is the MIME type as
    given.  The file part has the bytes of the source; its name is the
    caller's filename when that is a non-empty string, and otherwise the
    file's own name, or [file] for a blob or a buffer; its type is the
    source's own for a file or a blob, and for a buffer the type the
    [Blob] constructor makes of the given MIME type: lower-cased, or empty
    when it has a character outside U+0020..U+007E.  The only header is
    the bearer credential: no JSON content type is set on a form. *)
Theorem upload_sends_multipart_form `{Runtime} config file type filename net log :
  exists call blob_type name,
    snd (MediaService.upload config file type filename net log)
    = (log ++ [call])%list /\
    req_method call = POST /\
    req_url call
    = baseUrl config +:+ "/" +:+ version config +:+ "/"
      +:+ (phoneNumberId config +:+ "/media") /\
    req_headers call = bearer config /\
    req_body call
    = Some (BodyFormData [("messaging_product", FormText "whatsapp");
                          ("type", FormText type);
                          ("file", FormBlob (content_of file) blob_type name)]) /\
    (forall c rest, filename = Some (String c rest) -> name = String c rest) /\
    (filename = None \/ filename = Some EmptyString ->
     name = match file with
            | MediaService.AFile _ _ own_name => own_name
            | _ => "file"
            end) /\
    match file with
    | MediaService.ABuffer _ => blob_type = Blob_type type
    | MediaService.AFile _ own _ | MediaService.ABlob _ own => blob_type = own
    end.
Proof.
  unfold MediaService.upload, bind. rewrite request_run.
  destruct file as [content own name|content own|content];
    eexists _, _, _;
    (split; [async_cases; reflexivity|]);
    repeat split;
    try (unfold BaseService.fetch_call, BaseService.request_headers, bearer;
         cbn [req_headers headers body body_truthy is_FormData andb negb];
         apply (left_id_L ∅ (∪)));
    try (intros c rest ->; reflexivity);
    intros [->| ->]; reflexivity.
Qed.

(** X9: [get] first resolves the media id with [getUrl].  When that
    fails, [get] fails in the same way, with that one call made, and
    downloads nothing.  When it succeeds, the metadata carries a [url]
    that the schema checked for URL format, and [get] makes a second and
    last call, the download: a GET of that URL carrying the bearer
    credential.  [get] then returns the metadata with the bytes served
    when the download is answered with a success status, and fails
    otherwise. *)
Theorem media_get_downloads_resolved_url `{Runtime} `{Wire} config mediaId net log :
  match MediaService.getUrl config mediaId net log with
  | (inl e, log1) =>
      log1 = (log ++ [BaseService.fetch_call config mediaId (with_method GET)])%list /\
      MediaService.get config mediaId net log = (inl e, log1)
  | (inr metadata, log1) =>
      log1 = (log ++ [BaseService.fetch_call config mediaId (with_method GET)])%list /\
      exists u,
        prop metadata "url" = VString u /\
        is_url u = true /\
        req_url (MediaService.download_call config u) = u /\
        req_method (MediaService.download_call config u) = GET /\
        req_headers (MediaService.download_call config u) = bearer config /\
        MediaService.get config mediaId net log
        = (match net (MediaService.download_call config u) with
           | Answered response =>
               if ok response
               then inr (metadata, served (MediaService.download_call config u))
               else inl (Error ("Failed to download media: " +:+ statusText response))
           | NetworkFailure => inl TypeError
           end,
           (log ++ [BaseService.fetch_call config mediaId (with_method GET);
                    MediaService.download_call config u])%list)
  end.
Proof.
  assert (Hget :
    MediaService.get config mediaId net log
    = match MediaService.getUrl config mediaId net log with
      | (inl e, log1) => (inl e, log1)
      | (inr metadata, log1) =>
          match MediaService.download config (template (prop metadata "url"))
                  net log1 with
          | (inl e, log2) => (inl e, log2)
          | (inr content, log2) => (inr (metadata, content), log2)
          end
      end).
  { unfold MediaService.get, bind, ret.
    destruct (MediaService.getUrl config mediaId net log) as [[e|metadata] log1];
      [reflexivity|].
    now destruct (MediaService.download config _ net log1) as [[e|content] log2]. }
  rewrite Hget. clear Hget.
  destruct (MediaService.getUrl config mediaId net log) as [[e|metadata] log1] eqn:Hurl.
  - split; [|reflexivity].
    apply (f_equal snd) in Hurl. unfold MediaService.getUrl in Hurl.
    now rewrite request_then_parse_log in Hurl.
  - unfold MediaService.getUrl in Hurl.
    apply request_then_parse_returns in Hurl as (response & data & -> & _ & _ & _ & Hp).
    split; [reflexivity|].
    unfold MediaService.MediaUrlResponseSchema in Hp.
    match type of Hp with
    | parse (ZObject ?sh) _ = _ =>
        destruct (parse_object_key sh data metadata "url" _ ltac:(nodup_keys) Hp eq_refl)
          as (r & Hr & Hmeta)
    end.
    pose proof (parse_leaf (ZString [Url]) eq_refl _ _ Hr) as ->.
    apply parse_string_inv in Hr as (u & Hu & Hformat).
    cbn in Hformat. rewrite andb_true_r in Hformat.
    exists u. rewrite Hmeta, Hu.
    do 5 (split; [assumption || reflexivity|]).
    cbn [template]. unfold MediaService.download, bind, fetch, ret, throw.
    destruct (net (MediaService.download_call config u)) as [second|];
      [destruct (ok second)|]; cbn [negb]; rewrite <- app_assoc; reflexivity.
Qed.

(** X10: [uploadFromUrl] first fetches the source URL as given, with no
    header at all, so the credential is not sent there.  Unless the source
    answers with a success status that is its only call.  Otherwise it
    uploads what the source served, as a blob named by the caller's
    filename or [file], in a second call that does carry the credential. *)
Theorem uploadFromUrl_keeps_credential_from_source `{Runtime} `{Wire} config
    url type filename net log :
  req_url (MediaService.source_call url) = url /\
  req_headers (MediaService.source_call url) = ∅ /\
  ((exists e,
      MediaService.uploadFromUrl config url type filename net log
      = (inl e, (log ++ [MediaService.source_call url])%list) /\
      forall response,
        net (MediaService.source_call url) = Answered response -> ok response = false)
   \/
   (exists response outcome call,
      net (MediaService.source_call url) = Answered response /\
      ok response = true /\
      MediaService.uploadFromUrl config url type filename net log
      = (outcome, (log ++ [MediaService.source_call url; call])%list) /\
      req_headers call = bearer config /\
      req_body call
      = Some (BodyFormData
                [("messaging_product", FormText "whatsapp");
                 ("type", FormText type);
                 ("file", FormBlob (served (MediaService.source_call url))
                            (served_type (MediaService.source_call url))
                            (string_or filename "file"))]))).
Proof.
  split; [reflexivity|]. split; [reflexivity|].
  destruct (MediaService.uploadFromUrl config url type filename net log)
    as [outcome log'] eqn:Hup.
  unfold MediaService.uploadFromUrl, bind, fetch in Hup.
  destruct (net (MediaService.source_call url)) as [response|] eqn:Hnet.
  - destruct (ok response) eqn:Hok; cbn [negb] in Hup.
    + right. exists response, outcome.
      unfold MediaService.upload, bind in Hup. rewrite request_run in Hup.
      rewrite <- app_assoc in Hup. cbn [app] in Hup.
      assert (Hlog : log' =
                (log ++ [MediaService.source_call url;
                         BaseService.fetch_call config
                           (phoneNumberId config +:+ "/media")
                           {| method := Some POST; headers := ∅;
                              body := Some (BodyFormData
                                [("messaging_product", FormText "whatsapp");
                                 ("type", FormText type);
                                 MediaService.file_entry
                                   (MediaService.ABlob
                                      (served (MediaService.source_call url))
                                      (served_type (MediaService.source_call url)))
                                   type filename]) |}])%list).
      { revert Hup. async_cases; intros [= _ <-]; reflexivity. }
      subst log'. eexists. split; [reflexivity|]. split; [assumption|].
      split; [reflexivity|].
      split; [|reflexivity].
      unfold BaseService.fetch_call, BaseService.request_headers, bearer.
      cbn [req_headers headers body body_truthy is_FormData andb negb].
      apply (left_id_L ∅ (∪)).
    + left. injection Hup as <- <-. eexists. split; [reflexivity|].
      intros r [= <-]. exact Hok.
  - left. injection Hup as <- <-. eexists. split; [reflexivity|].
    intros r Hr. discriminate.
Qed.

(** * Further properties: business profile and registration *)

(** X11: a field list whose comma-joined text is empty (no field, or
    only an empty name) makes [getProfile] ask for its default fields, as
    if the argument were omitted; an empty list does the same for
    [getInfo]. *)
Theorem empty_field_lists_select_defaults `{Runtime} config fields :
  String.concat "," fields = EmptyString ->
  BusinessService.getProfile config (Some fields)
  = BusinessService.getProfile config None /\
  (fields = [] ->
   RegistrationService.getInfo config (Some fields)
   = RegistrationService.getInfo config None).
Proof.
  intros Hjoin. split.
  - unfold BusinessService.getProfile. rewrite Hjoin. reflexivity.
  - intros ->. reflexivity.
Qed.

Lemma empty_field_lists_select_defaults_witness :
  String.concat "," [EmptyString] = EmptyString /\
  @BusinessService.getProfile sample_runtime sample_config (Some [EmptyString])
  = @BusinessService.getProfile sample_runtime sample_config None.
Proof.
  split; [reflexivity|].
  exact (proj1 (@empty_field_lists_select_defaults sample_runtime sample_config
                  [EmptyString] eq_refl)).
Defined.

(** What [updateSettings] serializes for settings that are neither null
    nor undefined. *)
Lemma updateSettings_spread pin :
  spread [("messaging_product", VString "whatsapp")]
    (js_and pin (VObject [("pin", pin)]))
  = ("messaging_product", VString "whatsapp")
    :: (if truthy pin then [("pin", pin)] else []).
Proof.
  unfold js_and. destruct (truthy pin) eqn:Hpin; [reflexivity|].
  destruct pin; try reflexivity. discriminate Hpin.
Qed.

(** X12: on settings that are null or undefined [updateSettings] throws
    a TypeError and makes no call.  On any other settings it does what
    [request] does with one POST to the phone number, whose payload is
    messaging_product and, when it is truthy, the pin, as given and
    whatever its length; an empty or absent pin and every other property
    of the settings are left out. *)
Theorem updateSettings_payload `{Runtime} config settings net log :
  (settings = VUndefined \/ settings = VNull ->
   RegistrationService.updateSettings config settings net log = (inl TypeError, log)) /\
  (settings <> VUndefined -> settings <> VNull ->
   RegistrationService.updateSettings config settings net log
   = BaseService.request config (phoneNumberId config)
       (with_json POST
          (VObject (("messaging_product", VString "whatsapp")
                    :: if truthy (prop settings "pin")
                       then [("pin", prop settings "pin")]
                       else [])))
       net log /\
   snd (RegistrationService.updateSettings config settings net log)
   = (log ++ [BaseService.fetch_call config (phoneNumberId config)
                (with_json POST
                   (VObject (("messaging_product", VString "whatsapp")
                             :: if truthy (prop settings "pin")
                                then [("pin", prop settings "pin")]
                                else [])))])%list).
Proof.
  unfold RegistrationService.updateSettings. split.
  - intros [->| ->]; reflexivity.
  - intros Hundefined Hnull.
    assert (Hread : member settings "pin" net log = (inr (prop settings "pin"), log))
      by (destruct settings; try reflexivity; congruence).
    rewrite (bind_inr _ _ _ _ _ _ Hread), updateSettings_spread.
    assert (Hrun : forall m : Async Value,
              (let* response := m in ret response) net log = m net log).
    { intros m. unfold bind, ret. now destruct (m net log) as [[e|v] l]. }
    rewrite Hrun. split; [reflexivity|]. apply request_log.
Qed.

Lemma lookup_set_prop acc k v k' :
  lookup_prop (set_prop acc k v) k'
  = if String.eqb k k' then Some v else lookup_prop acc k'.
Proof.
  induction acc as [|[k0 v0] acc IH]; cbn.
  - reflexivity.
  - destruct (String.eqb k0 k) eqn:Hk0; cbn.
    + apply String.eqb_eq in Hk0. subst k0.
      destruct (String.eqb k k'); reflexivity.
    + destruct (String.eqb k0 k') eqn:Hk0'.
      * apply String.eqb_eq in Hk0'. subst k0. now rewrite String.eqb_sym, Hk0.
      * exact IH.
Qed.

Lemma lookup_prop_notin props k :
  ~ In k (map fst props) -> lookup_prop props k = None.
Proof.
  induction props as [|[k0 v0] props IH]; cbn; [reflexivity|].
  intros Hnot. destruct (String.eqb k0 k) eqn:Hk.
  - apply String.eqb_eq in Hk. tauto.
  - apply IH. tauto.
Qed.

(** Spreading an object over another: the spread properties win, the
    others stay. *)
Lemma spread_lookup props : forall acc k,
  List.NoDup (map fst props) ->
  lookup_prop (spread acc (VObject props)) k
  = match lookup_prop props k with
    | Some v => Some v
    | None => lookup_prop acc k
    end.
Proof.
  unfold spread.
  induction props as [|[k0 v0] props IH]; intros acc k Hnd; cbn; [reflexivity|].
  cbn [map fst] in Hnd. apply List.NoDup_cons_iff in Hnd as [Hnot Hnd].
  rewrite (IH _ _ Hnd), lookup_set_prop.
  destruct (String.eqb k0 k) eqn:Hk.
  - apply String.eqb_eq in Hk. subst k0.
    now rewrite (lookup_prop_notin _ _ Hnot).
  - reflexivity.
Qed.

(** X13: [updateProfile] sends every property of the caller's profile as
    given, without consulting the profile schema, and adds
    messaging_product: whatsapp unless the profile carries its own
    messaging_product, which then wins. *)
Theorem updateProfile_payload `{Runtime} config props net log :
  List.NoDup (map fst props) ->
  exists payload,
    snd (BusinessService.updateProfile config (VObject props) net log)
    = (log ++ [BaseService.fetch_call config
                 (phoneNumberId config +:+ "/whatsapp_business_profile")
                 (with_json POST (VObject payload))])%list /\
    lookup_prop payload "messaging_product"
    = Some (default (VString "whatsapp") (lookup_prop props "messaging_product")) /\
    forall k, k <> "messaging_product" -> lookup_prop payload k = lookup_prop props k.
Proof.
  intros Hnd.
  exists (spread [("messaging_product", VString "whatsapp")] (VObject props)).
  split; [|split].
  - unfold BusinessService.updateProfile, bind. rewrite request_run.
    async_cases; reflexivity.
  - rewrite spread_lookup by assumption.
    destruct (lookup_prop props "messaging_product"); reflexivity.
  - intros k Hk. rewrite spread_lookup by assumption.
    destruct (lookup_prop props k); [reflexivity|].
    apply lookup_prop_notin. cbn [map fst]. intros [He|[]]. congruence.
Qed.

Lemma updateProfile_payload_witness :
  List.NoDup (map fst [("about", VString (filler 257))]) /\
  exists payload,
    snd (@BusinessService.updateProfile sample_runtime sample_config long_about
           unreachable [])
    = ([] ++ [BaseService.fetch_call sample_config
                "1234567890/whatsapp_business_profile"
                (@with_json sample_runtime POST (VObject payload))])%list /\
    lookup_prop payload "messaging_product"
    = Some (default (VString "whatsapp")
              (lookup_prop [("about", VString (filler 257))] "messaging_product")) /\
    forall k, k <> "messaging_product" ->
      lookup_prop payload k = lookup_prop [("about", VString (filler 257))] k.
Proof.
  assert (Hnd : List.NoDup (map fst [("about", VString (filler 257))]))
    by (repeat constructor; cbn; tauto).
  split; [exact Hnd|].
  exact (@updateProfile_payload sample_runtime sample_config
           [("about", VString (filler 257))] unreachable [] Hnd).
Defined.

(** * Further properties: webhook subscriptions *)

(** The subscribe options schema hands both properties over as given. *)
Lemma SubscribeOptions_props `{Runtime} options validated :
  parse WebhooksService.SubscribeOptionsSchema options = Some validated ->
  prop validated "override_callback_uri" = prop options "override_callback_uri" /\
  prop validated "verify_token" = prop options "verify_token".
Proof.
  intros Hp. unfold WebhooksService.SubscribeOptionsSchema in Hp.
  match type of Hp with
  | parse (ZObject ?sh) _ = _ =>
      destruct (parse_object_key sh options validated "override_callback_uri" _
                  ltac:(nodup_keys) Hp eq_refl) as (r1 & Hr1 & ->);
      destruct (parse_object_key sh options validated "verify_token" _
                  ltac:(nodup_keys) Hp eq_refl) as (r2 & Hr2 & ->)
  end.
  apply parse_leaf in Hr1; [|reflexivity]. apply parse_leaf in Hr2; [|reflexivity].
  now split.
Qed.

Lemma falsy_has_no_props v k : truthy v = false -> prop v k = VUndefined.
Proof. destruct v; try reflexivity. discriminate. Qed.

(** The body [subscribe] builds is empty exactly when neither property is
    truthy. *)
Lemma callback_entries_empty validated :
  (0 <? length (WebhooksService.callback_entries [] validated))%nat = false <->
  truthy (prop validated "override_callback_uri") = false /\
  truthy (prop validated "verify_token") = false.
Proof.
  unfold WebhooksService.callback_entries.
  destruct (truthy (prop validated "override_callback_uri")),
    (truthy (prop validated "verify_token")); cbn; intuition congruence.
Qed.

(** X14: the call of [subscribe] is a POST that always declares a JSON
    content type, and it has no body exactly when the options give neither
    a non-empty callback URL nor a non-empty verify token (empty strings
    count as absent). *)
Theorem subscribe_body_presence `{Runtime} self wabaId_ options net log call :
  snd (WebhooksService.subscribe self wabaId_ options net log) = (log ++ [call])%list ->
  req_method call = POST /\
  req_headers call !! "Content-Type" = Some "application/json" /\
  (req_body call = None <->
   truthy (prop options "override_callback_uri") = false /\
   truthy (prop options "verify_token") = false).
Proof.
  unfold WebhooksService.subscribe.
  assert (Hvalidated :
    forall validated,
      prop validated "override_callback_uri" = prop options "override_callback_uri" ->
      prop validated "verify_token" = prop options "verify_token" ->
      forall log0, log0 = log ->
      snd ((let* url :=
              new_URL (WebhooksService.this_baseUrl self +:+ "/" +:+ wabaId_
                       +:+ "/subscribed_apps") [] in
            let body := WebhooksService.callback_entries [] validated in
            let* response :=
              fetch {| req_url := url; req_method := POST;
                       req_headers :=
                         WebhooksService.json_headers (WebhooksService.this_config self);
                       req_body :=
                         if (0 <? length body)%nat
                         then Some (BodyString (JSON_stringify (VObject body)))
                         else None |} in
            if negb (ok response)
            then fail_with "Failed to subscribe to WABA: " response
            else
              let* data := response_json response in
              zparse WebhooksService.SubscriptionSchema data) net log0)
      = (log ++ [call])%list ->
      req_method call = POST /\
      req_headers call !! "Content-Type" = Some "application/json" /\
      (req_body call = None <->
       truthy (prop options "override_callback_uri") = false /\
       truthy (prop options "verify_token") = false)).
  { intros validated Ho Ht log0 ->.
    rewrite <- Ho, <- Ht, <- callback_entries_empty.
    async_cases; intros Hlog;
      try (exfalso; exact (log_not_extended _ _ Hlog));
      apply log_extended_inj in Hlog; subst call; cbn [req_method req_headers req_body];
      (split; [reflexivity|]); (split; [apply lookup_insert_eq|]);
      destruct (0 <? length (WebhooksService.callback_entries [] validated))%nat;
      intuition congruence. }
  destruct (truthy options) eqn:Htruthy.
  - unfold bind at 1, zparse.
    destruct (parse WebhooksService.SubscribeOptionsSchema options)
      as [validated|] eqn:Hp.
    + destruct (SubscribeOptions_props _ _ Hp) as [Ho Ht].
      unfold ret. cbv beta iota zeta. now apply Hvalidated.
    + unfold throw. cbn [snd]. intros Hlog. exfalso. exact (log_not_extended _ _ Hlog).
  - unfold bind at 1, ret. cbv beta iota zeta.
    apply (Hvalidated VUndefined);
      [symmetry; now apply falsy_has_no_props
      |symmetry; now apply falsy_has_no_props|reflexivity].
Qed.

(** An empty verify token counts as absent: the call has no body. *)
Lemma subscribe_body_presence_witness :
  snd (@WebhooksService.subscribe sample_runtime (WebhooksService.new sample_config)
         "102290129340398" (VObject [("verify_token", VString EmptyString)])
         unreachable [])
  = ([] ++ [bare_subscription_call])%list /\
  req_method bare_subscription_call = POST /\
  req_headers bare_subscription_call !! "Content-Type" = Some "application/json" /\
  (req_body bare_subscription_call = None <->
   truthy (prop (VObject [("verify_token", VString EmptyString)])
             "override_callback_uri") = false /\
   truthy (prop (VObject [("verify_token", VString EmptyString)]) "verify_token")
   = false).
Proof.
  assert (Hlog :
    snd (@WebhooksService.subscribe sample_runtime (WebhooksService.new sample_config)
           "102290129340398" (VObject [("verify_token", VString EmptyString)])
           unreachable [])
    = ([] ++ [bare_subscription_call])%list) by reflexivity.
  split; [exact Hlog|].
  exact (@subscribe_body_presence sample_runtime (WebhooksService.new sample_config)
           "102290129340398" (VObject [("verify_token", VString EmptyString)])
           unreachable [] bare_subscription_call Hlog).
Defined.

(** * Further properties: account and phone number listings *)

(** A page size the list options carry must be an integer from 1 to 100. *)
Lemma limit_out_of_range q :
  is_integer q = false \/ (q < 1)%Q \/ (100 < q)%Q ->
  forallb (number_check q) [Int; NumMin (inject_Z 1); NumMax (inject_Z 100)] = false.
Proof.
  intros Hq. cbn [forallb number_check].
  destruct (is_integer q); [|reflexivity].
  destruct (Qlt_le_dec q (inject_Z 1)) as [|Hmin]; [reflexivity|].
  destruct (Qlt_le_dec (inject_Z 100) q) as [|Hmax]; [reflexivity|].
  exfalso. destruct Hq as [Hq|[Hq|Hq]]; [discriminate| |].
  - now apply Qlt_not_le in Hq.
  - now apply Qlt_not_le in Hq.
Qed.

Lemma list_options_reject_limit `{Runtime} shape props q :
  shape_lookup shape "limit"
  = Some (ZOptional (ZNumber [Int; NumMin (inject_Z 1); NumMax (inject_Z 100)])) ->
  prop (VObject props) "limit" = VNumber q ->
  is_integer q = false \/ (q < 1)%Q \/ (100 < q)%Q ->
  parse (ZOptional (ZObject shape)) (VObject props) = None.
Proof.
  intros Hshape Hlimit Hq. rewrite parse_ZOptional.
  destruct (parse (ZObject shape) (VObject props)) as [out|] eqn:Hp; [|reflexivity].
  exfalso.
  assert (Hsome : is_Some (parse (ZObject shape) (VObject props))) by (now exists out).
  apply parse_object_some in Hsome as (props' & _ & Hall).
  rewrite List.Forall_forall in Hall.
  assert (Hin : In ("limit",
                    ZOptional (ZNumber [Int; NumMin (inject_Z 1); NumMax (inject_Z 100)]))
                  shape).
  { clear -Hshape. induction shape as [|[k s] rest IH]; [discriminate|].
    cbn [shape_lookup] in Hshape.
    destruct (String.eqb_spec k "limit") as [->|Hne].
    - injection Hshape as ->. now left.
    - right. now apply IH. }
  specialize (Hall _ Hin). cbn [fst snd] in Hall. rewrite Hlimit in Hall.
  rewrite parse_ZOptional, parse_ZNumber, limit_out_of_range in Hall by exact Hq.
  now destruct Hall.
Qed.

(** X15: the three listings check the page size before they call: a
    [limit] that is not an integer, is below 1 or is above 100 raises the
    validation failure and no call is made. *)
Theorem list_limit_checked_before_network `{Runtime} accounts numbers userId wabaId_
    props q net log :
  prop (VObject props) "limit" = VNumber q ->
  is_integer q = false \/ (q < 1)%Q \/ (100 < q)%Q ->
  WABAService.getOwned accounts (VObject props) net log = (inl ZodError, log) /\
  WABAService.getShared accounts userId (VObject props) net log = (inl ZodError, log) /\
  PhoneNumbersService.list_ numbers wabaId_ (VObject props) net log
  = (inl ZodError, log).
Proof.
  intros Hlimit Hq.
  repeat split; apply bind_inl, zparse_reject;
    eapply list_options_reject_limit; eauto; reflexivity.
Qed.

(** A page size of zero, against a network that would answer. *)
Lemma list_limit_checked_before_network_witness :
  prop (VObject [("limit", VInt 0)]) "limit" = VNumber (inject_Z 0) /\
  (is_integer (inject_Z 0) = false \/ (inject_Z 0 < 1)%Q \/ (100 < inject_Z 0)%Q) /\
  @WABAService.getOwned sample_runtime (WABAService.new sample_config)
    (VObject [("limit", VInt 0)]) (always success_response) []
  = (inl ZodError, []).
Proof.
  assert (Hq : is_integer (inject_Z 0) = false \/ (inject_Z 0 < 1)%Q
               \/ (100 < inject_Z 0)%Q) by (right; left; reflexivity).
  split; [reflexivity|]. split; [exact Hq|].
  exact (proj1 (@list_limit_checked_before_network sample_runtime
                  (WABAService.new sample_config)
                  (PhoneNumbersService.new sample_config)
                  "me" "102290129340398" [("limit", VInt 0)] (inject_Z 0)
                  (always success_response) [] eq_refl Hq)).
Defined.

(** What [getOwned] returns came out of the list response schema. *)
Lemma getOwned_returns_parsed `{Runtime} accounts options net log page log' :
  WABAService.getOwned accounts options net log = (inr page, log') ->
  exists payload, parse WABAService.WABAListResponseSchema payload = Some page.
Proof.
  unfold WABAService.getOwned. async_cases; intros Hg; try discriminate Hg.
  injection Hg as <- _. eauto.
Qed.

(** X16: [getFirst] makes the call of [getOwned] with a page size of one
    and fails exactly when that fails.  When the page comes back it
    returns the first account of the page, and [undefined] rather than a
    failure when the page is empty. *)
Theorem getFirst_returns_head `{Runtime} accounts net log :
  snd (WABAService.getFirst accounts net log)
  = snd (WABAService.getOwned accounts (VObject [("limit", VInt 1)]) net log) /\
  match fst (WABAService.getOwned accounts (VObject [("limit", VInt 1)]) net log) with
  | inl e => fst (WABAService.getFirst accounts net log) = inl e
  | inr page =>
      exists items,
        prop page "data" = VArray items /\
        fst (WABAService.getFirst accounts net log) = inr (hd VUndefined items)
  end.
Proof.
  unfold WABAService.getFirst, bind.
  destruct (WABAService.getOwned accounts (VObject [("limit", VInt 1)]) net log)
    as [[e|page] log'] eqn:Hg; cbn [fst snd]; [now split|].
  destruct (getOwned_returns_parsed _ _ _ _ _ _ Hg) as (payload & Hp).
  unfold WABAService.WABAListResponseSchema in Hp.
  match type of Hp with
  | parse (ZObject ?sh) _ = _ =>
      destruct (parse_object_key sh payload page "data" _ ltac:(nodup_keys) Hp eq_refl)
        as (r & Hr & Hdata)
  end.
  apply parse_array_inv in Hr as (items & parsed & _ & -> & _).
  rewrite Hdata. destruct parsed as [|first rest]; (split; [reflexivity|]);
    eexists; (split; [reflexivity|]); reflexivity.
Qed.

(** The subscription list schema keeps the number of subscriptions. *)
Lemma SubscriptionsList_data `{Runtime} payload page :
  parse WebhooksService.SubscriptionsListSchema payload = Some page ->
  exists items parsed,
    prop payload "data" = VArray items /\ prop page "data" = VArray parsed /\
    length parsed = length items.
Proof.
  intros Hp. unfold WebhooksService.SubscriptionsListSchema in Hp.
  match type of Hp with
  | parse (ZObject ?sh) _ = _ =>
      destruct (parse_object_key sh payload page "data" _ ltac:(nodup_keys) Hp eq_refl)
        as (r & Hr & Hdata)
  end.
  apply parse_array_inv in Hr as (items & parsed & Hitems & -> & Hparsed).
  exists items, parsed. repeat split; try assumption.
  now apply parse_items_length in Hparsed.
Qed.

(** X17: [isSubscribed] always answers, having made the calls of its
    lookup.  It answers true exactly when the address is a URL, the
    network answered the lookup with a success status and a JSON payload
    that the subscription list schema accepts, and the payload lists at
    least one subscription. *)
Theorem isSubscribed_true_iff `{Runtime} self wabaId_ net log :
  exists b,
    WebhooksService.isSubscribed self wabaId_ net log
    = (inr b, snd (WebhooksService.getSubscriptions self wabaId_ net log)) /\
    (b = true <->
     exists url response payload first rest,
       URL_href (WebhooksService.this_baseUrl self +:+ "/" +:+ wabaId_
                 +:+ "/subscribed_apps") [] = Some url /\
       net {| req_url := url; req_method := GET;
              req_headers := bearer (WebhooksService.this_config self);
              req_body := None |} = Answered response /\
       ok response = true /\
       json response = Some payload /\
       is_Some (parse WebhooksService.SubscriptionsListSchema payload) /\
       prop payload "data" = VArray (first :: rest)).
Proof.
  unfold WebhooksService.isSubscribed, WebhooksService.getSubscriptions.
  async.
  destruct (URL_href _ _) as [url|] eqn:Hurl; async; cycle 1.
  { exists false. split; [reflexivity|]. split; [discriminate|].
    intros (u & r & p & f & rs & Hu & _). discriminate. }
  match goal with
  | |- context [match ?n ?call with _ => _ end] =>
      match type of n with
      | Network => destruct (n call) as [response|] eqn:Hnet
      end
  end; async; cycle 1.
  { exists false. split; [reflexivity|]. split; [discriminate|].
    intros (u & r & p & f & rs & Hu & Hn & _). congruence. }
  destruct (ok response) eqn:Hok; async; cycle 1.
  { exists false. split; [async_cases; reflexivity|]. split; [discriminate|].
    intros (u & r & p & f & rs & Hu & Hn & Ho & _). congruence. }
  destruct (json response) as [payload|] eqn:Hjson; async; cycle 1.
  { exists false. split; [reflexivity|]. split; [discriminate|].
    intros (u & r & p & f & rs & Hu & Hn & Ho & Hj & _). congruence. }
  destruct (parse WebhooksService.SubscriptionsListSchema payload) as [page|] eqn:Hp;
    async; cycle 1.
  { exists false. split; [reflexivity|]. split; [discriminate|].
    intros (u & r & p & f & rs & Hu & Hn & Ho & Hj & [page Hpage] & _).
    congruence. }
  destruct (SubscriptionsList_data _ _ Hp) as (items & parsed & Hitems & Hparsed & Hlen).
  rewrite Hparsed. exists (0 <? length parsed)%nat. split; [reflexivity|].
  rewrite Hlen. split.
  - intros Hpos. destruct items as [|first rest]; [discriminate|].
    exists url, response, payload, first, rest. rewrite Hp. eauto 10.
  - intros (u & r & p & f & rs & Hu & Hn & Ho & Hj & _ & Hdata).
    assert (u = url) by congruence. subst u.
    assert (r = response) by congruence. subst r.
    assert (p = payload) by congruence. subst p.
    rewrite Hitems in Hdata. injection Hdata as ->. reflexivity.
Qed.

(** * Further properties: registration *)

(** X18: [BusinessService.registerPhoneNumber] and
    [RegistrationService.register] address the same endpoint.  The former
    sends whatever PIN it is given.  The latter makes the same call for a
    PIN of six characters, failing whenever the former fails, and makes no
    call for any other PIN. *)
Theorem register_checks_what_registerPhoneNumber_sends `{Runtime} config pin net log :
  snd (BusinessService.registerPhoneNumber config pin net log)
  = (log ++ [BaseService.fetch_call config (phoneNumberId config +:+ "/register")
               (with_json POST
                  (VObject [("messaging_product", VString "whatsapp");
                            ("pin", VString pin)]))])%list /\
  (String.length pin = 6%nat ->
   snd (RegistrationService.register config pin net log)
   = snd (BusinessService.registerPhoneNumber config pin net log) /\
   forall e,
     fst (BusinessService.registerPhoneNumber config pin net log) = inl e ->
     fst (RegistrationService.register config pin net log) = inl e) /\
  (String.length pin <> 6%nat ->
   RegistrationService.register config pin net log = (inl ZodError, log)).
Proof.
  unfold BusinessService.registerPhoneNumber, RegistrationService.register.
  split; [apply request_log|]. split.
  - intros Hlen. apply Nat.eqb_eq in Hlen.
    erewrite bind_inr; cycle 1.
    { apply zparse_accept. cbv -[String.length Nat.eqb]. rewrite Hlen. reflexivity. }
    unfold bind.
    destruct (BaseService.request _ _ _ net log) as [[e|v] log'] eqn:Hr; cbn [fst snd].
    + split; [reflexivity|]. now intros e' [= <-].
    + split; [|discriminate]. unfold zparse.
      now destruct (parse _ v).
  - intros Hlen. apply Nat.eqb_neq in Hlen.
    apply bind_inl, zparse_reject.
    cbv -[String.length Nat.eqb]. now rewrite Hlen.
Qed.

(** X19: [requestCode] makes its call only for the code methods SMS and
    VOICE, and the payload it sends always names a language: the caller's,
    or en_US when the caller gives none. *)
Theorem requestCode_payload `{Runtime} config codeMethod language net log call :
  snd (RegistrationService.requestCode config codeMethod language net log)
  = (log ++ [call])%list ->
  (codeMethod = "SMS" \/ codeMethod = "VOICE") /\
  call = BaseService.fetch_call config (phoneNumberId config +:+ "/request_code")
           (with_json POST
              (VObject [("code_method", VString codeMethod);
                        ("language", VString (default "en_US" language))])).
Proof.
  unfold RegistrationService.requestCode. unfold bind at 1, zparse.
  generalize (default "en_US" language). intros chosen.
  destruct (parse _ _) as [payload|] eqn:Hp; unfold ret, throw; cbn [snd];
    [|intros Hlog; exfalso; exact (log_not_extended _ _ Hlog)].
  cbv -[mem_string] in Hp.
  destruct (mem_string codeMethod ["SMS"; "VOICE"]) eqn:Hm; [|discriminate Hp].
  injection Hp as <-.
  unfold bind. rewrite request_run. cbn [snd].
  destruct (net _) as [response|]; [destruct (json response); [destruct (ok response)|]|];
    cbn [snd]; try (destruct (parse _ _)); cbn [snd]; intros Hlog.
  all: apply log_extended_inj in Hlog; subst call; split; [|reflexivity].
  all: unfold mem_string in Hm; cbn [existsb] in Hm;
    destruct (String.eqb_spec codeMethod "SMS"); [now left|];
    destruct (String.eqb_spec codeMethod "VOICE"); [now right|discriminate].
Qed.

(** A code requested by SMS without a language. *)
Lemma requestCode_payload_witness :
  snd (@RegistrationService.requestCode sample_runtime sample_config "SMS" None
         unreachable [])
  = ([] ++ [BaseService.fetch_call sample_config "1234567890/request_code"
              (@with_json sample_runtime POST
                 (VObject [("code_method", VString "SMS");
                           ("language", VString "en_US")]))])%list /\
  ("SMS" = "SMS" \/ "SMS" = "VOICE").
Proof.
  assert (Hlog :
    snd (@RegistrationService.requestCode sample_runtime sample_config "SMS" None
           unreachable [])
    = ([] ++ [BaseService.fetch_call sample_config "1234567890/request_code"
                (@with_json sample_runtime POST
                   (VObject [("code_method", VString "SMS");
                             ("language", VString "en_US")]))])%list)
    by reflexivity.
  split; [exact Hlog|].
  exact (proj1 (@requestCode_payload sample_runtime sample_config "SMS" None
                  unreachable [] _ Hlog)).
Defined.

(** * Further properties: webhook notifications *)

(** A notification schema built from an entry shape whose [changes] are
    change objects with the literal [lit] accepts tagged notifications
    only. *)
Lemma webhook_schema_tagged `{Runtime} entry_shape value_schema lit v :
  List.NoDup (map fst entry_shape) ->
  shape_lookup entry_shape "changes"
  = Some (ZArray (ZObject [("value", value_schema); ("field", ZLiteral lit)]) None) ->
  is_Some (parse (ZObject [("object", ZLiteral "whatsapp_business_account");
                           ("entry", ZArray (ZObject entry_shape) None)]) v) ->
  changes_tagged lit v.
Proof.
  intros Hnd Hchanges [out Hp].
  match type of Hp with
  | parse (ZObject ?sh) _ = _ =>
      destruct (parse_object_key sh v out "object" _ ltac:(nodup_keys) Hp eq_refl)
        as (r1 & Hobject & _);
      destruct (parse_object_key sh v out "entry" _ ltac:(nodup_keys) Hp eq_refl)
        as (r2 & Hentry & _)
  end.
  split; [now apply parse_literal_inv in Hobject|].
  apply parse_array_inv in Hentry as (entries & parsed & Hentries & _ & Hitems).
  exists entries. split; [exact Hentries|].
  apply parse_items_all in Hitems.
  eapply List.Forall_impl; [|exact Hitems].
  intros entry [entry' Hentry]. cbv beta in Hentry.
  destruct (parse_object_key entry_shape entry entry' "changes" _ Hnd Hentry Hchanges)
    as (r3 & Hlist & _).
  apply parse_array_inv in Hlist as (changes & parsed' & Hlist & _ & Hitems').
  exists changes. split; [exact Hlist|].
  apply parse_items_all in Hitems'.
  eapply List.Forall_impl; [|exact Hitems'].
  intros change [change' Hchange]. cbv beta in Hchange.
  now apply change_schema_field in Hchange.
Qed.

Ltac unfold_notification_schemas :=
  unfold MessagesWebhook.MessagesWebhookSchema,
    MessagesWebhook.MessagesEntrySchema, MessagesWebhook.MessagesChangeSchema,
    TemplateComponentsUpdate.MessageTemplateComponentsUpdateWebhookSchema,
    TemplateComponentsUpdate.TemplateComponentsUpdateEntrySchema,
    TemplateComponentsUpdate.TemplateComponentsUpdateChangeSchema,
    TemplateQualityUpdate.MessageTemplateQualityUpdateWebhookSchema,
    TemplateQualityUpdate.TemplateQualityUpdateEntrySchema,
    TemplateQualityUpdate.TemplateQualityUpdateChangeSchema in *.

(** X20: each notification schema accepts only payloads of the account
    object whose every change carries the discriminator of the schema's
    change object: messages, message_template_components_update, and for
    the quality update schema message_template_status_update. *)
Theorem webhook_changes_carry_discriminator `{Runtime} v :
  (is_Some (parse MessagesWebhook.MessagesWebhookSchema v) ->
   changes_tagged "messages" v) /\
  (is_Some (parse TemplateComponentsUpdate.MessageTemplateComponentsUpdateWebhookSchema v) ->
   changes_tagged "message_template_components_update" v) /\
  (is_Some (parse TemplateQualityUpdate.MessageTemplateQualityUpdateWebhookSchema v) ->
   changes_tagged "message_template_status_update" v).
Proof.
  unfold_notification_schemas.
  split; [|split]; eapply webhook_schema_tagged; solve [nodup_keys | reflexivity].
Qed.

(** Two different tags leave no change to carry them. *)
Lemma tagged_twice lit lit' v :
  lit <> lit' -> changes_tagged lit v -> changes_tagged lit' v ->
  exists entries,
    prop v "entry" = VArray entries /\
    List.Forall (fun entry => prop entry "changes" = VArray []) entries.
Proof.
  intros Hne (_ & entries & Hentries & Hall) (_ & entries' & Hentries' & Hall').
  rewrite Hentries in Hentries'. injection Hentries' as <-.
  exists entries. split; [exact Hentries|].
  rewrite List.Forall_forall in *. intros entry Hin.
  destruct (Hall _ Hin) as (changes & Hchanges & Htag).
  destruct (Hall' _ Hin) as (changes' & Hchanges' & Htag').
  rewrite Hchanges in Hchanges'. injection Hchanges' as <-.
  destruct changes as [|change rest]; [exact Hchanges|].
  exfalso. apply List.Forall_inv in Htag, Htag'. congruence.
Qed.

(** X21: the three notification schemas tell payloads apart by their
    changes only: a payload that two of them accept has no change in any
    of its entries. *)
Theorem webhook_schemas_overlap_without_changes `{Runtime} v :
  (is_Some (parse MessagesWebhook.MessagesWebhookSchema v) /\
   is_Some (parse TemplateComponentsUpdate.MessageTemplateComponentsUpdateWebhookSchema v))
  \/
  (is_Some (parse MessagesWebhook.MessagesWebhookSchema v) /\
   is_Some (parse TemplateQualityUpdate.MessageTemplateQualityUpdateWebhookSchema v))
  \/
  (is_Some (parse TemplateComponentsUpdate.MessageTemplateComponentsUpdateWebhookSchema v) /\
   is_Some (parse TemplateQualityUpdate.MessageTemplateQualityUpdateWebhookSchema v)) ->
  exists entries,
    prop v "entry" = VArray entries /\
    List.Forall (fun entry => prop entry "changes" = VArray []) entries.
Proof.
  unfold_notification_schemas.
  intros [[Ha Hb]|[[Ha Hb]|[Ha Hb]]].
  - apply (tagged_twice "messages" "message_template_components_update");
      [discriminate
      |eapply webhook_schema_tagged; [| |exact Ha]
      |eapply webhook_schema_tagged; [| |exact Hb]];
      solve [nodup_keys | reflexivity].
  - apply (tagged_twice "messages" "message_template_status_update");
      [discriminate
      |eapply webhook_schema_tagged; [| |exact Ha]
      |eapply webhook_schema_tagged; [| |exact Hb]];
      solve [nodup_keys | reflexivity].
  - apply (tagged_twice "message_template_components_update"
             "message_template_status_update");
      [discriminate
      |eapply webhook_schema_tagged; [| |exact Ha]
      |eapply webhook_schema_tagged; [| |exact Hb]];
      solve [nodup_keys | reflexivity].
Qed.

(** A notification whose one entry reports no change passes the messages
    schema and the components update schema. *)
Lemma webhook_schemas_overlap_without_changes_witness :
  (is_Some (@parse sample_runtime MessagesWebhook.MessagesWebhookSchema
              quiet_notification) /\
   is_Some (@parse sample_runtime
              TemplateComponentsUpdate.MessageTemplateComponentsUpdateWebhookSchema
              quiet_notification)) /\
  exists entries,
    prop quiet_notification "entry" = VArray entries /\
    List.Forall (fun entry => prop entry "changes" = VArray []) entries.
Proof.
  assert (Hboth :
    is_Some (@parse sample_runtime MessagesWebhook.MessagesWebhookSchema
               quiet_notification) /\
    is_Some (@parse sample_runtime
               TemplateComponentsUpdate.MessageTemplateComponentsUpdateWebhookSchema
               quiet_notification))
    by (split; eexists; vm_compute; reflexivity).
  split; [exact Hboth|].
  exact (@webhook_schemas_overlap_without_changes sample_runtime quiet_notification
           (or_introl Hboth)).
Defined.

(** * Further properties: field subscriptions *)

(** X22: [subscribeToFields] makes its call only when every field is one
    of the eleven known webhook fields.  The call is a POST that always
    has a body, and the body lists the fields as given, in order, under
    [subscribed_fields]; an empty list of fields is sent as such. *)
Theorem subscribeToFields_sends_known_fields `{Runtime} self wabaId_ fields options
    net log call :
  snd (WebhooksService.subscribeToFields self wabaId_ fields options net log)
  = (log ++ [call])%list ->
  List.Forall
    (fun field =>
       In field
          ["messages"; "message_template_status_update";
           "message_template_quality_update"; "phone_number_name_update";
           "phone_number_quality_update"; "account_alerts"; "account_update";
           "business_capability_update"; "message_echoes"; "security";
           "template_category_update"])
    fields /\
  req_method call = POST /\
  exists body,
    req_body call = Some (BodyString (JSON_stringify (VObject body))) /\
    lookup_prop body "subscribed_fields" = Some (VArray (map VString fields)).
Proof.
  unfold WebhooksService.subscribeToFields.
  assert (Hknown :
    forallb (fun field =>
               bool_decide (is_Some (parse WebhooksService.WebhookFieldSchema
                                       (VString field)))) fields = true ->
    List.Forall
      (fun field =>
         In field
            ["messages"; "message_template_status_update";
             "message_template_quality_update"; "phone_number_name_update";
             "phone_number_quality_update"; "account_alerts"; "account_update";
             "business_capability_update"; "message_echoes"; "security";
             "template_category_update"])
      fields).
  { intros Hall. rewrite List.Forall_forall. intros field Hin.
    rewrite forallb_forall in Hall. specialize (Hall _ Hin).
    apply bool_decide_eq_true in Hall as [out Hp].
    unfold WebhooksService.WebhookFieldSchema in Hp. cbv -[mem_string] in Hp.
    destruct (mem_string _ _) eqn:Hm in Hp; [|discriminate Hp].
    unfold mem_string in Hm. apply existsb_exists in Hm as (name & Hname & Heq).
    apply String.eqb_eq in Heq. now subst name. }
  assert (Hbody : forall validated,
    lookup_prop
      (WebhooksService.callback_entries
         [("subscribed_fields", VArray (map VString fields))] validated)
      "subscribed_fields"
    = Some (VArray (map VString fields))).
  { intros validated. unfold WebhooksService.callback_entries.
    destruct (truthy (prop validated "override_callback_uri")),
      (truthy (prop validated "verify_token"));
      rewrite ?lookup_set_prop; reflexivity. }
  destruct (forallb _ fields); destruct (truthy options);
    async_cases; intros Hlog;
    try (exfalso; exact (log_not_extended _ _ Hlog));
    apply log_extended_inj in Hlog; subst call; cbn [req_method req_body];
    (split; [now apply Hknown|]); (split; [reflexivity|]);
    eexists; (split; [reflexivity|]); apply Hbody.
Qed.

(** A subscription to the one field messages. *)
Lemma subscribeToFields_sends_known_fields_witness :
  snd (@WebhooksService.subscribeToFields sample_runtime
         (WebhooksService.new sample_config) "102290129340398" ["messages"]
         VUndefined unreachable [])
  = ([] ++ [messages_subscription_call])%list /\
  req_method messages_subscription_call = POST /\
  exists body,
    req_body messages_subscription_call
    = Some (BodyString (@JSON_stringify sample_runtime (VObject body))) /\
    lookup_prop body "subscribed_fields" = Some (VArray (map VString ["messages"])).
Proof.
  assert (Hlog :
    snd (@WebhooksService.subscribeToFields sample_runtime
           (WebhooksService.new sample_config) "102290129340398" ["messages"]
           VUndefined unreachable [])
    = ([] ++ [messages_subscription_call])%list) by reflexivity.
  split; [exact Hlog|].
  exact (proj2 (@subscribeToFields_sends_known_fields sample_runtime
                  (WebhooksService.new sample_config) "102290129340398" ["messages"]
                  VUndefined unreachable [] messages_subscription_call Hlog)).
Defined.

(** * Further properties: the subscription types *)

Section Refinement.
Context `{Runtime}.

Lemma refines_refl s : refines s s.
Proof. now intros v. Qed.

Lemma refines_optional s s' : refines s s' -> refines s (ZOptional s').
Proof.
  intros Href v Hv. rewrite parse_ZOptional.
  destruct v; try (now apply Href). now exists VUndefined.
Qed.

Lemma refines_array s s' : refines s s' -> refines (ZArray s None) (ZArray s' None).
Proof.
  intros Href v [out Hv].
  apply parse_array_inv in Hv as (items & parsed & -> & _ & Hitems).
  apply parse_items_all in Hitems.
  assert (Hsome : is_Some (parse_items (parse s') items)).
  { apply parse_items_some. eapply List.Forall_impl; [|exact Hitems].
    intros item. apply Href. }
  destruct Hsome as [parsed' Hparsed']. rewrite parse_ZArray, Hparsed'.
  now eexists.
Qed.

(** An object schema refines another when it constrains each key of the
    other at least as much. *)
Lemma refines_object shape shape' :
  List.Forall (fun ks' => exists s, In (fst ks', s) shape /\ refines s (snd ks')) shape' ->
  refines (ZObject shape) (ZObject shape').
Proof.
  intros Hall v Hv. apply parse_object_some in Hv as (props & -> & Hf).
  apply parse_object_some. exists props. split; [reflexivity|].
  rewrite List.Forall_forall in *. intros [k s'] Hin.
  destruct (Hall _ Hin) as (s & Hs & Href). apply Href. exact (Hf (k, s) Hs).
Qed.

End Refinement.

(** X23: the subscription types are at least as strict as the schemas of
    the webhooks service.  Every subscription list the type module accepts
    passes the schema [getSubscriptions] parses its response with, but not
    conversely: the service accepts an entry that names no application.
    Every list of subscriptions with an overridden callback is a
    subscription list, and every override request passes the options
    schema of [subscribe]. *)
Theorem subscription_types_refine_service_schemas `{Runtime} :
  refines Subscriptions.GetSubscriptionsResponseSchema
    WebhooksService.SubscriptionsListSchema /\
  ~ refines WebhooksService.SubscriptionsListSchema
      Subscriptions.GetSubscriptionsResponseSchema /\
  refines Subscriptions.OverrideCallbackURLResponseSchema
    Subscriptions.GetSubscriptionsResponseSchema /\
  refines Subscriptions.OverrideCallbackURLRequestSchema
    WebhooksService.SubscribeOptionsSchema.
Proof.
  unfold Subscriptions.GetSubscriptionsResponseSchema,
    Subscriptions.OverrideCallbackURLResponseSchema,
    Subscriptions.OverrideCallbackURLRequestSchema,
    Subscriptions.SubscribedAppSchema, Subscriptions.SubscribedAppWithOverrideSchema,
    Subscriptions.WhatsAppBusinessAPIDataSchema,
    WebhooksService.SubscriptionsListSchema, WebhooksService.SubscribeOptionsSchema.
  split; [|split; [|split]].
  - apply refines_object. repeat constructor. eexists. split; [now left|].
    apply refines_array, refines_object. repeat constructor.
    eexists. split; [now left|].
    apply refines_optional, refines_object. repeat constructor.
    eexists. split; [now left|]. apply refines_refl.
  - intros Href. specialize (Href anonymous_subscription).
    destruct Href as [out Hout]; [eexists; vm_compute; reflexivity|].
    vm_compute in Hout. discriminate Hout.
  - apply refines_object. repeat constructor. eexists. split; [now left|].
    apply refines_array, refines_object. repeat constructor.
    eexists. split; [now left|]. apply refines_refl.
  - apply refines_object. repeat constructor.
    + eexists. split; [now left|]. apply refines_optional, refines_refl.
    + eexists. split; [right; now left|]. apply refines_optional, refines_refl.
Qed.

(** * Further properties: templates and QR codes *)

(** X24: no operation of the templates service checks that the
    configuration names an account.  Without [wabaId], [list], [delete],
    [getByName] and [getByStatus] each make their call, addressed to the
    path undefined/message_templates. *)
Theorem templates_address_undefined_account `{Runtime} config options name status_
    net log :
  wabaId config = None ->
  (exists suffix,
     map req_url (snd (TemplatesService.list_ config options net log))
     = (map req_url log
        ++ [BaseService.buildUrl config ("undefined/message_templates" +:+ suffix)])%list) /\
  (exists suffix,
     map req_url (snd (TemplatesService.delete config name options net log))
     = (map req_url log
        ++ [BaseService.buildUrl config ("undefined/message_templates" +:+ suffix)])%list) /\
  (exists suffix,
     map req_url (snd (TemplatesService.getByName config name net log))
     = (map req_url log
        ++ [BaseService.buildUrl config ("undefined/message_templates" +:+ suffix)])%list) /\
  (exists suffix,
     map req_url (snd (TemplatesService.getByStatus config status_ options net log))
     = (map req_url log
        ++ [BaseService.buildUrl config ("undefined/message_templates" +:+ suffix)])%list).
Proof.
  intros Hwaba.
  unfold TemplatesService.list_, TemplatesService.delete, TemplatesService.getByName,
    TemplatesService.getByStatus, wabaId_value.
  rewrite Hwaba. cbn [opt_string template]. cbv zeta.
  rewrite !request_then_parse_log, !map_app. cbn [map]. rewrite !request_url.
  repeat split; eexists; reflexivity.
Qed.

(** The sample configuration names no account. *)
Lemma templates_address_undefined_account_witness :
  wabaId sample_config = None /\
  exists suffix,
    map req_url
      (snd (@TemplatesService.getByName sample_runtime sample_config "welcome_message"
              unreachable []))
    = (map req_url []
       ++ [BaseService.buildUrl sample_config
             ("undefined/message_templates" +:+ suffix)])%list.
Proof.
  split; [reflexivity|].
  exact (proj1 (proj2 (proj2
           (@templates_address_undefined_account sample_runtime sample_config
              VUndefined "welcome_message" "APPROVED" unreachable [] eq_refl)))).
Defined.

(** What an optional key of an object schema whose value schema hands its
    input back makes of the object's property: the property as it is
    when the object has it, and nothing otherwise. *)
Lemma parse_optional_leaf `{Runtime} s props k r :
  leaf s = true ->
  parse (ZOptional s) (prop (VObject props) k) = Some r ->
  (if has_prop props k || negb (is_undefined r) then [(k, r)] else [])
  = match lookup_prop props k with
    | Some v => [(k, v)]
    | None => []
    end.
Proof.
  intros Hleaf Hr. rewrite parse_ZOptional in Hr.
  unfold has_prop. cbn [prop] in Hr.
  destruct (lookup_prop props k) as [v|]; cbn [default from_option id] in Hr.
  - destruct v; try (apply (parse_leaf s Hleaf) in Hr); try injection Hr as Hr;
      subst r; reflexivity.
  - injection Hr as <-. reflexivity.
Qed.

(** X25: [create] sends a body exactly when it is given options.  The
    options then are an object, and the object serialized into the body
    holds exactly the options the schema knows that the caller gave,
    prefilled_message and then generate_qr_image, each with the caller's
    value: any other key of the options is dropped before the call. *)
Theorem qr_create_sends_known_options `{Runtime} config options net log call :
  snd (QRCodesService.create config options net log) = (log ++ [call])%list ->
  req_method call = POST /\
  req_url call = BaseService.buildUrl config (phoneNumberId config +:+ "/message_qrdls") /\
  if truthy options
  then exists props,
         options = VObject props /\
         req_body call
         = Some (BodyString
                   (JSON_stringify
                      (VObject
                         (match lookup_prop props "prefilled_message" with
                          | Some v => [("prefilled_message", v)]
                          | None => []
                          end
                          ++ match lookup_prop props "generate_qr_image" with
                             | Some v => [("generate_qr_image", v)]
                             | None => []
                             end)%list)))
  else req_body call = None.
Proof.
  unfold QRCodesService.create.
  destruct (truthy options) eqn:Htruthy.
  - unfold bind at 1. unfold zparse at 1.
    destruct (parse QRCodesService.CreateQRCodeSchema options) as [validated|] eqn:Hp;
      unfold ret, throw; cbv beta iota zeta;
      [|cbn [snd]; intros Hlog; exfalso; exact (log_not_extended _ _ Hlog)].
    rewrite request_then_parse_log. intros Hlog.
    apply log_extended_inj in Hlog. subst call.
    split; [reflexivity|]. split; [reflexivity|].
    cbn [BaseService.fetch_call req_body body].
    unfold QRCodesService.CreateQRCodeSchema in Hp. rewrite parse_ZObject in Hp.
    destruct options as [| | | | | |props]; try discriminate Hp.
    exists props. split; [reflexivity|].
    cbn [parse_shape] in Hp.
    destruct (parse (ZOptional (ZString [Max 1000]))
                (prop (VObject props) "prefilled_message")) as [r1|] eqn:Hr1;
      [|discriminate Hp].
    destruct (parse (ZOptional (ZEnum ["PNG"; "SVG"]))
                (prop (VObject props) "generate_qr_image")) as [r2|] eqn:Hr2;
      [|discriminate Hp].
    pose proof (parse_optional_leaf (ZString [Max 1000]) _ _ _ eq_refl Hr1) as H1.
    pose proof (parse_optional_leaf (ZEnum ["PNG"; "SVG"]) _ _ _ eq_refl Hr2) as H2.
    destruct (has_prop props "generate_qr_image" || negb (is_undefined r2));
      destruct (has_prop props "prefilled_message" || negb (is_undefined r1));
      cbn [option_map] in Hp; injection Hp as <-; cbn [truthy];
      rewrite <- H1, <- H2; reflexivity.
  - unfold bind at 1, ret. cbv beta iota zeta. rewrite request_then_parse_log.
    intros Hlog. apply log_extended_inj in Hlog. subst call.
    repeat split.
Qed.

(** Options with one known and one unknown key, on a platform that
    prints the keys of what it serializes. *)
Lemma qr_create_sends_known_options_witness :
  snd (@QRCodesService.create printing_runtime sample_config tagged_qr_options
         unreachable [])
  = ([] ++ [BaseService.fetch_call sample_config "1234567890/message_qrdls"
              {| method := Some POST; headers := ∅;
                 body := Some (BodyString "prefilled_message=Hello") |}])%list /\
  exists props,
    tagged_qr_options = VObject props /\
    Some (BodyString "prefilled_message=Hello")
    = Some (BodyString
              (@JSON_stringify printing_runtime
                 (VObject
                    (match lookup_prop props "prefilled_message" with
                     | Some v => [("prefilled_message", v)]
                     | None => []
                     end
                     ++ match lookup_prop props "generate_qr_image" with
                        | Some v => [("generate_qr_image", v)]
                        | None => []
                        end)%list))).
Proof.
  assert (Hlog :
    snd (@QRCodesService.create printing_runtime sample_config tagged_qr_options
           unreachable [])
    = ([] ++ [BaseService.fetch_call sample_config "1234567890/message_qrdls"
                {| method := Some POST; headers := ∅;
                   body := Some (BodyString "prefilled_message=Hello") |}])%list)
    by reflexivity.
  split; [exact Hlog|].
  exact (proj2 (proj2 (@qr_create_sends_known_options printing_runtime sample_config
                         tagged_qr_options unreachable [] _ Hlog))).
Defined.
